(** * Card-custody tracker: delivery status, recording, import, credentials

    Shallow embedding of [app.py] and [models.py].

    Conventions.
    - A Python [str] is a Rocq [string], read as the UTF-8 bytes of the text.
    - A nullable column ([Optional[...]] on the Python side) is an [option].
    - Primary keys are [Z]; row counts are [nat].
    - A table is the list of its rows.  The order of that list is the
      physical order of the rows and carries no meaning for a query unless
      the query asks for an order.
    - A query with [order_by(Delivery.entrega_at.asc())] is a relation: the
      store may answer with any arrangement of the selected rows that is
      ascending in [entrega_at].  The source names no second sort key, and
      SQL leaves the order of rows with equal keys to the engine
      ([config.py] points the application at SQLite or at PostgreSQL).
    - [engine_order] is the one arrangement SQLite, the engine of the
      default [DATABASE_URL], answers with: the rows are read by ascending
      key and sorted by [entrega_at], and rows of equal [entrega_at] stay
      in the order read.  It is an answer of the relation, so what is
      proved of every answer holds of it. *)

From Stdlib Require Import List String Ascii ZArith Lia Bool Arith PeanoNat.
From Stdlib Require Import Permutation Sorted DecimalString NArith.
From Stdlib Require DecimalZ DecimalPos.
Import ListNotations.
Open Scope string_scope.

(* ================================================================== *)
(** * Python helpers *)
(* ================================================================== *)

(** [x or ""] on an optional string. *)
Definition or_empty (s : option string) : string :=
  match s with
  | Some v => v
  | None => ""
  end.

(** [f"{x}"] on an optional string. *)
Definition fstr (s : option string) : string :=
  match s with
  | Some v => v
  | None => "None"
  end.

(** Truth value of an optional string: [None] and [""] are false. *)
Definition truthy_str (s : option string) : bool :=
  match s with
  | Some v => negb (String.eqb v "")
  | None => false
  end.

(** [l[-1]] guarded by [if l]. *)
Fixpoint last_opt {A : Type} (l : list A) : option A :=
  match l with
  | [] => None
  | [x] => Some x
  | _ :: l' => last_opt l'
  end.

(** [str(n)] for a non-negative integer. *)
Definition str_of_nat (n : nat) : string :=
  NilEmpty.string_of_uint (Nat.to_uint n).

(** [str(n)] for a field of a [datetime]. *)
Definition str_of_N (n : N) : string :=
  NilEmpty.string_of_uint (N.to_uint n).

(** Left padding with zeros up to [width] characters. *)
Definition zfill (width : nat) (s : string) : string :=
  concat "" (repeat "0" (width - String.length s)) ++ s.

(* ================================================================== *)
(** * datetime *)
(* ================================================================== *)

Record datetime : Type := mk_datetime {
  year : N;
  month : N;
  day : N;
  hour : N;
  minute : N;
  second : N;
  microsecond : N
}.

Definition dt_fields (d : datetime) : list N :=
  [year d; month d; day d; hour d; minute d; second d; microsecond d].

(** Lexicographic comparison, the order of [datetime.__lt__]. *)
Fixpoint lex_compare (a b : list N) : comparison :=
  match a, b with
  | [], [] => Eq
  | [], _ :: _ => Lt
  | _ :: _, [] => Gt
  | x :: a', y :: b' =>
      match N.compare x y with
      | Eq => lex_compare a' b'
      | c => c
      end
  end.

Definition dt_compare (x y : datetime) : comparison :=
  lex_compare (dt_fields x) (dt_fields y).

Definition dt_leb (x y : datetime) : bool :=
  match dt_compare x y with
  | Gt => false
  | _ => true
  end.

Definition dt_ltb (x y : datetime) : bool :=
  match dt_compare x y with
  | Lt => true
  | _ => false
  end.

(** [dt.strftime("%Y-%m-%d %H:%M:%S")].  The year is written as the C
    library of Linux writes [%Y], without padding: the year 999 on three
    digits.  The other fields take two digits; microseconds are dropped. *)
Definition strftime (d : datetime) : string :=
  str_of_N (year d) ++ "-" ++
  zfill 2 (str_of_N (month d)) ++ "-" ++
  zfill 2 (str_of_N (day d)) ++ " " ++
  zfill 2 (str_of_N (hour d)) ++ ":" ++
  zfill 2 (str_of_N (minute d)) ++ ":" ++
  zfill 2 (str_of_N (second d)).

(** A [datetime] object is always true, so [not dt] holds for [None] only. *)
Definition truthy_dt (dt : option datetime) : bool :=
  match dt with
  | Some _ => true
  | None => false
  end.

Definition format_dt (dt : option datetime) : string :=
  match dt with
  | None => ""
  | Some d => strftime d
  end.

(* ================================================================== *)
(** * models.py *)
(* ================================================================== *)

Module Password.
Record t : Type := mk {
  id : Z;
  hash : string
}.
End Password.

Module Card.
Record t : Type := mk {
  id : Z;
  category : string;
  n : option string;
  modulo_sector : option string;
  categoria : option string;
  subcategoria : option string;
  nombre_tarjeta : option string;
  tipo_tarjeta : option string;
  numero_tarjeta : option string;
  status : option string;
  created_at : option datetime
}.
End Card.

Module Delivery.
Record t : Type := mk {
  id : Z;
  category : string;
  card_id : option Z;
  card_number : option string;
  rut : option string;
  nombre : option string;
  cargo : option string;
  empresa : option string;
  entrega_at : option datetime;
  devolucion_at : option datetime;
  created_at : option datetime
}.
End Delivery.

(** The three tables of the database. *)
Record Store : Type := mk_store {
  passwords : list Password.t;
  cards : list Card.t;
  deliveries : list Delivery.t
}.

(** Next value of an integer primary key. *)
Definition fresh_id (ids : list Z) : Z :=
  1 + fold_right Z.max 0%Z ids.

(* ================================================================== *)
(** * Queries on deliveries *)
(* ================================================================== *)

(** [filter_by(category=card.category, card_id=card.id)]; a NULL
    [card_id] matches no card. *)
Definition of_card (card : Card.t) (d : Delivery.t) : bool :=
  String.eqb (Delivery.category d) (Card.category card) &&
  match Delivery.card_id d with
  | Some c => Z.eqb c (Card.id card)
  | None => false
  end.

(** [Delivery.devolucion_at.is_(None)]. *)
Definition is_open (d : Delivery.t) : bool :=
  match Delivery.devolucion_at d with
  | None => true
  | Some _ => false
  end.

(** The comparison behind [order_by(Delivery.entrega_at.asc())].  The
    column is declared [nullable=False]; where a NULL would stand is
    specific to the database engine and left open here. *)
Definition entrega_leb (a b : Delivery.t) : bool :=
  match Delivery.entrega_at a, Delivery.entrega_at b with
  | Some x, Some y => dt_leb x y
  | _, _ => true
  end.

Definition entrega_le (a b : Delivery.t) : Prop := entrega_leb a b = true.

(** [rows.order_by(Delivery.entrega_at.asc()).all()] may return [result]. *)
Definition order_by_entrega_asc (rows result : list Delivery.t) : Prop :=
  Permutation rows result /\ StronglySorted entrega_le result.

(** The rows selected by the query of [compute_card_status]. *)
Definition card_rows (st : Store) (card : Card.t) : list Delivery.t :=
  filter (of_card card) (deliveries st).

(** The rows selected by the query of [get_last_open_delivery]. *)
Definition open_rows (st : Store) (card : Card.t) : list Delivery.t :=
  filter is_open (card_rows st card).

(* ================================================================== *)
(** * compute_card_status and get_last_open_delivery *)
(* ================================================================== *)

(** The body of [compute_card_status] after its query: from the ordered
    deliveries to [(texto_estado, tipo_estado)]. *)
Definition status_of_deliveries (ds : list Delivery.t) : string * string :=
  match last_opt ds with
  | None => ("Disponible", "Disponible")
  | Some last =>
      if truthy_dt (Delivery.devolucion_at last) then
        ("Disponible (devuelto " ++ format_dt (Delivery.devolucion_at last) ++ ")",
         "Devueltas")
      else
        let base := "Entregada" in
        let base :=
          if truthy_str (Delivery.nombre last)
          then "Entregada a " ++ fstr (Delivery.nombre last)
          else base in
        let base :=
          if truthy_dt (Delivery.entrega_at last)
          then base ++ " (" ++ format_dt (Delivery.entrega_at last) ++ ")"
          else base in
        (base, "Entregadas")
  end.

(** [compute_card_status(card)] may return [r] on the store [st]. *)
Definition compute_card_status (st : Store) (card : Card.t)
    (r : string * string) : Prop :=
  exists ds, order_by_entrega_asc (card_rows st card) ds /\
             r = status_of_deliveries ds.

(** [get_last_open_delivery(card)] may return [r] on the store [st]. *)
Definition get_last_open_delivery (st : Store) (card : Card.t)
    (r : option Delivery.t) : Prop :=
  exists ds, order_by_entrega_asc (open_rows st card) ds /\
             r = last_opt ds.

(* ================================================================== *)
(** * Categories *)
(* ================================================================== *)

Definition CATEGORY_ORDER : list string :=
  ["MODULO"; "MAESTRA"; "MANTENCION"; "PROVISORIA"].

(** Each category lists its fields as [(field_name, label)]. *)
Definition CATEGORY_DEFINITIONS : list (string * list (string * string)) :=
  [ ("MODULO",
      [ ("n", "N°");
        ("modulo_sector", "Módulo / Sector");
        ("nombre_tarjeta", "Nombre de la Tarjeta");
        ("tipo_tarjeta", "Tipo de Tarjeta");
        ("numero_tarjeta", "Numero de tarjeta") ]);
    ("MAESTRA",
      [ ("n", "N°");
        ("categoria", "Categoría");
        ("nombre_tarjeta", "Nombre de la Tarjeta");
        ("tipo_tarjeta", "Tipo de Tarjeta");
        ("numero_tarjeta", "Numero Tarjeta") ]);
    ("MANTENCION",
      [ ("n", "N°");
        ("categoria", "Categoría");
        ("subcategoria", "Subcategoría");
        ("nombre_tarjeta", "Nombre de la Tarjeta");
        ("tipo_tarjeta", "Tipo de Tarjeta");
        ("numero_tarjeta", "Numero Tarjeta") ]);
    ("PROVISORIA",
      [ ("n", "N°");
        ("categoria", "Categoría");
        ("nombre_tarjeta", "Nombre de la Tarjeta");
        ("tipo_tarjeta", "Tipo de Tarjeta");
        ("numero_tarjeta", "Numero Tarjeta") ]) ].

(** [d.get(key)] on a dictionary kept as an association list. *)
Fixpoint assoc {V : Type} (key : string) (d : list (string * V)) : option V :=
  match d with
  | [] => None
  | (k, v) :: d' => if String.eqb k key then Some v else assoc key d'
  end.

(** [x in xs] for strings. *)
Definition str_in (x : string) (xs : list string) : bool :=
  existsb (String.eqb x) xs.

(** [setattr(card, field_name, value)] for the column names of [Card]. *)
Definition setattr (card : Card.t) (field_name value : string) : Card.t :=
  let v := Some value in
  let '(Card.mk pk cat f_n f_ms f_ca f_sc f_nt f_tt f_nu f_st cr) := card in
  if String.eqb field_name "n"
  then Card.mk pk cat v f_ms f_ca f_sc f_nt f_tt f_nu f_st cr
  else if String.eqb field_name "modulo_sector"
  then Card.mk pk cat f_n v f_ca f_sc f_nt f_tt f_nu f_st cr
  else if String.eqb field_name "categoria"
  then Card.mk pk cat f_n f_ms v f_sc f_nt f_tt f_nu f_st cr
  else if String.eqb field_name "subcategoria"
  then Card.mk pk cat f_n f_ms f_ca v f_nt f_tt f_nu f_st cr
  else if String.eqb field_name "nombre_tarjeta"
  then Card.mk pk cat f_n f_ms f_ca f_sc v f_tt f_nu f_st cr
  else if String.eqb field_name "tipo_tarjeta"
  then Card.mk pk cat f_n f_ms f_ca f_sc f_nt v f_nu f_st cr
  else if String.eqb field_name "numero_tarjeta"
  then Card.mk pk cat f_n f_ms f_ca f_sc f_nt f_tt v f_st cr
  else if String.eqb field_name "status"
  then Card.mk pk cat f_n f_ms f_ca f_sc f_nt f_tt f_nu v cr
  else card.

(** [Card(category=category_code)] before it is flushed: no key yet, every
    other column unset. *)
Definition new_card (category_code : string) : Card.t :=
  Card.mk 0 category_code None None None None None None None None None.

(* ================================================================== *)
(** * Requests and responses *)
(* ================================================================== *)

(** A request: the truth value of [session.get("logged_in")], the
    method and the form. *)
Record Request : Type := mk_request {
  logged_in : bool;
  method : string;
  form : list (string * string)
}.

(** [request.form.get(key, default)]. *)
Definition form_get (f : list (string * string)) (key default : string)
    : string :=
  match assoc key f with
  | Some v => v
  | None => default
  end.

Inductive Response : Type :=
| Abort404
| RedirectLogin
| Redirect (endpoint category_code : string) (card_id : option Z)
| Render (template : string) (form_data : list (string * string)).

(** What a handler hands back: its response and the messages it flashed,
    each as [(message, category)]. *)
Record Outcome : Type := mk_outcome {
  response : Response;
  flashes : list (string * string)
}.

(** What [request.files.get("file")] and [pd.read_excel(...).fillna("")]
    leave to the import handler. *)
Record DataFrame : Type := mk_df {
  columns : list string;
  rows : list (list (string * string))
}.

Inductive Upload : Type :=
| NoFile
| Unreadable (error : string)
| Sheet (df : DataFrame).

(** [row.get(key, default)] on a row indexed by column name. *)
Definition row_get (row : list (string * string)) (key default : string)
    : string :=
  match assoc key row with
  | Some v => v
  | None => default
  end.

(** [Card.query.filter_by(id=card_id, category=category_code).first()]. *)
Definition find_card (st : Store) (card_id : Z) (category_code : string)
    : option Card.t :=
  find (fun c => Z.eqb (Card.id c) card_id &&
                 String.eqb (Card.category c) category_code) (cards st).

(** The UPDATE a commit issues for an object changed in the session. *)
Definition update_delivery (rows : list Delivery.t) (pk : Z)
    (f : Delivery.t -> Delivery.t) : list Delivery.t :=
  map (fun d => if Z.eqb (Delivery.id d) pk then f d else d) rows.

(** The INSERT a commit issues for an added delivery: the key is drawn
    and [created_at] takes its column default, the time [stamp]. *)
Definition insert_delivery (rows : list Delivery.t) (stamp : datetime)
    (d : Delivery.t) : list Delivery.t :=
  rows ++ [Delivery.mk (fresh_id (map Delivery.id rows))
             (Delivery.category d) (Delivery.card_id d)
             (Delivery.card_number d) (Delivery.rut d) (Delivery.nombre d)
             (Delivery.cargo d) (Delivery.empresa d) (Delivery.entrega_at d)
             (Delivery.devolucion_at d) (Some stamp)].

(** The INSERT for an added card. *)
Definition insert_card (tbl : list Card.t) (stamp : datetime) (c : Card.t)
    : list Card.t :=
  tbl ++ [Card.mk (fresh_id (map Card.id tbl))
            (Card.category c) (Card.n c) (Card.modulo_sector c)
            (Card.categoria c) (Card.subcategoria c) (Card.nombre_tarjeta c)
            (Card.tipo_tarjeta c) (Card.numero_tarjeta c) (Card.status c)
            (Some stamp)].

(** The six assignments of the branch "Actualizar registro abierto". *)
Definition with_form_values (rut nombre cargo empresa : string)
    (entrega_at : datetime) (devolucion_at : option datetime)
    (d : Delivery.t) : Delivery.t :=
  Delivery.mk (Delivery.id d) (Delivery.category d) (Delivery.card_id d)
    (Delivery.card_number d) (Some rut) (Some nombre) (Some cargo)
    (Some empresa) (Some entrega_at) devolucion_at (Delivery.created_at d).

(* ================================================================== *)
(** * The handlers *)
(* ================================================================== *)

Section Handlers.

(** Two functions of the Python library the handlers call:
    [str.strip] and [datetime.strptime], the latter giving [None] where
    the library raises. *)
Variable strip : string -> string.
Variable strptime : string -> string -> option datetime.

Definition parse_dt_str (s : string) : option datetime :=
  if String.eqb s "" then None
  else strptime s "%Y-%m-%d %H:%M:%S".

(** ** deliver_card *)

(** The POST branch of [deliver_card], given the card and the open
    delivery found for it. *)
Definition deliver_card_post (st : Store) (category_code : string)
    (card_id : Z) (card : Card.t) (last_open : option Delivery.t)
    (f : list (string * string)) (now stamp : datetime)
    : Store * Outcome :=
  let rut := strip (form_get f "rut" "") in
  let nombre := strip (form_get f "nombre" "") in
  let cargo := strip (form_get f "cargo" "") in
  let empresa := strip (form_get f "empresa" "") in
  let entrega_str := strip (form_get f "entrega_at" "") in
  let devolucion_str := strip (form_get f "devolucion_at" "") in
  if String.eqb rut "" || String.eqb nombre "" then
    (st, mk_outcome (Redirect "deliver_card" category_code (Some card_id))
           [("RUT y Nombre son obligatorios.", "warning")])
  else
    let entrega_at :=
      match parse_dt_str entrega_str with
      | Some d => d
      | None => now
      end in
    let devolucion_at := parse_dt_str devolucion_str in
    let rows :=
      match last_open with
      | Some lo =>
          update_delivery (deliveries st) (Delivery.id lo)
            (with_form_values rut nombre cargo empresa
               entrega_at devolucion_at)
      | None =>
          insert_delivery (deliveries st) stamp
            (Delivery.mk 0 category_code (Some (Card.id card))
               (Some (or_empty (Card.numero_tarjeta card)))
               (Some rut) (Some nombre) (Some cargo) (Some empresa)
               (Some entrega_at) devolucion_at None)
      end in
    (mk_store (passwords st) (cards st) rows,
     mk_outcome (Redirect "category_view" category_code None)
       [("Registro de entrega / devolución guardado.", "success")]).

(** The GET branch: the form shown, filled from the open delivery or,
    without one, from the last delivery. *)
Definition deliver_card_get (last_open last_any : option Delivery.t)
    (now : datetime) : Outcome :=
  let now_str := format_dt (Some now) in
  let form_data :=
    match last_open, last_any with
    | Some lo, _ =>
        [ ("rut", or_empty (Delivery.rut lo));
          ("nombre", or_empty (Delivery.nombre lo));
          ("cargo", or_empty (Delivery.cargo lo));
          ("empresa", or_empty (Delivery.empresa lo));
          ("entrega_at", format_dt (Delivery.entrega_at lo));
          ("devolucion_at", now_str) ]
    | None, Some la =>
        [ ("rut", or_empty (Delivery.rut la));
          ("nombre", or_empty (Delivery.nombre la));
          ("cargo", or_empty (Delivery.cargo la));
          ("empresa", or_empty (Delivery.empresa la));
          ("entrega_at", format_dt (Delivery.entrega_at la));
          ("devolucion_at", format_dt (Delivery.devolucion_at la)) ]
    | None, None =>
        [ ("rut", ""); ("nombre", ""); ("cargo", ""); ("empresa", "");
          ("entrega_at", now_str); ("devolucion_at", "") ]
    end in
  mk_outcome (Render "history.html" form_data) [].

(** [deliver_card(category_code, card_id)] on the store [st] may end in
    the given store and outcome.  The first rule is [login_required]. *)
Inductive deliver_card (st : Store) (category_code : string) (card_id : Z)
    (req : Request) (now stamp : datetime) : Store * Outcome -> Prop :=
| deliver_login :
    logged_in req = false ->
    deliver_card st category_code card_id req now stamp
      (st, mk_outcome RedirectLogin [])
| deliver_unknown_category :
    logged_in req = true ->
    assoc category_code CATEGORY_DEFINITIONS = None ->
    deliver_card st category_code card_id req now stamp
      (st, mk_outcome Abort404 [])
| deliver_unknown_card :
    logged_in req = true ->
    assoc category_code CATEGORY_DEFINITIONS <> None ->
    find_card st card_id category_code = None ->
    deliver_card st category_code card_id req now stamp
      (st, mk_outcome Abort404 [])
| deliver_post : forall card last_open all_rows,
    logged_in req = true ->
    assoc category_code CATEGORY_DEFINITIONS <> None ->
    find_card st card_id category_code = Some card ->
    get_last_open_delivery st card last_open ->
    order_by_entrega_asc (card_rows st card) all_rows ->
    method req = "POST" ->
    deliver_card st category_code card_id req now stamp
      (deliver_card_post st category_code card_id card last_open
         (form req) now stamp)
| deliver_get : forall card last_open all_rows,
    logged_in req = true ->
    assoc category_code CATEGORY_DEFINITIONS <> None ->
    find_card st card_id category_code = Some card ->
    get_last_open_delivery st card last_open ->
    order_by_entrega_asc (card_rows st card) all_rows ->
    method req <> "POST" ->
    deliver_card st category_code card_id req now stamp
      (st, deliver_card_get last_open (last_opt all_rows) now).

(** ** import_cards *)

(** The value the inner loop reads for one field of one row. *)
Definition mapped_value (cols : list string) (row : list (string * string))
    (field : string * string) : string :=
  let '(field_name, label) := field in
  if str_in field_name cols then strip (row_get row field_name "")
  else if str_in label cols then strip (row_get row label "")
  else "".

(** The inner loop: [(card, empty)] after the fields seen so far. *)
Definition import_fields (cols : list string) (row : list (string * string))
    (fields : list (string * string)) (start : Card.t * bool)
    : Card.t * bool :=
  fold_left
    (fun (acc : Card.t * bool) field =>
       let value := mapped_value cols row field in
       if negb (String.eqb value "")
       then (setattr (fst acc) (fst field) value, false)
       else acc)
    fields start.

(** [status_val] as read from the row. *)
Definition status_cell (cols : list string) (row : list (string * string))
    : string :=
  if str_in "status" cols then strip (row_get row "status" "")
  else if str_in "Activa / Inactiva" cols
  then strip (row_get row "Activa / Inactiva" "")
  else "".

(** [status_val] as assigned to [card.status]. *)
Definition import_status (cols : list string) (row : list (string * string))
    : string :=
  let status_val := status_cell cols row in
  if negb (str_in status_val ["Activa"; "Inactiva"]) then "Activa"
  else status_val.

(** One turn of the loop over [df.iterrows()]: the card built from the
    row and whether the row was empty. *)
Definition import_row (category_code : string) (cols : list string)
    (fields : list (string * string)) (row : list (string * string))
    : Card.t * bool :=
  let '(card, empty) :=
    import_fields cols row fields (new_card category_code, true) in
  (setattr card "status" (import_status cols row), empty).

(** The whole loop: the cards added to the session, in order, and the
    counter [imported]. *)
Definition import_rows (category_code : string) (df : DataFrame)
    (fields : list (string * string)) : list Card.t * nat :=
  fold_left
    (fun (acc : list Card.t * nat) row =>
       let '(card, empty) :=
         import_row category_code (columns df) fields row in
       if negb empty then ((fst acc ++ [card])%list, S (snd acc)) else acc)
    (rows df) ([], 0).

(** [import_cards(category_code)] behind [login_required]; [session] is
    the truth value of [session.get("logged_in")]. *)
Definition import_cards (st : Store) (session : bool)
    (category_code : string) (upload : Upload) (stamp : datetime)
    : Store * Outcome :=
  if negb session then (st, mk_outcome RedirectLogin []) else
  match assoc category_code CATEGORY_DEFINITIONS with
  | None => (st, mk_outcome Abort404 [])
  | Some fields =>
      let back := Redirect "category_view" category_code None in
      match upload with
      | NoFile =>
          (st, mk_outcome back
                 [("Seleccione un archivo Excel para importar.", "warning")])
      | Unreadable e =>
          (st, mk_outcome back
                 [("No se pudo leer el archivo Excel: " ++ e, "danger")])
      | Sheet df =>
          let '(added, imported) := import_rows category_code df fields in
          if negb (Nat.eqb imported 0) then
            (mk_store (passwords st)
               (fold_left (fun tbl c => insert_card tbl stamp c)
                  added (cards st))
               (deliveries st),
             mk_outcome back
               [("Se importaron " ++ str_of_nat imported ++
                 " tarjetas desde el Excel.", "success")])
          else
            (st, mk_outcome back
                   [("No se encontraron registros válidos en el archivo.",
                     "info")])
      end
  end.

End Handlers.

(* ================================================================== *)
(** * hashlib.sha256 (FIPS 180-4) *)
(* ================================================================== *)

Module SHA256.

Local Open Scope Z_scope.

(** Words are 32-bit integers kept in [Z]; sums wrap around. *)
Definition w32 (x : Z) : Z := Z.land x 4294967295.
Definition add32 (x y : Z) : Z := w32 (x + y).
Definition rotr (k x : Z) : Z :=
  Z.lor (Z.shiftr x k) (w32 (Z.shiftl x (32 - k))).
Definition shr (k x : Z) : Z := Z.shiftr x k.

Definition Ch (x y z : Z) : Z :=
  Z.lxor (Z.land x y) (Z.land (w32 (Z.lnot x)) z).
Definition Maj (x y z : Z) : Z :=
  Z.lxor (Z.lxor (Z.land x y) (Z.land x z)) (Z.land y z).
Definition Sigma0 (x : Z) : Z :=
  Z.lxor (Z.lxor (rotr 2 x) (rotr 13 x)) (rotr 22 x).
Definition Sigma1 (x : Z) : Z :=
  Z.lxor (Z.lxor (rotr 6 x) (rotr 11 x)) (rotr 25 x).
Definition sigma0 (x : Z) : Z :=
  Z.lxor (Z.lxor (rotr 7 x) (rotr 18 x)) (shr 3 x).
Definition sigma1 (x : Z) : Z :=
  Z.lxor (Z.lxor (rotr 17 x) (rotr 19 x)) (shr 10 x).

(** The constants are read off the first primes: the first 32 bits of
    the fractional part of their square roots (initial hash value) and of
    their cube roots (round constants). *)
Definition is_prime (n : Z) : bool :=
  (1 <? n) &&
  forallb (fun d => negb (n mod Z.of_nat d =? 0)) (seq 2 (Z.to_nat n - 2)).

Definition primes : list Z :=
  filter is_prime (map Z.of_nat (seq 2 310)).

(** The largest [r] below [2 ^ bits] with [r ^ k <= n], bit by bit. *)
Fixpoint root_floor (k : Z) (bits : nat) (n r : Z) : Z :=
  match bits with
  | O => r
  | S b =>
      let c := r + 2 ^ Z.of_nat b in
      root_floor k b n (if c ^ k <=? n then c else r)
  end.

Definition frac_root (k p : Z) : Z :=
  w32 (root_floor k 40 (p * 2 ^ (32 * k)) 0).

Definition K : list Z := map (frac_root 3) (firstn 64 primes).

Definition H0 : list Z := map (frac_root 2) (firstn 8 primes).

(** [n] as [len] bytes, most significant first. *)
Fixpoint be_bytes (len : nat) (n : Z) : list Z :=
  match len with
  | O => []
  | S len' => (be_bytes len' (Z.shiftr n 8) ++ [Z.land n 255])%list
  end.

(** The message followed by the bit 1, zeros, and its length in bits on
    eight bytes: a multiple of 64 bytes. *)
Definition pad (msg : list Z) : list Z :=
  let len := Z.of_nat (List.length msg) in
  let zeros := Z.to_nat ((55 - len) mod 64) in
  (msg ++ 128 :: repeat 0 zeros ++ be_bytes 8 (8 * len))%list.

(** Big-endian words of a byte sequence. *)
Fixpoint words (fuel : nat) (bs : list Z) : list Z :=
  match fuel, bs with
  | S fuel', b0 :: b1 :: b2 :: b3 :: rest =>
      (((b0 * 256 + b1) * 256 + b2) * 256 + b3) :: words fuel' rest
  | _, _ => []
  end.

(** The message schedule: 48 words appended to the 16 of the block. *)
Fixpoint schedule (count : nat) (W : list Z) : list Z :=
  match count with
  | O => W
  | S count' =>
      let t := List.length W in
      let at_back k := nth (t - k) W 0 in
      schedule count'
        (W ++ [add32 (add32 (sigma1 (at_back 2%nat)) (at_back 7%nat))
                     (add32 (sigma0 (at_back 15%nat)) (at_back 16%nat))])%list
  end.

Definition round (s : list Z) (kw : Z * Z) : list Z :=
  match s with
  | [a; b; c; d; e; f; g; h] =>
      let T1 := add32 (add32 (add32 h (Sigma1 e)) (add32 (Ch e f g) (fst kw)))
                      (snd kw) in
      let T2 := add32 (Sigma0 a) (Maj a b c) in
      [add32 T1 T2; a; b; c; add32 d T1; e; f; g]
  | _ => s
  end.

Definition compress (H : list Z) (block : list Z) : list Z :=
  let W := schedule 48 block in
  let s := fold_left round (combine K W) H in
  map (fun p => add32 (fst p) (snd p)) (combine H s).

(** The padded message cut into blocks of sixteen words. *)
Fixpoint blocks (fuel : nat) (ws : list Z) : list (list Z) :=
  match fuel, ws with
  | S fuel', _ :: _ => firstn 16 ws :: blocks fuel' (skipn 16 ws)
  | _, _ => []
  end.

Definition digest (msg : list Z) : list Z :=
  let bs := pad msg in
  let ws := words (List.length bs) bs in
  fold_left compress (blocks (List.length ws) ws) H0.

Definition hex_digit (n : Z) : ascii :=
  nth (Z.to_nat n) (list_ascii_of_string "0123456789abcdef") "0"%char.

Definition hex_byte (b : Z) : string :=
  String (hex_digit (Z.shiftr b 4)) (String (hex_digit (Z.land b 15)) "").

Definition hexdigest (msg : list Z) : string :=
  concat "" (map hex_byte (flat_map (be_bytes 4) (digest msg))).

End SHA256.

Definition _sha256 (s : string) : string :=
  SHA256.hexdigest
    (map (fun c => Z.of_nat (nat_of_ascii c)) (list_ascii_of_string s)).


(* ================================================================== *)
(** * Credentials *)
(* ================================================================== *)

Definition DEFAULT_PASSWORDS : list string :=
  [ "Javier_Aramark_2025";
    "Lorena_Aramark_2025";
    "Carolina_Aramark_2025" ].

Definition verify_password (st : Store) (plain : string) : bool :=
  let h := _sha256 plain in
  existsb (fun p => String.eqb (Password.hash p) h) (passwords st).

(** The INSERT for an added password.  The column [hash] is declared
    [unique=True]: [None] stands for the IntegrityError of a second row
    with the same hash. *)
Definition insert_password (tbl : list Password.t) (h : string)
    : option (list Password.t) :=
  if str_in h (map Password.hash tbl) then None
  else Some (tbl ++ [Password.mk (fresh_id (map Password.id tbl)) h])%list.

(** The loop of [ensure_default_passwords]: the hashes added to the
    session and the counter [created].  [existing] is read once, before
    the loop. *)
Definition missing_defaults (existing : list string) : list string * nat :=
  fold_left
    (fun (acc : list string * nat) pwd =>
       let h := _sha256 pwd in
       if negb (str_in h existing) then ((fst acc ++ [h])%list, S (snd acc))
       else acc)
    DEFAULT_PASSWORDS ([], 0).

(** [None] when the commit raises. *)
Definition ensure_default_passwords (st : Store) : option Store :=
  let existing := map Password.hash (passwords st) in
  let '(added, created) := missing_defaults existing in
  if negb (Nat.eqb created 0) then
    match
      fold_left
        (fun tbl h =>
           match tbl with
           | Some t => insert_password t h
           | None => None
           end)
        added (Some (passwords st))
    with
    | Some tbl => Some (mk_store tbl (cards st) (deliveries st))
    | None => None
    end
  else Some st.

(* ================================================================== *)
(** * One ordering every engine may give *)
(* ================================================================== *)

Fixpoint insert_by {A : Type} (leb : A -> A -> bool) (x : A) (l : list A)
    : list A :=
  match l with
  | [] => [x]
  | y :: l' => if leb x y then x :: l else y :: insert_by leb x l'
  end.

(** Insertion sort; rows that compare equal keep their order. *)
Definition sort_by {A : Type} (leb : A -> A -> bool) (l : list A) : list A :=
  fold_right (insert_by leb) [] l.

(** Ascending [entrega_at] with NULL before every value. *)
Definition nulls_first_leb (a b : Delivery.t) : bool :=
  match Delivery.entrega_at a, Delivery.entrega_at b with
  | None, _ => true
  | Some _, None => false
  | Some x, Some y => dt_leb x y
  end.

(** The rows in ascending [entrega_at], ties in physical order. *)
Definition stable_order (rows : list Delivery.t) : list Delivery.t :=
  sort_by nulls_first_leb rows.






(** [a] was delivered strictly before [b]. *)
Definition entrega_ltb (a b : Delivery.t) : bool :=
  match Delivery.entrega_at a, Delivery.entrega_at b with
  | Some x, Some y => dt_ltb x y
  | _, _ => false
  end.

(** The invariant "at most one open delivery per card". *)
Definition at_most_one_open (st : Store) (card : Card.t) : Prop :=
  List.length (open_rows st card) <= 1.

(** A row of the sheet gives at least one non-empty field value. *)
Definition row_has_value (strip : string -> string) (cols : list string)
    (fields : list (string * string)) (row : list (string * string)) : bool :=
  existsb
    (fun field => negb (String.eqb (mapped_value strip cols row field) ""))
    fields.

(** The holder name a delivery shows: [None] when the name is blank. *)
Definition shown_name (d : Delivery.t) : option string :=
  match Delivery.nombre d with
  | Some n => if String.eqb n "" then None else Some n
  | None => None
  end.

(** The delivery [d] with the holder and the dates of the form [f], as
    [deliver_card] reads them. *)
Definition posted (strip : string -> string)
    (strptime : string -> string -> option datetime)
    (f : list (string * string)) (now : datetime) (d : Delivery.t)
    : Delivery.t :=
  with_form_values
    (strip (form_get f "rut" "")) (strip (form_get f "nombre" ""))
    (strip (form_get f "cargo" "")) (strip (form_get f "empresa" ""))
    match parse_dt_str strptime (strip (form_get f "entrega_at" "")) with
    | Some t => t
    | None => now
    end
    (parse_dt_str strptime (strip (form_get f "devolucion_at" "")))
    d.

(** The message [deliver_card] flashes once a delivery is saved. *)
Definition saved (out : Outcome) : Prop :=
  flashes out = [("Registro de entrega / devolución guardado.", "success")].

(* ================================================================== *)
(** * Library functions on plain input *)
(* ================================================================== *)

(** Instances of [strip] and [strptime] for running the handlers on
    concrete requests.  [strip_ascii] is [str.strip] on ASCII text;
    [strptime_iso] is [datetime.strptime] on timestamps written with all
    fields zero-padded, [YYYY-MM-DD HH:MM:SS]. *)

Definition is_space (c : ascii) : bool :=
  let k := nat_of_ascii c in
  (((9 <=? k) && (k <=? 13)) || ((28 <=? k) && (k <=? 32)))%nat.

Fixpoint lstrip (s : string) : string :=
  match s with
  | EmptyString => EmptyString
  | String c s' => if is_space c then lstrip s' else s
  end.

Definition rev_string (s : string) : string :=
  string_of_list_ascii (rev (list_ascii_of_string s)).

Definition strip_ascii (s : string) : string :=
  rev_string (lstrip (rev_string (lstrip s))).

Definition digit_of (c : ascii) : option N :=
  let k := N_of_ascii c in
  if ((48 <=? k) && (k <=? 57))%N then Some (k - 48)%N else None.

(** The number written by a run of decimal digits. *)
Fixpoint number_of (cs : list ascii) (acc : N) : option N :=
  match cs with
  | [] => Some acc
  | c :: cs' =>
      match digit_of c with
      | Some d => number_of cs' (10 * acc + d)%N
      | None => None
      end
  end.

Definition is_leap (y : N) : bool :=
  (((y mod 4 =? 0) && negb (y mod 100 =? 0)) || (y mod 400 =? 0))%N.

Definition days_in_month (y m : N) : N :=
  match m with
  | 2 => if is_leap y then 29 else 28
  | 4 | 6 | 9 | 11 => 30
  | _ => 31
  end%N.

(** The checks of the [datetime] constructor. *)
Definition valid_datetime (d : datetime) : bool :=
  ((1 <=? year d) && (year d <=? 9999) &&
   (1 <=? month d) && (month d <=? 12) &&
   (1 <=? day d) && (day d <=? days_in_month (year d) (month d)) &&
   (hour d <? 24) && (minute d <? 60) && (second d <? 60) &&
   (microsecond d <? 1000000))%N.

Definition strptime_iso (s fmt : string) : option datetime :=
  if negb (String.eqb fmt "%Y-%m-%d %H:%M:%S") then None
  else
    match list_ascii_of_string s with
    | [y1; y2; y3; y4; "-"; m1; m2; "-"; d1; d2; " ";
       h1; h2; ":"; i1; i2; ":"; s1; s2]%char =>
        match number_of [y1; y2; y3; y4] 0, number_of [m1; m2] 0,
              number_of [d1; d2] 0, number_of [h1; h2] 0,
              number_of [i1; i2] 0, number_of [s1; s2] 0 with
        | Some y, Some m, Some d, Some h, Some i, Some sec =>
            let dt := mk_datetime y m d h i sec 0 in
            if valid_datetime dt then Some dt else None
        | _, _, _, _, _, _ => None
        end
    | _ => None
    end.

(* ================================================================== *)
(** * Sample data *)
(* ================================================================== *)

Module Sample.

Definition jan1 : datetime := mk_datetime 2024 1 1 10 0 0 0.
Definition jan5 : datetime := mk_datetime 2024 1 5 9 0 0 0.
Definition jan9 : datetime := mk_datetime 2024 1 9 8 30 0 0.
Definition clock : datetime := mk_datetime 2024 1 10 12 0 0 250000.

Definition card : Card.t :=
  Card.mk 7 "MODULO" (Some "1") (Some "Sector A") None None
    (Some "Puerta norte") (Some "RFID") (Some "0042") (Some "Activa")
    (Some jan1).

(** A delivery of [card] with the given key, holder and dates. *)
Definition delivery (pk : Z) (holder : option string)
    (entrega : datetime) (devolucion : option datetime) : Delivery.t :=
  Delivery.mk pk "MODULO" (Some 7%Z) (Some "0042") (Some "11.111.111-1")
    holder (Some "Guardia") (Some "Aramark") (Some entrega) devolucion
    (Some clock).

Definition store_of (rows : list Delivery.t) : Store :=
  mk_store [] [card] rows.

(** The card handed to A. Lopez, and the same delivery once returned. *)
Definition lopez_out : Delivery.t := delivery 1 (Some "A. Lopez") jan1 None.
Definition lopez_back : Delivery.t :=
  delivery 1 (Some "A. Lopez") jan1 (Some jan5).

(** An open delivery whose holder name is blank. *)
Definition nameless_out : Delivery.t := delivery 1 (Some "") jan1 None.

(** Two deliveries entered with the same [entrega_at]: the first one
    returned, the second one open. *)
Definition tie_back : Delivery.t :=
  delivery 1 (Some "A. Lopez") jan1 (Some jan5).
Definition tie_out : Delivery.t := delivery 2 (Some "B. Rojas") jan1 None.

(** Two open deliveries with the same [entrega_at]. *)
Definition open_1 : Delivery.t := delivery 1 (Some "A. Lopez") jan1 None.
Definition open_2 : Delivery.t := delivery 2 (Some "B. Rojas") jan1 None.

(** A returned delivery dated after an open one that was entered later. *)
Definition late_back : Delivery.t :=
  delivery 1 (Some "A. Lopez") jan5 (Some jan9).
Definition early_out : Delivery.t := delivery 2 (Some "B. Rojas") jan1 None.

(** A request recording a delivery to [holder] with the given dates. *)
Definition post (holder entrega devolucion : string) : Request :=
  mk_request true "POST"
    [ ("rut", "11.111.111-1"); ("nombre", holder); ("cargo", "Guardia");
      ("empresa", "Aramark"); ("entrega_at", entrega);
      ("devolucion_at", devolucion) ].

(** A request without a holder name. *)
Definition post_no_name : Request :=
  mk_request true "POST" [ ("rut", "11.111.111-1"); ("nombre", "   ") ].

(** A sheet for the category MODULO: two rows with values, one row of
    blanks, and a status column. *)
Definition sheet : DataFrame :=
  mk_df
    [ "N°"; "nombre_tarjeta"; "Numero de tarjeta"; "Activa / Inactiva" ]
    [ [ ("N°", "1"); ("nombre_tarjeta", "Puerta norte");
        ("Numero de tarjeta", "0042"); ("Activa / Inactiva", "Inactiva") ];
      [ ("N°", " "); ("nombre_tarjeta", "");
        ("Numero de tarjeta", ""); ("Activa / Inactiva", "Activa") ];
      [ ("N°", "3"); ("nombre_tarjeta", "Bodega");
        ("Numero de tarjeta", "0044"); ("Activa / Inactiva", "activa?") ] ].

(** A credential table holding one password that is not a default. *)
Definition own_password : Store :=
  mk_store [Password.mk 1 (_sha256 "otra")] [] [].

End Sample.

(* ================================================================== *)
(** * config.py *)
(* ================================================================== *)

(** [s.startswith(prefix)]. *)
Definition startswith (s prefix : string) : bool := String.prefix prefix s.

(** [s[n:]]. *)
Fixpoint drop (n : nat) (s : string) : string :=
  match n, s with
  | O, _ => s
  | S _, EmptyString => EmptyString
  | S n', String _ s' => drop n' s'
  end.

(** [s.replace(old, new, 1)]: the first occurrence of [old], if any. *)
Fixpoint replace_first (old new s : string) : string :=
  if String.prefix old s then new ++ drop (String.length old) s
  else
    match s with
    | EmptyString => EmptyString
    | String c s' => String c (replace_first old new s')
    end.

(** [os.environ.get(key, default)]. *)
Definition environ_get (environ : list (string * string))
    (key default : string) : string :=
  match assoc key environ with
  | Some v => v
  | None => default
  end.

Module Config.
Record t : Type := mk {
  SECRET_KEY : string;
  SQLALCHEMY_TRACK_MODIFICATIONS : bool;
  SQLALCHEMY_DATABASE_URI : string
}.
End Config.

(** The class body of [Config], run on the environment of the process. *)
Definition Config_of (environ : list (string * string)) : Config.t :=
  let db_url := environ_get environ "DATABASE_URL" "sqlite:///local.db" in
  let db_url :=
    if startswith db_url "postgres://"
    then replace_first "postgres://" "postgresql://" db_url
    else db_url in
  Config.mk
    (environ_get environ "SECRET_KEY" "cambia-esta-clave-en-produccion")
    false db_url.

(* ================================================================== *)
(** * Pages and replies of the other handlers *)
(* ================================================================== *)

(** [getattr(card, field_name)] for the column names of [Card]. *)
Definition getattr (card : Card.t) (field_name : string) : option string :=
  if String.eqb field_name "n" then Card.n card
  else if String.eqb field_name "modulo_sector" then Card.modulo_sector card
  else if String.eqb field_name "categoria" then Card.categoria card
  else if String.eqb field_name "subcategoria" then Card.subcategoria card
  else if String.eqb field_name "nombre_tarjeta" then Card.nombre_tarjeta card
  else if String.eqb field_name "tipo_tarjeta" then Card.tipo_tarjeta card
  else if String.eqb field_name "numero_tarjeta" then Card.numero_tarjeta card
  else if String.eqb field_name "status" then Card.status card
  else None.

(** [str(k)] for an integer. *)
Definition str_of_Z (k : Z) : string :=
  NilZero.string_of_int (Z.to_int k).

(** [s.lower()] on ASCII text. *)
Definition lower_char (c : ascii) : ascii :=
  let k := nat_of_ascii c in
  if ((65 <=? k) && (k <=? 90))%nat then ascii_of_nat (k + 32) else c.

Fixpoint lower (s : string) : string :=
  match s with
  | EmptyString => EmptyString
  | String c s' => String (lower_char c) (lower s')
  end.

(** A query ordered by an integer column, ascending. *)
Definition order_by_asc {A : Type} (key : A -> Z) (rows result : list A)
    : Prop :=
  Permutation rows result /\
  StronglySorted (fun a b => (key a <= key b)%Z) result.

(** One line of the summary of [panel] and [export_summary_excel]. *)
Record SummaryRow : Type := mk_summary {
  sum_category : string;
  sum_total : nat;
  sum_activas : nat;
  sum_inactivas : nat;
  sum_pendientes : nat
}.

(** One line of the listing of [category_view]. *)
Record CategoryRow : Type := mk_row {
  row_card : Card.t;
  row_values : list string;
  row_estado_texto : string
}.

(** What the other handlers answer: an abort, a redirect, a page with the
    values handed to its template, or a file. *)
Inductive Reply : Type :=
| Reply404
| ReplyLogin
| ReplyRedirect (endpoint : string) (category_code : option string)
| ReplyRedirectUrl (url : string)
| PageLogin
| PageDashboard
| PagePasswords (listed : list Password.t)
| PageSummary (summary_rows : list SummaryRow) (categories : list string)
| PageCategory (category_code : string) (fields : list (string * string))
    (listed : list CategoryRow) (status_filter : string)
    (categories : list string)
| PageHistory (card : option Card.t) (listed : list Delivery.t)
    (category_code : string)
| FileSummary (download_name : string) (data : list SummaryRow)
| FileTemplate (download_name : string) (header : list string).

Record Result : Type := mk_result {
  reply : Reply;
  flashed : list (string * string)
}.

(* ================================================================== *)
(** * index, login, logout *)
(* ================================================================== *)

(** In these handlers [session] is the truth value of
    [session.get("logged_in")]; [session.clear()] makes it false. *)

Definition index (session : bool) : Reply :=
  if session then ReplyRedirect "panel" None
  else ReplyRedirect "login" None.

(** [login]: the session after the request and the answer.  [args] is the
    query string. *)
Definition login (st : Store) (session : bool) (req_method : string)
    (f args : list (string * string)) : bool * Result :=
  if String.eqb req_method "POST" then
    let password := form_get f "password" "" in
    if verify_password st password then
      (true,
       mk_result
         match assoc "next" args with
         | Some next_url =>
             if String.eqb next_url "" then ReplyRedirect "panel" None
             else ReplyRedirectUrl next_url
         | None => ReplyRedirect "panel" None
         end
         [("Acceso correcto.", "success")])
    else (session, mk_result PageLogin [("Clave incorrecta.", "danger")])
  else (session, mk_result PageLogin []).

Definition logout (session : bool) : bool * Result :=
  (false, mk_result (ReplyRedirect "login" None)
            [("Sesión cerrada.", "info")]).

(* ================================================================== *)
(** * manage_passwords *)
(* ================================================================== *)

Section Passwords.

Variable strip : string -> string.

(** The branch [action == "add"]: the store and the message flashed, or
    [None] when the commit raises. *)
Definition add_password (st : Store) (f : list (string * string))
    : option (Store * list (string * string)) :=
  let pwd := strip (form_get f "new_password" "") in
  if String.eqb pwd "" then
    Some (st, [("La clave no puede estar vacía.", "warning")])
  else
    let h := _sha256 pwd in
    match find (fun p => String.eqb (Password.hash p) h) (passwords st) with
    | Some _ => Some (st, [("Esa clave ya existe.", "info")])
    | None =>
        match insert_password (passwords st) h with
        | Some tbl =>
            Some (mk_store tbl (cards st) (deliveries st),
                  [("Clave agregada.", "success")])
        | None => None
        end
    end.

(** The branch [action == "delete"] for a form that names the key [pk]. *)
Definition delete_password (st : Store) (pk : Z)
    : Store * list (string * string) :=
  match find (fun p => Z.eqb (Password.id p) pk) (passwords st) with
  | Some p =>
      (mk_store
         (filter (fun q => negb (Z.eqb (Password.id q) (Password.id p)))
            (passwords st))
         (cards st) (deliveries st),
       [("Clave eliminada.", "success")])
  | None => (st, [])
  end.

(** [manage_passwords] on the store [st] may end in the given store and
    result.  [Password.query.get(pid)] hands the text of the form to the
    engine.  The decimal writing of an integer names that key.  Any other
    text is compared with the keys by the engine's own conversion (SQLite
    reads [" 3"], ["03"] and ["+3"] as 3 and finds nothing under ["x"]):
    the rule [passwords_delete_text] leaves open which key [pk] the text
    names; a key that no row holds stands for a text that names none. *)
Inductive manage_passwords (st : Store) (req : Request)
    : Store * Result -> Prop :=
| passwords_login :
    logged_in req = false ->
    manage_passwords st req (st, mk_result ReplyLogin [])
| passwords_get : forall listed,
    logged_in req = true ->
    method req <> "POST" ->
    order_by_asc Password.id (passwords st) listed ->
    manage_passwords st req (st, mk_result (PagePasswords listed) [])
| passwords_add : forall st' msgs listed,
    logged_in req = true ->
    method req = "POST" ->
    assoc "action" (form req) = Some "add" ->
    add_password st (form req) = Some (st', msgs) ->
    order_by_asc Password.id (passwords st') listed ->
    manage_passwords st req (st', mk_result (PagePasswords listed) msgs)
| passwords_delete : forall pk listed,
    logged_in req = true ->
    method req = "POST" ->
    assoc "action" (form req) = Some "delete" ->
    assoc "password_id" (form req) = Some (str_of_Z pk) ->
    order_by_asc Password.id (passwords (fst (delete_password st pk)))
      listed ->
    manage_passwords st req
      (fst (delete_password st pk),
       mk_result (PagePasswords listed) (snd (delete_password st pk)))
| passwords_delete_text : forall text pk listed,
    logged_in req = true ->
    method req = "POST" ->
    assoc "action" (form req) = Some "delete" ->
    assoc "password_id" (form req) = Some text ->
    (forall k, text <> str_of_Z k) ->
    order_by_asc Password.id (passwords (fst (delete_password st pk)))
      listed ->
    manage_passwords st req
      (fst (delete_password st pk),
       mk_result (PagePasswords listed) (snd (delete_password st pk)))
| passwords_delete_unnamed : forall listed,
    logged_in req = true ->
    method req = "POST" ->
    assoc "action" (form req) = Some "delete" ->
    assoc "password_id" (form req) = None ->
    order_by_asc Password.id (passwords st) listed ->
    manage_passwords st req (st, mk_result (PagePasswords listed) [])
| passwords_other : forall listed,
    logged_in req = true ->
    method req = "POST" ->
    assoc "action" (form req) <> Some "add" ->
    assoc "action" (form req) <> Some "delete" ->
    order_by_asc Password.id (passwords st) listed ->
    manage_passwords st req (st, mk_result (PagePasswords listed) []).

End Passwords.

(* ================================================================== *)
(** * panel, export_summary_excel, summary, dashboard *)
(* ================================================================== *)

(** [Card.query.filter_by(category=code).all()]. *)
Definition cards_of_category (st : Store) (code : string) : list Card.t :=
  filter (fun c => String.eqb (Card.category c) code) (cards st).

(** [(c.status or "Activa") == "Activa"]. *)
Definition counts_as_activa (c : Card.t) : bool :=
  String.eqb
    match Card.status c with
    | Some s => if String.eqb s "" then "Activa" else s
    | None => "Activa"
    end
    "Activa".

(** The number of results whose [tipo] is "Entregadas". *)
Definition count_entregadas (results : list (string * string)) : nat :=
  List.length (filter (fun r => String.eqb (snd r) "Entregadas") results).

(** The line computed for one category: [results] holds what
    [compute_card_status] answered for each card of the category. *)
Definition summary_row (st : Store) (code : string) (row : SummaryRow)
    : Prop :=
  exists results,
    Forall2 (compute_card_status st) (cards_of_category st code) results /\
    let total := List.length (cards_of_category st code) in
    let activas :=
      List.length (filter counts_as_activa (cards_of_category st code)) in
    row = mk_summary code total activas (total - activas)
            (count_entregadas results).

Inductive panel (st : Store) (session : bool) : Result -> Prop :=
| panel_login :
    session = false -> panel st session (mk_result ReplyLogin [])
| panel_page : forall summary_rows,
    session = true ->
    Forall2 (summary_row st) CATEGORY_ORDER summary_rows ->
    panel st session (mk_result (PageSummary summary_rows CATEGORY_ORDER) []).

Inductive export_summary_excel (st : Store) (session : bool)
    : Result -> Prop :=
| export_login :
    session = false ->
    export_summary_excel st session (mk_result ReplyLogin [])
| export_file : forall data,
    session = true ->
    Forall2 (summary_row st) CATEGORY_ORDER data ->
    export_summary_excel st session
      (mk_result (FileSummary "resumen_tarjetas.xlsx" data) []).

Definition summary (session : bool) : Reply :=
  if session then ReplyRedirect "panel" None else ReplyLogin.

Definition dashboard (session : bool) : Reply :=
  if session then PageDashboard else ReplyLogin.

(* ================================================================== *)
(** * category_view, download_cards_template, delete_card *)
(* ================================================================== *)

(** The two tests of the listing loop: whether a card with status type
    [tipo] is shown under [status_filter]. *)
Definition listed_under (status_filter tipo : string) : bool :=
  negb (String.eqb status_filter "Entregadas" &&
        negb (String.eqb tipo "Entregadas")) &&
  negb (String.eqb status_filter "Devueltas" &&
        negb (String.eqb tipo "Devueltas")).

(** The loop over the cards: each card is given a status by
    [compute_card_status] and is shown or skipped. *)
Inductive listing (st : Store) (fields : list (string * string))
    (status_filter : string) : list Card.t -> list CategoryRow -> Prop :=
| listing_done : listing st fields status_filter [] []
| listing_shown : forall card cards r listed,
    compute_card_status st card r ->
    listed_under status_filter (snd r) = true ->
    listing st fields status_filter cards listed ->
    listing st fields status_filter (card :: cards)
      (mk_row card
         (map (fun field => or_empty (getattr card (fst field))) fields)
         (fst r) :: listed)
| listing_skipped : forall card cards r listed,
    compute_card_status st card r ->
    listed_under status_filter (snd r) = false ->
    listing st fields status_filter cards listed ->
    listing st fields status_filter (card :: cards) listed.

Section Cards.

Variable strip : string -> string.

(** The card built by the branch [action == "add"]. *)
Definition card_of_form (category_code : string)
    (fields : list (string * string)) (f : list (string * string))
    : Card.t :=
  let card :=
    fold_left
      (fun card (field : string * string) =>
         setattr card (fst field) (strip (form_get f (fst field) "")))
      fields (new_card category_code) in
  setattr card "status" (form_get f "status" "Activa").

(** [category_view(category_code)]; [args] is the query string. *)
Inductive category_view (st : Store) (category_code : string)
    (req : Request) (args : list (string * string)) (stamp : datetime)
    : Store * Result -> Prop :=
| category_login :
    logged_in req = false ->
    category_view st category_code req args stamp
      (st, mk_result ReplyLogin [])
| category_unknown :
    logged_in req = true ->
    assoc category_code CATEGORY_DEFINITIONS = None ->
    category_view st category_code req args stamp
      (st, mk_result Reply404 [])
| category_add : forall fields,
    logged_in req = true ->
    assoc category_code CATEGORY_DEFINITIONS = Some fields ->
    method req = "POST" ->
    assoc "action" (form req) = Some "add" ->
    category_view st category_code req args stamp
      (mk_store (passwords st)
         (insert_card (cards st) stamp
            (card_of_form category_code fields (form req)))
         (deliveries st),
       mk_result (ReplyRedirect "category_view" (Some category_code))
         [("Tarjeta agregada.", "success")])
| category_list : forall fields ordered listed,
    logged_in req = true ->
    assoc category_code CATEGORY_DEFINITIONS = Some fields ->
    method req <> "POST" \/ assoc "action" (form req) <> Some "add" ->
    order_by_asc Card.id (cards_of_category st category_code) ordered ->
    listing st fields
      match assoc "status" args with Some v => v | None => "Todas" end
      ordered listed ->
    category_view st category_code req args stamp
      (st,
       mk_result
         (PageCategory category_code fields listed
            match assoc "status" args with Some v => v | None => "Todas" end
            CATEGORY_ORDER)
         []).

End Cards.

Definition download_cards_template (session : bool)
    (category_code : string) : Reply :=
  if negb session then ReplyLogin else
  match assoc category_code CATEGORY_DEFINITIONS with
  | None => Reply404
  | Some fields =>
      FileTemplate
        ("plantilla_tarjetas_" ++ lower category_code ++ ".xlsx")
        (map snd fields ++ ["Activa / Inactiva"])%list
  end.

(** [delete_card]: the card goes, and with it, by the cascade of
    [Card.deliveries], every delivery whose [card_id] is its key. *)
Definition delete_card (st : Store) (session : bool)
    (category_code : string) (card_id : Z) : Store * Result :=
  if negb session then (st, mk_result ReplyLogin []) else
  match find_card st card_id category_code with
  | None => (st, mk_result Reply404 [])
  | Some card =>
      (mk_store (passwords st)
         (filter (fun c => negb (Z.eqb (Card.id c) (Card.id card)))
            (cards st))
         (filter
            (fun d =>
               match Delivery.card_id d with
               | Some k => negb (Z.eqb k (Card.id card))
               | None => true
               end)
            (deliveries st)),
       mk_result (ReplyRedirect "category_view" (Some category_code))
         [("Tarjeta eliminada.", "success")])
  end.

(* ================================================================== *)
(** * card_history, category_full_history *)
(* ================================================================== *)

Inductive card_history (st : Store) (session : bool)
    (category_code : string) (card_id : Z) : Result -> Prop :=
| history_login :
    session = false ->
    card_history st session category_code card_id (mk_result ReplyLogin [])
| history_unknown_card :
    session = true ->
    find_card st card_id category_code = None ->
    card_history st session category_code card_id (mk_result Reply404 [])
| history_page : forall card listed,
    session = true ->
    find_card st card_id category_code = Some card ->
    order_by_entrega_asc
      (filter (fun d => String.eqb (Delivery.category d) category_code &&
                        match Delivery.card_id d with
                        | Some k => Z.eqb k (Card.id card)
                        | None => false
                        end) (deliveries st))
      listed ->
    card_history st session category_code card_id
      (mk_result (PageHistory (Some card) listed category_code) []).

(** The loop of [category_full_history] over the ordered deliveries. *)
Definition history_filter (status_filter : string) (ds : list Delivery.t)
    : list Delivery.t :=
  fold_left
    (fun filtered d =>
       if String.eqb status_filter "Entregadas" && negb (is_open d)
       then filtered
       else if String.eqb status_filter "Devueltas" && is_open d
       then filtered
       else (filtered ++ [d])%list)
    ds [].

Inductive category_full_history (st : Store) (session : bool)
    (category_code : string) (args : list (string * string))
    : Result -> Prop :=
| full_history_login :
    session = false ->
    category_full_history st session category_code args
      (mk_result ReplyLogin [])
| full_history_unknown :
    session = true ->
    assoc category_code CATEGORY_DEFINITIONS = None ->
    category_full_history st session category_code args
      (mk_result Reply404 [])
| full_history_page : forall ordered,
    session = true ->
    assoc category_code CATEGORY_DEFINITIONS <> None ->
    order_by_entrega_asc
      (filter (fun d => String.eqb (Delivery.category d) category_code)
         (deliveries st))
      ordered ->
    category_full_history st session category_code args
      (mk_result
         (PageHistory None
            (history_filter
               match assoc "status" args with Some v => v | None => "Todas" end
               ordered)
            category_code)
         []).

(* ================================================================== *)
(** * What the tables are expected to satisfy *)
(* ================================================================== *)

(** Every delivery that names a card names a stored one. *)
Definition refers_to_cards (st : Store) : Prop :=
  forall d k, In d (deliveries st) -> Delivery.card_id d = Some k ->
              exists c, In c (cards st) /\ Card.id c = k.

(** Primary keys are distinct, password hashes are distinct, deliveries
    name stored cards, and no card has two open deliveries. *)
Definition consistent (st : Store) : Prop :=
  NoDup (map Password.id (passwords st)) /\
  NoDup (map Password.hash (passwords st)) /\
  NoDup (map Card.id (cards st)) /\
  NoDup (map Delivery.id (deliveries st)) /\
  refers_to_cards st /\
  forall card, at_most_one_open st card.

(** A [datetime] cut to the second, as [format_dt] shows it. *)
Definition to_second (d : datetime) : datetime :=
  mk_datetime (year d) (month d) (day d) (hour d) (minute d) (second d) 0.

(** The numbers [k], [k + 1], ..., [fuel] of them. *)
Fixpoint count_from (k : N) (fuel : nat) : list N :=
  match fuel with
  | O => []
  | S fuel' => k :: count_from (N.succ k) fuel'
  end.

(** Whether [n], written on [width] digits, is read back by [number_of]
    from exactly [width] characters. *)
Definition reads_back (width : nat) (n : N) : bool :=
  let s := zfill width (str_of_N n) in
  Nat.eqb (String.length s) width &&
  match number_of (list_ascii_of_string s) 0 with
  | Some m => N.eqb m n
  | None => false
  end.

(** The row a saved request builds when the card has no open delivery,
    before it is given its key. *)
Definition appended (strip : string -> string)
    (strptime : string -> string -> option datetime)
    (category_code : string) (card : Card.t)
    (f : list (string * string)) (now : datetime) : Delivery.t :=
  posted strip strptime f now
    (Delivery.mk 0 category_code (Some (Card.id card))
       (Some (or_empty (Card.numero_tarjeta card)))
       None None None None None None None).

(** The text columns of [Card] that [setattr] and [getattr] know. *)
Definition card_columns : list string :=
  [ "n"; "modulo_sector"; "categoria"; "subcategoria"; "nombre_tarjeta";
    "tipo_tarjeta"; "numero_tarjeta"; "status" ].

(** The header of the sheet [download_cards_template] hands out. *)
Definition template_header (fields : list (string * string)) : list string :=
  (map snd fields ++ ["Activa / Inactiva"])%list.

(** Whether the card has a delivery without a return. *)
Definition has_open_delivery (st : Store) (card : Card.t) : bool :=
  match open_rows st card with
  | [] => false
  | _ :: _ => true
  end.

(** Whether [category_full_history] shows a delivery under a filter. *)
Definition shown_in_history (status_filter : string) (d : Delivery.t)
    : bool :=
  if String.eqb status_filter "Entregadas" then is_open d
  else if String.eqb status_filter "Devueltas" then negb (is_open d)
  else true.

(** A listed answer of a query on listed rows: a rearrangement that the
    comparisons confirm to be ascending. *)
Ltac ordered_answer :=
  split;
  [ first [apply perm_nil | apply Permutation_refl | apply perm_swap]
  | repeat constructor ].

(* ================================================================== *)
(** * The order on timestamps *)
(* ================================================================== *)

Lemma lex_compare_refl : forall a, lex_compare a a = Eq.
Proof.
  induction a as [|x a IH]; simpl; [reflexivity|].
  now rewrite N.compare_refl.
Qed.

Lemma lex_compare_antisym : forall a b,
  lex_compare b a = CompOpp (lex_compare a b).
Proof.
  induction a as [|x a IH]; intros [|y b]; simpl; try reflexivity.
  rewrite (N.compare_antisym x y).
  destruct (N.compare x y); simpl; auto.
Qed.

Lemma lex_compare_trans : forall a b c,
  lex_compare a b <> Gt -> lex_compare b c <> Gt -> lex_compare a c <> Gt.
Proof.
  induction a as [|x a IH]; intros [|y b] [|z c]; simpl; try congruence.
  destruct (N.compare_spec x y) as [Hxy|Hxy|Hxy]; try congruence;
    destruct (N.compare_spec y z) as [Hyz|Hyz|Hyz]; try congruence;
    intros H1 H2.
  - subst. rewrite N.compare_refl. now apply IH with b.
  - subst. rewrite (proj2 (N.compare_lt_iff y z) Hyz). congruence.
  - subst. rewrite (proj2 (N.compare_lt_iff x z) Hxy). congruence.
  - rewrite (proj2 (N.compare_lt_iff x z) (N.lt_trans _ _ _ Hxy Hyz)).
    congruence.
Qed.

Lemma dt_leb_refl : forall x, dt_leb x x = true.
Proof.
  intros x. unfold dt_leb, dt_compare. now rewrite lex_compare_refl.
Qed.

Lemma dt_leb_total : forall x y, dt_leb x y = true \/ dt_leb y x = true.
Proof.
  intros x y. unfold dt_leb, dt_compare.
  rewrite (lex_compare_antisym (dt_fields x) (dt_fields y)).
  destruct (lex_compare (dt_fields x) (dt_fields y)); simpl; auto.
Qed.

Lemma dt_leb_trans : forall x y z,
  dt_leb x y = true -> dt_leb y z = true -> dt_leb x z = true.
Proof.
  intros x y z. unfold dt_leb, dt_compare. intros H1 H2.
  pose proof (lex_compare_trans (dt_fields x) (dt_fields y) (dt_fields z)) as T.
  destruct (lex_compare (dt_fields x) (dt_fields y)); try discriminate;
    destruct (lex_compare (dt_fields y) (dt_fields z)); try discriminate;
    destruct (lex_compare (dt_fields x) (dt_fields z)); try reflexivity;
    exfalso; apply T; congruence.
Qed.

Lemma dt_ltb_not_leb : forall x y, dt_ltb x y = true -> dt_leb y x = false.
Proof.
  intros x y. unfold dt_ltb, dt_leb, dt_compare.
  rewrite (lex_compare_antisym (dt_fields x) (dt_fields y)).
  destruct (lex_compare (dt_fields x) (dt_fields y)); simpl; congruence.
Qed.

Lemma entrega_le_refl : forall d, entrega_le d d.
Proof.
  intros d. unfold entrega_le, entrega_leb.
  destruct (Delivery.entrega_at d); auto using dt_leb_refl.
Qed.

Lemma entrega_ltb_not_le : forall a b,
  entrega_ltb a b = true -> ~ entrega_le b a.
Proof.
  intros a b. unfold entrega_ltb, entrega_le, entrega_leb.
  destruct (Delivery.entrega_at a), (Delivery.entrega_at b);
    try discriminate.
  intros H. rewrite (dt_ltb_not_leb _ _ H). discriminate.
Qed.

Lemma nulls_first_total : forall a b,
  nulls_first_leb a b = true \/ nulls_first_leb b a = true.
Proof.
  intros a b. unfold nulls_first_leb.
  destruct (Delivery.entrega_at a), (Delivery.entrega_at b);
    auto using dt_leb_total.
Qed.

Lemma nulls_first_trans : forall a b c,
  nulls_first_leb a b = true -> nulls_first_leb b c = true ->
  nulls_first_leb a c = true.
Proof.
  intros a b c. unfold nulls_first_leb.
  destruct (Delivery.entrega_at a), (Delivery.entrega_at b),
    (Delivery.entrega_at c); try discriminate; eauto using dt_leb_trans.
Qed.

Lemma nulls_first_entrega_le : forall a b,
  nulls_first_leb a b = true -> entrega_le a b.
Proof.
  intros a b. unfold nulls_first_leb, entrega_le, entrega_leb.
  destruct (Delivery.entrega_at a), (Delivery.entrega_at b); auto.
Qed.

(* ================================================================== *)
(** * Ordered query results *)
(* ================================================================== *)

Section InsertionSort.

Context {A : Type}.
Variable leb : A -> A -> bool.
Hypothesis leb_total : forall a b, leb a b = true \/ leb b a = true.
Hypothesis leb_trans : forall a b c,
  leb a b = true -> leb b c = true -> leb a c = true.

Lemma insert_by_perm : forall x l, Permutation (x :: l) (insert_by leb x l).
Proof.
  intros x l. induction l as [|y l IH]; simpl.
  - apply Permutation_refl.
  - destruct (leb x y).
    + apply Permutation_refl.
    + eapply perm_trans; [apply perm_swap|]. now apply perm_skip.
Qed.

Lemma sort_by_perm : forall l, Permutation l (sort_by leb l).
Proof.
  induction l as [|x l IH]; simpl.
  - apply perm_nil.
  - eapply perm_trans; [apply perm_skip, IH|]. apply insert_by_perm.
Qed.

Lemma insert_by_sorted : forall x l,
  StronglySorted (fun a b => leb a b = true) l ->
  StronglySorted (fun a b => leb a b = true) (insert_by leb x l).
Proof.
  intros x l Hs. induction Hs as [|y l Hs IH Hy]; simpl.
  - repeat constructor.
  - destruct (leb x y) eqn:E.
    + constructor; [now constructor|].
      constructor; [exact E|].
      eapply Forall_impl; [|exact Hy]. intros z Hz. simpl in *. eauto.
    + constructor; [exact IH|].
      apply (Permutation_Forall (insert_by_perm x l)).
      constructor; [|exact Hy].
      destruct (leb_total x y) as [H|H]; [congruence|exact H].
Qed.

Lemma sort_by_sorted : forall l,
  StronglySorted (fun a b => leb a b = true) (sort_by leb l).
Proof.
  induction l as [|x l IH]; simpl.
  - constructor.
  - now apply insert_by_sorted.
Qed.

End InsertionSort.

Lemma StronglySorted_weaken : forall (A : Type) (R S : A -> A -> Prop) l,
  (forall a b, R a b -> S a b) -> StronglySorted R l -> StronglySorted S l.
Proof.
  intros A R S l HRS Hs. induction Hs as [|x l Hs IH Hx]; constructor; auto.
  eapply Forall_impl; [|exact Hx]. auto.
Qed.

(** The query always has an answer: the stable one. *)
Lemma stable_order_ok : forall rows,
  order_by_entrega_asc rows (stable_order rows).
Proof.
  intros rows. split.
  - apply sort_by_perm.
  - apply StronglySorted_weaken
      with (R := fun a b => nulls_first_leb a b = true).
    + exact nulls_first_entrega_le.
    + apply sort_by_sorted.
      * exact nulls_first_total.
      * exact nulls_first_trans.
Qed.

Lemma last_opt_In : forall (A : Type) (l : list A) e,
  last_opt l = Some e -> In e l.
Proof.
  induction l as [|x l IH]; intros e H; simpl in *; [discriminate|].
  destruct l as [|y l].
  - inversion H. now left.
  - right. now apply IH.
Qed.

Lemma last_opt_None : forall (A : Type) (l : list A),
  last_opt l = None -> l = [].
Proof.
  induction l as [|x l IH]; intros H; [reflexivity|].
  simpl in H. destruct l as [|y l]; [discriminate|].
  specialize (IH H). discriminate.
Qed.

Lemma last_opt_app : forall (A : Type) (l : list A) x,
  last_opt (l ++ [x])%list = Some x.
Proof.
  induction l as [|y l IH]; intros x; [reflexivity|].
  simpl. rewrite IH. destruct (l ++ [x])%list eqn:E; [|reflexivity].
  destruct l; discriminate.
Qed.

(** In an ordered answer every row stands before the last one. *)
Lemma sorted_last_greatest : forall (A : Type) (R : A -> A -> Prop) l e,
  StronglySorted R l -> last_opt l = Some e ->
  forall d, In d l -> R d e \/ d = e.
Proof.
  intros A R l e Hs. induction Hs as [|x l Hs IH Hx]; intros Hl d Hd.
  - discriminate.
  - destruct l as [|y l].
    + simpl in Hl. inversion Hl; subst. destruct Hd as [->|[]]. now right.
    + change (last_opt (y :: l) = Some e) in Hl.
      destruct Hd as [->|Hd].
      * left. rewrite Forall_forall in Hx. apply Hx.
        now apply last_opt_In.
      * now apply IH.
Qed.

Lemma order_by_last_greatest : forall rows ds e,
  order_by_entrega_asc rows ds -> last_opt ds = Some e ->
  In e rows /\ forall d, In d rows -> entrega_le d e.
Proof.
  intros rows ds e [Hp Hs] Hl. split.
  - apply (Permutation_in _ (Permutation_sym Hp)). now apply last_opt_In.
  - intros d Hd.
    destruct (sorted_last_greatest _ _ _ _ Hs Hl d (Permutation_in _ Hp Hd))
      as [H| ->]; [exact H|apply entrega_le_refl].
Qed.

(** The two answers of [get_last_open_delivery]: [None] when the card has
    no open delivery, otherwise an open delivery of the card that none of
    its open deliveries follows. *)
Lemma open_delivery_cases : forall st card r,
  get_last_open_delivery st card r ->
  match r with
  | Some e =>
      In e (open_rows st card) /\
      forall d, In d (open_rows st card) -> entrega_le d e
  | None => open_rows st card = []
  end.
Proof.
  intros st card r [ds [Hq ->]].
  destruct (last_opt ds) as [e|] eqn:He.
  - now apply order_by_last_greatest with ds.
  - apply last_opt_None in He. subst ds.
    destruct Hq as [Hp _]. now apply Permutation_sym, Permutation_nil in Hp.
Qed.

Lemma open_rows_In : forall st card d,
  In d (open_rows st card) <->
  In d (deliveries st) /\ of_card card d = true /\ is_open d = true.
Proof.
  intros st card d. unfold open_rows, card_rows.
  rewrite !filter_In. tauto.
Qed.

Lemma entrega_le_dates : forall d e x y,
  entrega_le d e ->
  Delivery.entrega_at d = Some x -> Delivery.entrega_at e = Some y ->
  dt_leb x y = true.
Proof.
  intros d e x y H Hd He. unfold entrega_le, entrega_leb in H.
  now rewrite Hd, He in H.
Qed.

Lemma order_by_nil : forall ds, order_by_entrega_asc [] ds -> ds = [].
Proof.
  intros ds [Hp _]. now apply Permutation_nil.
Qed.

Lemma order_by_nonempty : forall rows ds,
  order_by_entrega_asc rows ds -> rows <> [] -> exists e, last_opt ds = Some e.
Proof.
  intros rows ds [Hp _] Hne.
  destruct (last_opt ds) as [e|] eqn:E; [now exists e|].
  apply last_opt_None in E. subst.
  apply Permutation_sym, Permutation_nil in Hp. contradiction.
Qed.

(* ================================================================== *)
(** * Status of a card *)
(* ================================================================== *)

Lemma compute_card_status_of_answer : forall st card ds,
  order_by_entrega_asc (card_rows st card) ds ->
  compute_card_status st card (status_of_deliveries ds).
Proof.
  intros st card ds H. exists ds. now split.
Qed.

(** The status is read off the last delivery of the answer alone. *)
Lemma status_of_last : forall ds ds',
  last_opt ds = last_opt ds' ->
  status_of_deliveries ds = status_of_deliveries ds'.
Proof.
  intros ds ds' H. unfold status_of_deliveries. now rewrite H.
Qed.

(** C2. For every answer of the card's query, ordered ascending by
    [entrega_at], whose last delivery has [devolucion_at] set to [t]:
    [compute_card_status] returns the state "Devueltas" (Returned) and the
    text "Disponible (devuelto <t>)" with [t] written by [format_dt]. *)
Theorem status_returned : forall st card ds last t,
  order_by_entrega_asc (card_rows st card) ds ->
  last_opt ds = Some last ->
  Delivery.devolucion_at last = Some t ->
  status_of_deliveries ds =
    ("Disponible (devuelto " ++ strftime t ++ ")", "Devueltas") /\
  compute_card_status st card
    ("Disponible (devuelto " ++ strftime t ++ ")", "Devueltas").
Proof.
  intros st card ds last t Hq Hl Hr.
  assert (E : status_of_deliveries ds =
              ("Disponible (devuelto " ++ strftime t ++ ")", "Devueltas")).
  { unfold status_of_deliveries. rewrite Hl, Hr. reflexivity. }
  split; [exact E|].
  rewrite <- E. now apply compute_card_status_of_answer.
Qed.

Lemma status_returned_witness :
  compute_card_status (Sample.store_of [Sample.lopez_back]) Sample.card
    ("Disponible (devuelto 2024-01-05 09:00:00)", "Devueltas").
Proof.
  refine (proj2 (status_returned (Sample.store_of [Sample.lopez_back])
                   Sample.card [Sample.lopez_back] Sample.lopez_back
                   Sample.jan5 _ _ _)).
  - ordered_answer.
  - reflexivity.
  - reflexivity.
Defined.

(** C3, as the code has it. For every answer of the card's query whose
    last delivery has no [devolucion_at], [compute_card_status] returns the
    state "Entregadas" (Delivered).  The text is "Entregada a <nombre>" when
    the holder name is not blank and "Entregada" when it is blank, and in
    both cases it is followed by " (<entrega_at>)" when [entrega_at] is
    present. *)
Theorem status_delivered : forall st card ds last,
  order_by_entrega_asc (card_rows st card) ds ->
  last_opt ds = Some last ->
  Delivery.devolucion_at last = None ->
  let text :=
    match shown_name last, Delivery.entrega_at last with
    | Some n, Some t => "Entregada a " ++ n ++ " (" ++ strftime t ++ ")"
    | Some n, None => "Entregada a " ++ n
    | None, Some t => "Entregada (" ++ strftime t ++ ")"
    | None, None => "Entregada"
    end in
  status_of_deliveries ds = (text, "Entregadas") /\
  compute_card_status st card (text, "Entregadas").
Proof.
  intros st card ds last Hq Hl Hr text.
  assert (E : status_of_deliveries ds = (text, "Entregadas")).
  { unfold status_of_deliveries, text, shown_name. rewrite Hl, Hr. simpl.
    destruct (Delivery.nombre last) as [n|]; simpl.
    - destruct (String.eqb n ""); simpl;
        destruct (Delivery.entrega_at last); reflexivity.
    - destruct (Delivery.entrega_at last); reflexivity. }
  split; [exact E|].
  rewrite <- E. now apply compute_card_status_of_answer.
Qed.

Lemma status_delivered_witness :
  compute_card_status (Sample.store_of [Sample.lopez_out]) Sample.card
    ("Entregada a A. Lopez (2024-01-01 10:00:00)", "Entregadas").
Proof.
  refine (proj2 (status_delivered (Sample.store_of [Sample.lopez_out])
                   Sample.card [Sample.lopez_out] Sample.lopez_out _ _ _)).
  - ordered_answer.
  - reflexivity.
  - reflexivity.
Defined.

(** C3, as stated, fails: an open delivery with a blank holder name and an
    [entrega_at] is shown as "Entregada (2024-01-01 10:00:00)", not as the
    bare "Entregada". *)
Lemma status_blank_name_not_generic :
  last_opt [Sample.nameless_out] = Some Sample.nameless_out /\
  Delivery.devolucion_at Sample.nameless_out = None /\
  Delivery.nombre Sample.nameless_out = Some "" /\
  status_of_deliveries [Sample.nameless_out] =
    ("Entregada (2024-01-01 10:00:00)", "Entregadas") /\
  status_of_deliveries [Sample.nameless_out] <> ("Entregada", "Entregadas").
Proof.
  repeat split; try reflexivity. vm_compute. discriminate.
Qed.

(** C4. For a card without deliveries [compute_card_status] returns, and
    returns only, the state "Disponible" (Available) with the text
    "Disponible". *)
Theorem status_no_deliveries : forall st card r,
  card_rows st card = [] ->
  (compute_card_status st card r <-> r = ("Disponible", "Disponible")).
Proof.
  intros st card r Hrows. unfold compute_card_status. rewrite Hrows. split.
  - intros [ds [Hq ->]]. apply order_by_nil in Hq. now subst.
  - intros ->. exists []. split; [|reflexivity].
    ordered_answer.
Qed.

Lemma status_no_deliveries_witness :
  compute_card_status (Sample.store_of []) Sample.card
    ("Disponible", "Disponible").
Proof.
  apply (proj2 (status_no_deliveries (Sample.store_of []) Sample.card
                  ("Disponible", "Disponible") eq_refl)).
  reflexivity.
Defined.

(** When one delivery is dated after all the others, every ordered answer
    ends with it. *)
Lemma single_latest_last : forall rows ds m,
  order_by_entrega_asc rows ds ->
  In m rows ->
  (forall d, In d rows -> d = m \/ entrega_ltb d m = true) ->
  last_opt ds = Some m.
Proof.
  intros rows ds m Hq Hm Hlatest.
  destruct (order_by_nonempty rows ds Hq) as [e He].
  { intros ->. contradiction. }
  destruct (order_by_last_greatest rows ds e Hq He) as [Hin Hmax].
  destruct (Hlatest e Hin) as [->|Hlt]; [exact He|].
  exfalso. exact (entrega_ltb_not_le e m Hlt (Hmax m Hm)).
Qed.

(** Whatever the engine does with equal dates: when one delivery of the
    card is dated after all its other deliveries, any two answers of
    [compute_card_status] over the same stored deliveries are the same
    pair. *)
Theorem status_deterministic_single_latest : forall st card m r1 r2,
  In m (card_rows st card) ->
  (forall d, In d (card_rows st card) -> d = m \/ entrega_ltb d m = true) ->
  compute_card_status st card r1 ->
  compute_card_status st card r2 ->
  r1 = r2.
Proof.
  intros st card m r1 r2 Hm Hlatest [ds1 [Hq1 ->]] [ds2 [Hq2 ->]].
  apply status_of_last.
  rewrite (single_latest_last _ ds1 m Hq1 Hm Hlatest).
  now rewrite (single_latest_last _ ds2 m Hq2 Hm Hlatest).
Qed.

Lemma status_deterministic_single_latest_witness :
  status_of_deliveries [Sample.early_out; Sample.late_back] =
  status_of_deliveries
    (stable_order [Sample.late_back; Sample.early_out]).
Proof.
  apply (status_deterministic_single_latest
           (Sample.store_of [Sample.late_back; Sample.early_out])
           Sample.card Sample.late_back).
  - simpl. now left.
  - simpl. intros d [<-|[<-|[]]]; [now left|right; reflexivity].
  - apply compute_card_status_of_answer. ordered_answer.
  - apply compute_card_status_of_answer. apply stable_order_ok.
Defined.

(* ================================================================== *)
(** * The open delivery of a card *)
(* ================================================================== *)

(** Whatever the engine does with equal dates: [get_last_open_delivery]
    returns [None] only when the card has no open delivery; otherwise it
    returns an open delivery of the card, and no open delivery of the card
    has a later [entrega_at]. *)
Theorem last_open_is_latest : forall st card r,
  get_last_open_delivery st card r ->
  match r with
  | Some e =>
      In e (deliveries st) /\ of_card card e = true /\ is_open e = true /\
      forall d x y,
        In d (deliveries st) -> of_card card d = true -> is_open d = true ->
        Delivery.entrega_at d = Some x -> Delivery.entrega_at e = Some y ->
        dt_leb x y = true
  | None => open_rows st card = []
  end.
Proof.
  intros st card r Hr. apply open_delivery_cases in Hr.
  destruct r as [e|]; [|exact Hr].
  destruct Hr as [Hin Hmax]. apply open_rows_In in Hin.
  destruct Hin as [Hin [Hcard Hopen]]. repeat split; try assumption.
  intros d x y Hd Hdc Hdo Hx Hy.
  apply (entrega_le_dates d e x y); try assumption.
  apply Hmax. now apply open_rows_In.
Qed.

Lemma last_open_is_latest_witness :
  In Sample.open_2
    (deliveries (Sample.store_of [Sample.open_1; Sample.open_2])) /\
  dt_leb Sample.jan1 Sample.jan1 = true.
Proof.
  assert (H : get_last_open_delivery
                (Sample.store_of [Sample.open_1; Sample.open_2])
                Sample.card (Some Sample.open_2)).
  { exists [Sample.open_1; Sample.open_2]. split; [|reflexivity].
    ordered_answer. }
  destruct (last_open_is_latest _ _ _ H) as [Hin [_ [_ Hmax]]].
  split; [exact Hin|].
  apply (Hmax Sample.open_1); try reflexivity. simpl. now left.
Defined.

(** With a single open delivery the lookup has one answer. *)
Lemma last_open_single : forall st card e r,
  open_rows st card = [e] ->
  (get_last_open_delivery st card r <-> r = Some e).
Proof.
  intros st card e r Hrows. unfold get_last_open_delivery. rewrite Hrows.
  split.
  - intros [ds [[Hp _] ->]]. apply Permutation_length_1_inv in Hp. now subst.
  - intros ->. exists [e]. split; [|reflexivity].
    ordered_answer.
Qed.

(** C10. There is a history with a single open delivery, entered for a date
    before that of a returned delivery, on which [compute_card_status]
    answers "Devueltas" (shown as available) and nothing else, while
    [get_last_open_delivery] answers the open delivery and nothing else. *)
Theorem returned_while_open :
  exists st card e_open e_back,
    deliveries st = [e_back; e_open] /\
    at_most_one_open st card /\
    is_open e_open = true /\ is_open e_back = false /\
    entrega_ltb e_open e_back = true /\
    (forall r, compute_card_status st card r <->
               r = ("Disponible (devuelto 2024-01-09 08:30:00)", "Devueltas")) /\
    (forall r, get_last_open_delivery st card r <-> r = Some e_open).
Proof.
  exists (Sample.store_of [Sample.late_back; Sample.early_out]), Sample.card,
    Sample.early_out, Sample.late_back.
  split; [reflexivity|]. split; [unfold at_most_one_open; simpl; lia|].
  split; [reflexivity|]. split; [reflexivity|]. split; [reflexivity|].
  split.
  - intros r. split.
    + intros [ds [Hq ->]].
      rewrite (status_of_last ds [Sample.late_back]); [reflexivity|].
      apply (single_latest_last _ ds Sample.late_back Hq).
      * simpl. now left.
      * simpl. intros d [<-|[<-|[]]]; [now left|right; reflexivity].
    + intros ->.
      exists [Sample.early_out; Sample.late_back]. split; [|reflexivity].
      ordered_answer.
  - intros r. now apply last_open_single.
Qed.

(* ================================================================== *)
(** * Recording a delivery *)
(* ================================================================== *)

Lemma fresh_id_above : forall ids x, In x ids -> (x < fresh_id ids)%Z.
Proof.
  unfold fresh_id. induction ids as [|y ids IH]; intros x Hx; [contradiction|].
  change (fold_right Z.max 0%Z (y :: ids))
    with (Z.max y (fold_right Z.max 0%Z ids)).
  destruct Hx as [->|Hx]; [lia|]. specialize (IH x Hx). lia.
Qed.

Lemma fresh_id_new : forall ids, ~ In (fresh_id ids) ids.
Proof.
  intros ids H. apply fresh_id_above in H. lia.
Qed.

Lemma find_card_category : forall st card_id category_code card,
  find_card st card_id category_code = Some card ->
  Card.id card = card_id /\ Card.category card = category_code.
Proof.
  intros st card_id category_code card H. unfold find_card in H.
  apply find_some in H. destruct H as [_ H].
  apply andb_true_iff in H. destruct H as [H1 H2].
  apply Z.eqb_eq in H1. apply String.eqb_eq in H2. now split.
Qed.

(** An update of holder and dates leaves every row with its card. *)
Lemma update_delivery_card_rows : forall card rows pk r n c e t v,
  filter (of_card card)
    (update_delivery rows pk (with_form_values r n c e t v)) =
  update_delivery (filter (of_card card) rows) pk
    (with_form_values r n c e t v).
Proof.
  intros card rows pk r n c e t v. unfold update_delivery.
  induction rows as [|d rows IH]; [reflexivity|]. simpl.
  assert (E : of_card card
                (if (Delivery.id d =? pk)%Z
                 then with_form_values r n c e t v d else d) =
              of_card card d).
  { destruct (Delivery.id d =? pk)%Z; reflexivity. }
  rewrite E. destruct (of_card card d); simpl; now rewrite IH.
Qed.





Section DeliverCard.

Variable strip : string -> string.
Variable strptime : string -> string -> option datetime.


End DeliverCard.


Section DeliverCardRejects.

Variable strip : string -> string.
Variable strptime : string -> string -> option datetime.

(** C7. A POST to [deliver_card] for a known category and an existing
    card in which RUT or the holder name is empty once stripped is
    rejected: the handler ends, and can only end, with the store as it
    was, the warning "RUT y Nombre son obligatorios." and a redirect back
    to the form. *)
Theorem deliver_card_rejects_blank_holder :
  forall st category_code card_id card req now stamp,
  logged_in req = true ->
  assoc category_code CATEGORY_DEFINITIONS <> None ->
  find_card st card_id category_code = Some card ->
  method req = "POST" ->
  strip (form_get (form req) "rut" "") = "" \/
  strip (form_get (form req) "nombre" "") = "" ->
  let rejected :=
    (st, mk_outcome (Redirect "deliver_card" category_code (Some card_id))
           [("RUT y Nombre son obligatorios.", "warning")]) in
  deliver_card strip strptime st category_code card_id req now stamp
    rejected /\
  forall r,
    deliver_card strip strptime st category_code card_id req now stamp r ->
    r = rejected.
Proof.
  intros st category_code card_id card req now stamp Hs Hc Hf Hm Hblank
    rejected.
  assert (Hpost : forall c lo,
            deliver_card_post strip strptime st category_code card_id c lo
              (form req) now stamp = rejected).
  { intros c lo. unfold deliver_card_post, rejected.
    destruct Hblank as [-> | ->]; simpl; [reflexivity|].
    now rewrite orb_true_r. }
  split.
  - rewrite <- (Hpost card (last_opt (stable_order (open_rows st card)))).
    apply deliver_post with (all_rows := stable_order (card_rows st card));
      try assumption.
    + exists (stable_order (open_rows st card)).
      split; [apply stable_order_ok|reflexivity].
    + apply stable_order_ok.
  - intros r Hstep.
    inversion Hstep as [Hs' Heq|Hs' Hc' Heq|Hs' Hc' Hf' Heq
                        |c lo all_rows Hs' Hc' Hf' Hlo Hall Hm' Heq
                        |c lo all_rows Hs' Hc' Hf' Hlo Hall Hm' Heq]; subst.
    + congruence.
    + contradiction.
    + congruence.
    + apply Hpost.
    + contradiction.
Qed.

(** Whatever else [deliver_card] answers, only a saved delivery changes
    the store. *)
Lemma deliver_card_unsaved_keeps_store :
  forall st category_code card_id req now stamp st' out,
  deliver_card strip strptime st category_code card_id req now stamp
    (st', out) ->
  ~ saved out ->
  st' = st.
Proof.
  intros st category_code card_id req now stamp st' out Hstep Hunsaved.
  inversion Hstep as [Hs Heq|Hs Hc Heq|Hs Hc Hf Heq
                      |card lo all_rows Hs Hc Hf Hlo Hall Hm Heq
                      |card lo all_rows Hs Hc Hf Hlo Hall Hm Heq]; subst;
    try reflexivity.
  unfold deliver_card_post in Heq.
  destruct (String.eqb (strip (form_get (form req) "rut" "")) "" ||
            String.eqb (strip (form_get (form req) "nombre" "")) "")%bool;
    inversion Heq; subst; [reflexivity|].
  exfalso. apply Hunsaved. reflexivity.
Qed.

End DeliverCardRejects.

Lemma deliver_card_rejects_blank_holder_witness :
  deliver_card strip_ascii strptime_iso
    (Sample.store_of [Sample.lopez_out]) "MODULO" 7 Sample.post_no_name
    Sample.clock Sample.clock
    (Sample.store_of [Sample.lopez_out],
     mk_outcome (Redirect "deliver_card" "MODULO" (Some 7%Z))
       [("RUT y Nombre son obligatorios.", "warning")]).
Proof.
  refine (proj1 (deliver_card_rejects_blank_holder strip_ascii strptime_iso
                   (Sample.store_of [Sample.lopez_out]) "MODULO" 7
                   Sample.card Sample.post_no_name Sample.clock Sample.clock
                   _ _ _ _ _)).
  - reflexivity.
  - discriminate.
  - reflexivity.
  - reflexivity.
  - right. reflexivity.
Defined.

(** The history of C10 is what two saved requests leave behind: a delivery
    recorded together with its return, then an open delivery entered for an
    earlier date. *)
Lemma returned_while_open_reached :
  deliver_card strip_ascii strptime_iso (Sample.store_of []) "MODULO" 7
    (Sample.post "A. Lopez" "2024-01-05 09:00:00" "2024-01-09 08:30:00")
    Sample.clock Sample.clock
    (Sample.store_of [Sample.late_back],
     mk_outcome (Redirect "category_view" "MODULO" None)
       [("Registro de entrega / devolución guardado.", "success")]) /\
  deliver_card strip_ascii strptime_iso (Sample.store_of [Sample.late_back])
    "MODULO" 7 (Sample.post "B. Rojas" "2024-01-01 10:00:00" "")
    Sample.clock Sample.clock
    (Sample.store_of [Sample.late_back; Sample.early_out],
     mk_outcome (Redirect "category_view" "MODULO" None)
       [("Registro de entrega / devolución guardado.", "success")]).
Proof.
  split.
  - apply (deliver_post strip_ascii strptime_iso (Sample.store_of [])
             "MODULO" 7
             (Sample.post "A. Lopez" "2024-01-05 09:00:00"
                "2024-01-09 08:30:00")
             Sample.clock Sample.clock Sample.card None []).
    + reflexivity.
    + discriminate.
    + reflexivity.
    + exists []. split; [|reflexivity]. ordered_answer.
    + ordered_answer.
    + reflexivity.
  - apply (deliver_post strip_ascii strptime_iso
             (Sample.store_of [Sample.late_back]) "MODULO" 7
             (Sample.post "B. Rojas" "2024-01-01 10:00:00" "")
             Sample.clock Sample.clock Sample.card None [Sample.late_back]).
    + reflexivity.
    + discriminate.
    + reflexivity.
    + exists []. split; [|reflexivity]. ordered_answer.
    + ordered_answer.
    + reflexivity.
Qed.

(** So is the history with two deliveries sharing one [entrega_at]. *)
Lemma status_tie_reached :
  deliver_card strip_ascii strptime_iso (Sample.store_of []) "MODULO" 7
    (Sample.post "A. Lopez" "2024-01-01 10:00:00" "2024-01-05 09:00:00")
    Sample.clock Sample.clock
    (Sample.store_of [Sample.tie_back],
     mk_outcome (Redirect "category_view" "MODULO" None)
       [("Registro de entrega / devolución guardado.", "success")]) /\
  deliver_card strip_ascii strptime_iso (Sample.store_of [Sample.tie_back])
    "MODULO" 7 (Sample.post "B. Rojas" "2024-01-01 10:00:00" "")
    Sample.clock Sample.clock
    (Sample.store_of [Sample.tie_back; Sample.tie_out],
     mk_outcome (Redirect "category_view" "MODULO" None)
       [("Registro de entrega / devolución guardado.", "success")]).
Proof.
  split.
  - apply (deliver_post strip_ascii strptime_iso (Sample.store_of [])
             "MODULO" 7
             (Sample.post "A. Lopez" "2024-01-01 10:00:00"
                "2024-01-05 09:00:00")
             Sample.clock Sample.clock Sample.card None []).
    + reflexivity.
    + discriminate.
    + reflexivity.
    + exists []. split; [|reflexivity]. ordered_answer.
    + ordered_answer.
    + reflexivity.
  - apply (deliver_post strip_ascii strptime_iso
             (Sample.store_of [Sample.tie_back]) "MODULO" 7
             (Sample.post "B. Rojas" "2024-01-01 10:00:00" "")
             Sample.clock Sample.clock Sample.card None [Sample.tie_back]).
    + reflexivity.
    + discriminate.
    + reflexivity.
    + exists []. split; [|reflexivity]. ordered_answer.
    + ordered_answer.
    + reflexivity.
Qed.

(* ================================================================== *)
(** * Importing cards *)
(* ================================================================== *)

Lemma setattr_category : forall c name v,
  Card.category (setattr c name v) = Card.category c.
Proof.
  intros [pk cat f_n f_ms f_ca f_sc f_nt f_tt f_nu f_st cr] name v.
  unfold setattr.
  repeat match goal with
         | |- context [if ?b then _ else _] => destruct b
         end; reflexivity.
Qed.

Lemma setattr_status : forall c v, Card.status (setattr c "status" v) = Some v.
Proof.
  intros [pk cat f_n f_ms f_ca f_sc f_nt f_tt f_nu f_st cr] v. reflexivity.
Qed.

Section ImportLoop.

Variable strip : string -> string.

Lemma import_fields_empty : forall cols row fields acc,
  snd (import_fields strip cols row fields acc) =
  snd acc && negb (row_has_value strip cols fields row).
Proof.
  intros cols row fields. unfold import_fields, row_has_value.
  induction fields as [|field fields IH]; intros acc; simpl.
  - now rewrite andb_true_r.
  - rewrite IH.
    destruct (String.eqb (mapped_value strip cols row field) ""); simpl.
    + reflexivity.
    + now rewrite andb_false_r.
Qed.

Lemma import_fields_category : forall cols row fields acc,
  Card.category (fst (import_fields strip cols row fields acc)) =
  Card.category (fst acc).
Proof.
  intros cols row fields. unfold import_fields.
  induction fields as [|field fields IH]; intros acc; simpl.
  - reflexivity.
  - rewrite IH.
    destruct (String.eqb (mapped_value strip cols row field) ""); simpl.
    + reflexivity.
    + apply setattr_category.
Qed.

(** One row: the flag [empty] says no field gave a value; the card has
    the category asked for and the status read from the row. *)
Lemma import_row_spec : forall category_code cols fields row,
  snd (import_row strip category_code cols fields row) =
    negb (row_has_value strip cols fields row) /\
  Card.category (fst (import_row strip category_code cols fields row)) =
    category_code /\
  Card.status (fst (import_row strip category_code cols fields row)) =
    Some (import_status strip cols row).
Proof.
  intros category_code cols fields row. unfold import_row.
  pose proof (import_fields_empty cols row fields
                (new_card category_code, true)) as He.
  pose proof (import_fields_category cols row fields
                (new_card category_code, true)) as Hc.
  destruct (import_fields strip cols row fields
              (new_card category_code, true)) as [card empty].
  simpl in *. repeat split.
  - exact He.
  - now rewrite setattr_category.
  - apply setattr_status.
Qed.

(** The loop adds one card for each row with a value, in order, and
    counts them. *)
Lemma import_rows_spec : forall category_code df fields,
  import_rows strip category_code df fields =
  (map (fun row =>
          fst (import_row strip category_code (columns df) fields row))
     (filter (row_has_value strip (columns df) fields) (rows df)),
   List.length
     (filter (row_has_value strip (columns df) fields) (rows df))).
Proof.
  intros category_code df fields. unfold import_rows.
  set (card_of := fun row =>
         fst (import_row strip category_code (columns df) fields row)).
  set (keep := row_has_value strip (columns df) fields).
  assert (G : forall rs acc k,
    fold_left
      (fun (acc : list Card.t * nat) row =>
         let '(card, empty) :=
           import_row strip category_code (columns df) fields row in
         if negb empty then ((fst acc ++ [card])%list, S (snd acc)) else acc)
      rs (acc, k) =
    ((acc ++ map card_of (filter keep rs))%list,
     k + List.length (filter keep rs))).
  { induction rs as [|row rs IH]; intros acc k; simpl.
    - now rewrite app_nil_r, Nat.add_0_r.
    - destruct (import_row_spec category_code (columns df) fields row)
        as [He _].
      fold keep in He.
      assert (Hc : card_of row =
                   fst (import_row strip category_code (columns df)
                          fields row)) by reflexivity.
      destruct (import_row strip category_code (columns df) fields row)
        as [card empty].
      simpl in He, Hc. subst empty.
      destruct (keep row); simpl.
      + rewrite IH, <- app_assoc, Hc. simpl. f_equal. lia.
      + apply IH. }
  apply (G (rows df) [] 0).
Qed.

End ImportLoop.

(** The inserts of a commit append one row for each added card and keep
    its category and status. *)
Lemma insert_cards_spec : forall stamp added tbl,
  exists new,
    fold_left (fun tbl c => insert_card tbl stamp c) added tbl =
      (tbl ++ new)%list /\
    Forall2 (fun c c' => Card.category c' = Card.category c /\
                         Card.status c' = Card.status c) added new.
Proof.
  intros stamp added. induction added as [|c added IH]; intros tbl; simpl.
  - exists []. split; [now rewrite app_nil_r|constructor].
  - destruct (IH (insert_card tbl stamp c)) as [new [E F]].
    rewrite E. unfold insert_card. rewrite <- app_assoc.
    eexists. split; [reflexivity|].
    constructor; [now split|exact F].
Qed.

Lemma Forall2_map_l : forall (A B C : Type) (f : A -> B) (P : B -> C -> Prop)
    (l : list A) (l' : list C),
  Forall2 P (map f l) l' -> Forall2 (fun a c => P (f a) c) l l'.
Proof.
  intros A B C f P l. induction l as [|a l IH]; intros l' H; simpl in H.
  - inversion H. constructor.
  - inversion H; subst. constructor; auto.
Qed.

Section ImportCards.

Variable strip : string -> string.

(** The status assigned is "Inactiva" for a row that says so and
    "Activa" for every other row. *)
Lemma import_status_default : forall cols row,
  import_status strip cols row =
  if String.eqb (status_cell strip cols row) "Inactiva" then "Inactiva"
  else "Activa".
Proof.
  intros cols row. unfold import_status, str_in. simpl.
  destruct (String.eqb_spec (status_cell strip cols row) "Activa") as [E|E].
  - rewrite E. reflexivity.
  - destruct (String.eqb_spec (status_cell strip cols row) "Inactiva")
      as [E'|E']; simpl; [exact E'|reflexivity].
Qed.

(** C8. An import of a readable sheet into a known category creates one
    card for each row that gives at least one non-empty field value, in
    the order of the rows, and none for the other rows; the counter
    [imported] and the number in the message are that number of rows.
    Each card created has the category of the import, and its status is
    "Inactiva" when the row says "Inactiva" and "Activa" otherwise. *)
Theorem import_cards_counts : forall st category_code fields df stamp,
  assoc category_code CATEGORY_DEFINITIONS = Some fields ->
  let kept := filter (row_has_value strip (columns df) fields) (rows df) in
  let result := import_cards strip st true category_code (Sheet df) stamp in
  snd (import_rows strip category_code df fields) = List.length kept /\
  (exists new,
     cards (fst result) = (cards st ++ new)%list /\
     List.length new = List.length kept /\
     Forall2
       (fun row c =>
          Card.category c = category_code /\
          Card.status c =
            Some (if String.eqb (status_cell strip (columns df) row)
                                "Inactiva"
                  then "Inactiva" else "Activa"))
       kept new) /\
  passwords (fst result) = passwords st /\
  deliveries (fst result) = deliveries st /\
  flashes (snd result) =
    match List.length kept with
    | O => [("No se encontraron registros válidos en el archivo.", "info")]
    | S _ =>
        [("Se importaron " ++ str_of_nat (List.length kept) ++
          " tarjetas desde el Excel.", "success")]
    end.
Proof.
  intros st category_code fields df stamp Hfields kept result.
  split; [unfold kept; now rewrite import_rows_spec|].
  unfold result, import_cards. rewrite Hfields, import_rows_spec.
  fold kept.
  destruct kept as [|row kept'] eqn:Hkept.
  - simpl. split; [|repeat split].
    exists []. rewrite app_nil_r. repeat split. constructor.
  - set (added := map _ (row :: kept')).
    change (negb (Nat.eqb (List.length (row :: kept')) 0)) with true.
    cbv iota. simpl fst. simpl snd. simpl cards. simpl passwords.
    simpl deliveries. simpl flashes.
    split; [|repeat split].
    destruct (insert_cards_spec stamp added (cards st)) as [new [E F]].
    exists new. split; [exact E|].
    unfold added in F. apply Forall2_map_l in F.
    split.
    + apply Forall2_length in F. now rewrite <- F.
    + eapply Forall2_impl; [|exact F].
      intros r c [Hcat Hst].
      destruct (import_row_spec strip category_code (columns df) fields r)
        as [_ [Hc Hs]].
      split; [congruence|].
      rewrite Hst, Hs. now rewrite import_status_default.
Qed.

End ImportCards.

Lemma import_cards_counts_witness :
  snd (import_rows strip_ascii "MODULO" Sample.sheet
         [ ("n", "N°");
           ("modulo_sector", "Módulo / Sector");
           ("nombre_tarjeta", "Nombre de la Tarjeta");
           ("tipo_tarjeta", "Tipo de Tarjeta");
           ("numero_tarjeta", "Numero de tarjeta") ]) = 2.
Proof.
  exact (proj1 (import_cards_counts strip_ascii (Sample.store_of [])
                  "MODULO" _ Sample.sheet Sample.clock eq_refl)).
Defined.

(** The sample sheet: the row of blanks is skipped, the status that is not
    recognized becomes "Activa". *)
Example import_sample :
  let result :=
    import_cards strip_ascii (Sample.store_of []) true "MODULO"
      (Sheet Sample.sheet) Sample.clock in
  map (fun c => (Card.id c, Card.n c, Card.numero_tarjeta c, Card.status c))
    (cards (fst result)) =
    [ (7%Z, Some "1", Some "0042", Some "Activa");
      (8%Z, Some "1", Some "0042", Some "Inactiva");
      (9%Z, Some "3", Some "0044", Some "Activa") ] /\
  flashes (snd result) =
    [("Se importaron 2 tarjetas desde el Excel.", "success")].
Proof.
  split; reflexivity.
Qed.

(* ================================================================== *)
(** * Default credentials *)
(* ================================================================== *)

Example sha256_constants :
  List.length SHA256.K = 64 /\
  firstn 2 SHA256.K = [0x428a2f98; 0x71374491]%Z /\
  last_opt SHA256.K = Some 0xc67178f2%Z /\
  firstn 2 SHA256.H0 = [0x6a09e667; 0xbb67ae85]%Z /\
  last_opt SHA256.H0 = Some 0x5be0cd19%Z.
Proof. vm_compute. repeat split. Qed.

Example sha256_abc :
  _sha256 "abc" =
  "ba7816bf8f01cfea414140de5dae2223b00361a396177a9cb410ff61f20015ad".
Proof. vm_compute. reflexivity. Qed.

Example sha256_empty :
  _sha256 "" =
  "e3b0c44298fc1c149afbf4c8996fb92427ae41e4649b934ca495991b7852b855".
Proof. vm_compute. reflexivity. Qed.

Example sha256_two_blocks :
  _sha256 "abcdbcdecdefdefgefghfghighijhijkijkljklmklmnlmnomnopnopq" =
  "248d6a61d20638b8e5c026930c3e6039a33ce45964ff2167f6ecedd419db06c1".
Proof. vm_compute. reflexivity. Qed.

Lemma default_digests :
  map _sha256 DEFAULT_PASSWORDS =
  [ "cd4ef933429470f1d23901a5616255fe81444e83201984cf27e639bec64804cb";
    "9f4f57e6598572e2e87b2742822112483a25dd6774d97291e784e91033c93d9c";
    "a5b07e1516734beb9ff4d2ea69b22ac92e84014404f39d2bdefa735ff87822f1" ].
Proof. vm_compute. reflexivity. Qed.

Lemma default_digests_NoDup : NoDup (map _sha256 DEFAULT_PASSWORDS).
Proof.
  rewrite default_digests.
  repeat constructor; simpl; intuition discriminate.
Qed.

Lemma str_in_In : forall x xs, str_in x xs = true <-> In x xs.
Proof.
  intros x xs. unfold str_in. rewrite existsb_exists. split.
  - intros [y [Hy E]]. apply String.eqb_eq in E. now subst.
  - intros H. exists x. split; [exact H|apply String.eqb_refl].
Qed.

Lemma str_in_not_In : forall x xs, str_in x xs = false <-> ~ In x xs.
Proof.
  intros x xs. rewrite <- str_in_In. destruct (str_in x xs); split;
    congruence.
Qed.

(** The loop keeps, in order, the digests that [existing] lacks. *)
Lemma missing_defaults_spec : forall existing,
  missing_defaults existing =
  (filter (fun h => negb (str_in h existing)) (map _sha256 DEFAULT_PASSWORDS),
   List.length
     (filter (fun h => negb (str_in h existing))
        (map _sha256 DEFAULT_PASSWORDS))).
Proof.
  intros existing. unfold missing_defaults.
  generalize DEFAULT_PASSWORDS as pwds.
  assert (G : forall pwds acc k,
    fold_left
      (fun (acc : list string * nat) pwd =>
         let h := _sha256 pwd in
         if negb (str_in h existing) then ((fst acc ++ [h])%list, S (snd acc))
         else acc)
      pwds (acc, k) =
    ((acc ++ filter (fun h => negb (str_in h existing))
               (map _sha256 pwds))%list,
     k + List.length (filter (fun h => negb (str_in h existing))
                        (map _sha256 pwds)))).
  { induction pwds as [|pwd pwds IH]; intros acc k; cbn [fold_left map filter].
    - now rewrite app_nil_r, Nat.add_0_r.
    - cbv zeta. destruct (negb (str_in (_sha256 pwd) existing)).
      + rewrite IH. cbn [fst snd List.length]. rewrite <- app_assoc.
        cbn [app]. f_equal. lia.
      + apply IH. }
  intros pwds. apply (G pwds [] 0).
Qed.

(** Hashes that are new and distinct are inserted without an error. *)
Lemma insert_passwords_ok : forall added tbl,
  NoDup added ->
  (forall h, In h added -> ~ In h (map Password.hash tbl)) ->
  exists new,
    fold_left
      (fun tbl h =>
         match tbl with
         | Some t => insert_password t h
         | None => None
         end)
      added (Some tbl) = Some (tbl ++ new)%list /\
    map Password.hash new = added.
Proof.
  induction added as [|h added IH]; intros tbl Hnd Hnew.
  - exists []. simpl. now rewrite app_nil_r.
  - inversion Hnd as [|h' added' Hh Hnd']; subst.
    cbn [fold_left]. unfold insert_password at 2.
    rewrite (proj2 (str_in_not_In h (map Password.hash tbl)));
      [|apply Hnew; now left].
    destruct (IH (tbl ++ [Password.mk (fresh_id (map Password.id tbl)) h])%list
                Hnd') as [new [E M]].
    { intros x Hx. rewrite map_app, in_app_iff. simpl.
      intros [Hin|[<-|[]]].
      - apply (Hnew x); [now right|exact Hin].
      - contradiction. }
    rewrite E, <- app_assoc. eexists. split; [reflexivity|].
    simpl. now rewrite M.
Qed.

Lemma filter_none : forall (A : Type) (p : A -> bool) l,
  (forall x, In x l -> p x = false) -> filter p l = [].
Proof.
  intros A p l. induction l as [|x l IH]; intros H; [reflexivity|].
  simpl. rewrite (H x (or_introl eq_refl)). apply IH.
  intros y Hy. apply H. now right.
Qed.

(** One run appends a row for each default digest the table lacks, and
    raises no error. *)
Lemma ensure_default_passwords_spec : forall st,
  exists new,
    ensure_default_passwords st =
      Some (mk_store (passwords st ++ new)%list (cards st) (deliveries st)) /\
    map Password.hash new =
      filter (fun h => negb (str_in h (map Password.hash (passwords st))))
        (map _sha256 DEFAULT_PASSWORDS).
Proof.
  intros st. unfold ensure_default_passwords.
  rewrite missing_defaults_spec.
  set (existing := map Password.hash (passwords st)).
  set (added := filter (fun h => negb (str_in h existing))
                  (map _sha256 DEFAULT_PASSWORDS)).
  assert (Hnd : NoDup added) by apply NoDup_filter, default_digests_NoDup.
  assert (Hnew : forall h, In h added -> ~ In h existing).
  { intros h Hh. apply filter_In in Hh. destruct Hh as [_ Hh].
    apply str_in_not_In. now destruct (str_in h existing). }
  destruct added as [|h added'] eqn:Hadded.
  - exists []. simpl. rewrite app_nil_r. now destruct st.
  - change (negb (Nat.eqb (List.length (h :: added')) 0)) with true.
    cbv iota.
    destruct (insert_passwords_ok (h :: added') (passwords st) Hnd Hnew)
      as [new [E M]].
    rewrite E. now exists new.
Qed.

(** C9, as the code has it. [ensure_default_passwords] always succeeds; it
    appends the digest of each default password that the table does not
    hold yet, whether or not the table is empty, and leaves the other rows
    and tables alone.  After it every default password verifies, distinct
    hashes stay distinct, and a second run changes nothing. *)
Theorem ensure_default_passwords_idempotent : forall st,
  exists st' new,
    ensure_default_passwords st = Some st' /\
    ensure_default_passwords st' = Some st' /\
    passwords st' = (passwords st ++ new)%list /\
    map Password.hash new =
      filter (fun h => negb (str_in h (map Password.hash (passwords st))))
        (map _sha256 DEFAULT_PASSWORDS) /\
    cards st' = cards st /\ deliveries st' = deliveries st /\
    (forall pwd, In pwd DEFAULT_PASSWORDS -> verify_password st' pwd = true) /\
    (NoDup (map Password.hash (passwords st)) ->
     NoDup (map Password.hash (passwords st'))).
Proof.
  intros st.
  destruct (ensure_default_passwords_spec st) as [new [E M]].
  set (st' := mk_store (passwords st ++ new)%list (cards st) (deliveries st))
    in *.
  assert (Hall : forall h, In h (map _sha256 DEFAULT_PASSWORDS) ->
                           In h (map Password.hash (passwords st'))).
  { intros h Hh. simpl. rewrite map_app, in_app_iff, M.
    destruct (str_in h (map Password.hash (passwords st))) eqn:Hs.
    - left. now apply str_in_In.
    - right. apply filter_In. split; [exact Hh|now rewrite Hs]. }
  exists st', new. split; [exact E|]. split; [|split; [reflexivity|]].
  - destruct (ensure_default_passwords_spec st') as [new' [E' M']].
    rewrite filter_none in M'.
    + apply map_eq_nil in M'. subst new'. rewrite E'.
      simpl. now rewrite app_nil_r.
    + intros h Hh. apply Hall, str_in_In in Hh. now rewrite Hh.
  - split; [exact M|]. split; [reflexivity|]. split; [reflexivity|]. split.
    + intros pwd Hpwd. unfold verify_password.
      apply existsb_exists.
      assert (Hin : In (_sha256 pwd) (map Password.hash (passwords st')))
        by now apply Hall, in_map.
      apply in_map_iff in Hin. destruct Hin as [p [Hp Hin]].
      exists p. split; [exact Hin|]. now apply String.eqb_eq.
    + intros Hnd. simpl. rewrite map_app, M. apply NoDup_app.
      * exact Hnd.
      * apply NoDup_filter, default_digests_NoDup.
      * intros h Hh Hf. apply filter_In in Hf. destruct Hf as [_ Hf].
        apply str_in_In in Hh. now rewrite Hh in Hf.
Qed.

(** C9, as stated, fails: a table that is not empty is seeded all the
    same.  With one password of its own in the table, a run appends the
    three default digests. *)
Lemma ensure_default_passwords_seeds_nonempty :
  passwords Sample.own_password <> [] /\
  option_map (fun st' => map Password.hash (passwords st'))
    (ensure_default_passwords Sample.own_password) =
  Some
    [ "a138a1bc2fcb7314e0bb69dff5ff32c32851554476e3f65742649f2b7ae8beff";
      "cd4ef933429470f1d23901a5616255fe81444e83201984cf27e639bec64804cb";
      "9f4f57e6598572e2e87b2742822112483a25dd6774d97291e784e91033c93d9c";
      "a5b07e1516734beb9ff4d2ea69b22ac92e84014404f39d2bdefa735ff87822f1" ].
Proof.
  split; [discriminate|]. vm_compute. reflexivity.
Qed.

(** On the empty table the first run seeds the three defaults; the wrong
    password does not verify, a default one does. *)
Example first_run :
  exists st',
    ensure_default_passwords (mk_store [] [] []) = Some st' /\
    map Password.id (passwords st') = [1%Z; 2%Z; 3%Z] /\
    verify_password st' "wrong" = false /\
    verify_password st' "Lorena_Aramark_2025" = true.
Proof.
  eexists. split; [vm_compute; reflexivity|].
  split; [reflexivity|]. split; vm_compute; reflexivity.
Qed.

(* ================================================================== *)
(** * The database address *)
(* ================================================================== *)

Lemma replace_first_unfold : forall old new s,
  replace_first old new s =
  if String.prefix old s then new ++ drop (String.length old) s
  else
    match s with
    | EmptyString => EmptyString
    | String c s' => String c (replace_first old new s')
    end.
Proof.
  intros old new s. destruct s; reflexivity.
Qed.

Lemma prefix_app : forall p s, String.prefix p (p ++ s) = true.
Proof.
  induction p as [|a p IH]; intros s; simpl.
  - now destruct s.
  - destruct (ascii_dec a a); [apply IH|contradiction].
Qed.

(** X1. Whatever the environment holds, the address handed to SQLAlchemy
    never starts with "postgres://": an address that does is rewritten to
    start with "postgresql://", its remainder kept, and every other
    address is taken as it is. *)
Theorem config_database_uri : forall environ,
  let url := environ_get environ "DATABASE_URL" "sqlite:///local.db" in
  let uri := Config.SQLALCHEMY_DATABASE_URI (Config_of environ) in
  startswith uri "postgres://" = false /\
  (forall rest, url = "postgres://" ++ rest -> uri = "postgresql://" ++ rest) /\
  (startswith url "postgres://" = false -> uri = url).
Proof.
  intros environ url uri. unfold uri, Config_of.
  cbn [Config.SQLALCHEMY_DATABASE_URI]. fold url. unfold startswith.
  destruct (String.prefix "postgres://" url) eqn:E.
  - rewrite replace_first_unfold, E. repeat split.
    + intros rest Hrest. rewrite Hrest. reflexivity.
    + discriminate.
  - repeat split.
    + exact E.
    + intros rest Hrest. rewrite Hrest, prefix_app in E. discriminate.
Qed.

(** A later occurrence of the prefix is not an occurrence at the start. *)
Example config_inner_prefix :
  Config.SQLALCHEMY_DATABASE_URI
    (Config_of [("DATABASE_URL", "sqlite:///postgres://x")]) =
  "sqlite:///postgres://x".
Proof. reflexivity. Qed.

(* ================================================================== *)
(** * Dates shown and read back *)
(* ================================================================== *)

Lemma count_from_In : forall fuel k n,
  (k <= n < k + N.of_nat fuel)%N -> In n (count_from k fuel).
Proof.
  induction fuel as [|fuel IH]; intros k n H; simpl; [lia|].
  destruct (N.eq_dec n k) as [E|E]; [now left|].
  right. apply IH. lia.
Qed.

Lemma below_in_range : forall k n,
  (n < k)%N -> In n (count_from 0 (N.to_nat k)).
Proof.
  intros k n H. apply count_from_In. rewrite N2Nat.id. lia.
Qed.

Lemma reads_back_2 : forall n, (n < 100)%N -> reads_back 2 n = true.
Proof.
  intros n H.
  assert (A : forallb (reads_back 2)
                (count_from 0 (N.to_nat 100)) = true)
    by (vm_compute; reflexivity).
  rewrite forallb_forall in A. now apply A, below_in_range.
Qed.

Lemma reads_back_4 : forall n, (n < 10000)%N -> reads_back 4 n = true.
Proof.
  intros n H.
  assert (A : forallb (reads_back 4)
                (count_from 0 (N.to_nat 10000)) = true)
    by (vm_compute; reflexivity).
  rewrite forallb_forall in A. now apply A, below_in_range.
Qed.

Lemma reads_back_2_chars : forall n,
  reads_back 2 n = true ->
  exists a b, zfill 2 (str_of_N n) = String a (String b "") /\
              number_of [a; b] 0 = Some n.
Proof.
  intros n H. unfold reads_back in H.
  destruct (zfill 2 (str_of_N n)) as [|a [|b [|c s]]]; try discriminate.
  exists a, b. split; [reflexivity|].
  simpl in H. simpl.
  destruct (digit_of a) as [x|]; [|discriminate].
  destruct (digit_of b) as [y|]; [|discriminate].
  apply N.eqb_eq in H. now rewrite H.
Qed.

Lemma reads_back_4_chars : forall n,
  reads_back 4 n = true ->
  exists a b c d,
    zfill 4 (str_of_N n) = String a (String b (String c (String d ""))) /\
    number_of [a; b; c; d] 0 = Some n.
Proof.
  intros n H. unfold reads_back in H.
  destruct (zfill 4 (str_of_N n)) as [|a [|b [|c [|d [|e s]]]]];
    try discriminate.
  exists a, b, c, d. split; [reflexivity|].
  simpl in H. simpl.
  destruct (digit_of a) as [x|]; [|discriminate].
  destruct (digit_of b) as [y|]; [|discriminate].
  destruct (digit_of c) as [z|]; [|discriminate].
  destruct (digit_of d) as [w|]; [|discriminate].
  apply N.eqb_eq in H. now rewrite H.
Qed.

Lemma valid_to_second : forall d,
  valid_datetime d = true -> valid_datetime (to_second d) = true.
Proof.
  intros d H. unfold valid_datetime in *. simpl.
  apply andb_true_iff in H. destruct H as [H _].
  rewrite H. reflexivity.
Qed.

Lemma valid_datetime_bounds : forall d,
  valid_datetime d = true ->
  (year d < 10000 /\ month d < 100 /\ day d < 100 /\
   hour d < 100 /\ minute d < 100 /\ second d < 100)%N.
Proof.
  intros d H. unfold valid_datetime in H.
  repeat match type of H with
         | (_ && _)%bool = true =>
             let H' := fresh "B" in
             apply andb_true_iff in H; destruct H as [H H']
         end.
  repeat match goal with
         | B : (_ <=? _)%N = true |- _ => apply N.leb_le in B
         | B : (_ <? _)%N = true |- _ => apply N.ltb_lt in B
         end.
  assert (days_in_month (year d) (month d) <= 31)%N.
  { unfold days_in_month.
    repeat match goal with
           | |- context [match ?x with _ => _ end] => destruct x
           end; lia. }
  lia.
Qed.

(** From 1000 on the year takes four digits. *)
Lemma year_four_digits : forall n,
  (1000 <= n < 10000)%N -> str_of_N n = zfill 4 (str_of_N n).
Proof.
  intros n H.
  assert (A : forallb
                (fun k => (k <? 1000)%N ||
                          String.eqb (str_of_N k) (zfill 4 (str_of_N k)))
                (count_from 0 (N.to_nat 10000)) = true)
    by (vm_compute; reflexivity).
  rewrite forallb_forall in A.
  specialize (A n (below_in_range _ _ (proj2 H))).
  apply orb_true_iff in A. destruct A as [A|A].
  - apply N.ltb_lt in A. lia.
  - now apply String.eqb_eq.
Qed.

(** Below 1000 it takes at most three. *)
Lemma year_short : forall n,
  (n < 1000)%N -> String.length (str_of_N n) <= 3.
Proof.
  intros n H.
  assert (A : forallb (fun k => String.length (str_of_N k) <=? 3)%nat
                (count_from 0 (N.to_nat 1000)) = true)
    by (vm_compute; reflexivity).
  rewrite forallb_forall in A.
  now apply Nat.leb_le, A, below_in_range.
Qed.

Lemma length_append : forall s t,
  String.length (s ++ t) = String.length s + String.length t.
Proof.
  induction s as [|c s IH]; intros t; simpl; [reflexivity|].
  now rewrite IH.
Qed.

(** [strptime_iso] reads nineteen characters, no more and no fewer. *)
Lemma strptime_iso_length : forall s fmt d,
  strptime_iso s fmt = Some d -> String.length s = 19.
Proof.
  intros s fmt d. unfold strptime_iso.
  destruct (negb (fmt =? "%Y-%m-%d %H:%M:%S")); [discriminate|].
  assert (L : List.length (list_ascii_of_string s) = String.length s).
  { clear. induction s as [|c s IH]; simpl; [reflexivity|]. now rewrite IH. }
  rewrite <- L. clear L.
  generalize (list_ascii_of_string s) as l. clear s.
  intros l H.
  destruct l as [|y1 [|y2 [|y3 [|y4 [|c5 l]]]]]; try discriminate H.
  destruct c5 as [[|] [|] [|] [|] [|] [|] [|] [|]]; try discriminate H.
  destruct l as [|m1 [|m2 [|c8 l]]]; try discriminate H.
  destruct c8 as [[|] [|] [|] [|] [|] [|] [|] [|]]; try discriminate H.
  destruct l as [|d1 [|d2 [|c11 l]]]; try discriminate H.
  destruct c11 as [[|] [|] [|] [|] [|] [|] [|] [|]]; try discriminate H.
  destruct l as [|h1 [|h2 [|c14 l]]]; try discriminate H.
  destruct c14 as [[|] [|] [|] [|] [|] [|] [|] [|]]; try discriminate H.
  destruct l as [|i1 [|i2 [|c17 l]]]; try discriminate H.
  destruct c17 as [[|] [|] [|] [|] [|] [|] [|] [|]]; try discriminate H.
  destruct l as [|s1 [|s2 [|c20 l]]]; try discriminate H.
  reflexivity.
Qed.

(** X2. A valid [datetime] of the year 1000 or later, shown by [format_dt]
    and read by [parse_dt_str], comes back cut to the second: the text
    shown names the second exactly and nothing finer.  A date before the
    year 1000 is shown with a year of fewer than four digits, and that
    text is not read back at all. *)
Theorem format_then_parse : forall d,
  valid_datetime d = true ->
  parse_dt_str strptime_iso (format_dt (Some d)) =
  if (1000 <=? year d)%N then Some (to_second d) else None.
Proof.
  intros d Hv.
  destruct (valid_datetime_bounds d Hv) as [By [Bm [Bd [Bh [Bi Bs]]]]].
  destruct (reads_back_2_chars _ (reads_back_2 _ Bm)) as [m1 [m2 [Em Nm]]].
  destruct (reads_back_2_chars _ (reads_back_2 _ Bd)) as [d1 [d2 [Ed Nd]]].
  destruct (reads_back_2_chars _ (reads_back_2 _ Bh)) as [h1 [h2 [Eh Nh]]].
  destruct (reads_back_2_chars _ (reads_back_2 _ Bi)) as [i1 [i2 [Ei Ni]]].
  destruct (reads_back_2_chars _ (reads_back_2 _ Bs)) as [s1 [s2 [Es Ns]]].
  destruct (N.leb_spec 1000 (year d)) as [Hy|Hy].
  - destruct (reads_back_4_chars _ (reads_back_4 _ By))
      as [y1 [y2 [y3 [y4 [Ey Ny]]]]].
    unfold format_dt, strftime.
    rewrite (year_four_digits (year d) (conj Hy By)).
    rewrite Ey, Em, Ed, Eh, Ei, Es.
    unfold parse_dt_str, strptime_iso.
    cbn [String.append String.eqb Ascii.eqb Bool.eqb negb
         list_ascii_of_string].
    cbv iota beta.
    rewrite Ny, Nm, Nd, Nh, Ni, Ns.
    change (mk_datetime (year d) (month d) (day d) (hour d) (minute d)
              (second d) 0) with (to_second d).
    now rewrite (valid_to_second d Hv).
  - unfold parse_dt_str.
    destruct (String.eqb (format_dt (Some d)) ""); [reflexivity|].
    destruct (strptime_iso (format_dt (Some d)) "%Y-%m-%d %H:%M:%S")
      as [t|] eqn:E; [|reflexivity].
    apply strptime_iso_length in E. exfalso.
    unfold format_dt, strftime in E.
    rewrite Em, Ed, Eh, Ei, Es in E. rewrite length_append in E.
    pose proof (year_short (year d) Hy) as Hlen.
    simpl in E. lia.
Qed.

Lemma format_then_parse_witness :
  parse_dt_str strptime_iso (format_dt (Some Sample.clock)) =
  Some (mk_datetime 2024 1 10 12 0 0 0).
Proof.
  exact (format_then_parse Sample.clock eq_refl).
Defined.

(** A date of the year 999 is shown on eighteen characters and is not
    read back. *)
Example format_then_parse_year_999 :
  format_dt (Some (mk_datetime 999 1 2 3 4 5 0)) = "999-01-02 03:04:05" /\
  parse_dt_str strptime_iso (format_dt (Some (mk_datetime 999 1 2 3 4 5 0))) =
  None.
Proof. split; reflexivity. Qed.

(* ================================================================== *)
(** * The status and the open delivery *)
(* ================================================================== *)

Lemma open_rows_filter : forall st card,
  open_rows st card =
  filter (fun d => of_card card d && is_open d) (deliveries st).
Proof.
  intros st card. unfold open_rows, card_rows.
  induction (deliveries st) as [|d rows IH]; [reflexivity|].
  simpl. destruct (of_card card d); simpl; [|exact IH].
  destruct (is_open d); now rewrite IH.
Qed.

Lemma open_rows_subset : forall st card d,
  In d (open_rows st card) -> In d (card_rows st card) /\ is_open d = true.
Proof.
  intros st card d H. unfold open_rows in H. now apply filter_In in H.
Qed.

(** The type of status reads the last delivery of the answer. *)
Lemma status_type_of_last : forall ds,
  match last_opt ds with
  | None => snd (status_of_deliveries ds) = "Disponible"
  | Some e =>
      snd (status_of_deliveries ds) =
      if is_open e then "Entregadas" else "Devueltas"
  end.
Proof.
  intros ds. unfold status_of_deliveries, is_open.
  destruct (last_opt ds) as [e|]; [|reflexivity].
  destruct (Delivery.devolucion_at e); reflexivity.
Qed.

(** X3. Whatever [compute_card_status] answers, its type of status is one
    of three, and each says something of the stored deliveries:
    "Disponible" is answered only for a card without deliveries,
    "Entregadas" only when an open delivery of the card is followed by
    none of its deliveries, "Devueltas" only when a returned delivery
    is. *)
Theorem status_type_classifies : forall st card r,
  compute_card_status st card r ->
  (snd r = "Disponible" /\ card_rows st card = []) \/
  (snd r = "Entregadas" /\
   exists e, In e (open_rows st card) /\
             forall d, In d (card_rows st card) -> entrega_le d e) \/
  (snd r = "Devueltas" /\
   exists e, In e (card_rows st card) /\ is_open e = false /\
             forall d, In d (card_rows st card) -> entrega_le d e).
Proof.
  intros st card r [ds [Hq ->]].
  pose proof (status_type_of_last ds) as Ht.
  destruct (last_opt ds) as [e|] eqn:He.
  - destruct (order_by_last_greatest _ ds e Hq He) as [Hin Hmax].
    destruct (is_open e) eqn:Ho.
    + right. left. split; [exact Ht|]. exists e. split; [|exact Hmax].
      unfold open_rows. apply filter_In. now split.
    + right. right. split; [exact Ht|]. now exists e.
  - left. split; [exact Ht|].
    apply last_opt_None in He. subst ds. destruct Hq as [Hp _].
    now apply Permutation_sym, Permutation_nil in Hp.
Qed.

Lemma status_type_classifies_witness :
  exists e, In e (open_rows (Sample.store_of [Sample.lopez_out]) Sample.card).
Proof.
  destruct (status_type_classifies (Sample.store_of [Sample.lopez_out])
              Sample.card
              ("Entregada a A. Lopez (2024-01-01 10:00:00)", "Entregadas"))
    as [[H _]|[[_ [e [He _]]]|[H _]]].
  - exists [Sample.lopez_out]. split; [|reflexivity]. ordered_answer.
  - discriminate H.
  - now exists e.
  - discriminate H.
Defined.

Lemma entrega_le_trans : forall a b c,
  Delivery.entrega_at b <> None ->
  entrega_le a b -> entrega_le b c -> entrega_le a c.
Proof.
  intros a b c Hb. unfold entrega_le, entrega_leb.
  destruct (Delivery.entrega_at a), (Delivery.entrega_at b),
    (Delivery.entrega_at c); try congruence; eauto using dt_leb_trans.
Qed.

(** X4. When a card is shown as "Entregadas" and its deliveries all carry
    a date, [get_last_open_delivery] finds an open delivery, and none of
    the card's deliveries, open or returned, is dated after it: the
    delivery a request will update is among the latest of the card. *)
Theorem entregadas_open_is_latest : forall st card r lo,
  (forall d, In d (card_rows st card) -> Delivery.entrega_at d <> None) ->
  compute_card_status st card r ->
  snd r = "Entregadas" ->
  get_last_open_delivery st card lo ->
  exists found,
    lo = Some found /\ In found (open_rows st card) /\
    forall d, In d (card_rows st card) -> entrega_le d found.
Proof.
  intros st card r lo Hdates [ds [Hq ->]] Ht Hlo.
  pose proof (status_type_of_last ds) as Hlast.
  destruct (last_opt ds) as [e|] eqn:He;
    [|rewrite Hlast in Ht; discriminate].
  destruct (order_by_last_greatest _ ds e Hq He) as [Hin Hmax].
  assert (Ho : is_open e = true).
  { destruct (is_open e); [reflexivity|]. rewrite Hlast in Ht. discriminate. }
  assert (He' : In e (open_rows st card)).
  { unfold open_rows. apply filter_In. now split. }
  apply open_delivery_cases in Hlo. destruct lo as [found|].
  - destruct Hlo as [Hfound Hopen]. exists found.
    repeat split; try assumption.
    intros d Hd. apply entrega_le_trans with e.
    + now apply Hdates.
    + now apply Hmax.
    + now apply Hopen.
  - rewrite Hlo in He'. contradiction.
Qed.

Lemma entregadas_open_is_latest_witness :
  exists found,
    Some Sample.early_out = Some found /\
    In found
      (open_rows (Sample.store_of [Sample.early_out]) Sample.card) /\
    forall d,
      In d (card_rows (Sample.store_of [Sample.early_out]) Sample.card) ->
      entrega_le d found.
Proof.
  apply (entregadas_open_is_latest (Sample.store_of [Sample.early_out])
           Sample.card
           ("Entregada a B. Rojas (2024-01-01 10:00:00)", "Entregadas")).
  - simpl. intros d [<-|[]]. discriminate.
  - exists [Sample.early_out]. split; [|reflexivity]. ordered_answer.
  - reflexivity.
  - exists [Sample.early_out]. split; [|reflexivity]. ordered_answer.
Defined.

(* ================================================================== *)
(** * What a saved delivery keeps and settles *)
(* ================================================================== *)

Lemma key_unique : forall (A : Type) (key : A -> Z) (l : list A) a b,
  NoDup (map key l) -> In a l -> In b l -> key a = key b -> a = b.
Proof.
  intros A key l a b. induction l as [|x l IH]; intros Hnd Ha Hb Hk.
  - contradiction.
  - simpl in Hnd. inversion Hnd as [|k ks Hx Hnd']; subst.
    destruct Ha as [->|Ha], Hb as [->|Hb].
    + reflexivity.
    + exfalso. apply Hx. rewrite Hk. now apply in_map.
    + exfalso. apply Hx. rewrite <- Hk. now apply in_map.
    + now apply IH.
Qed.

Lemma filter_map_le : forall (A : Type) (p : A -> bool) (f : A -> A) l,
  (forall d, In d l -> p (f d) = true -> p d = true) ->
  List.length (filter p (map f l)) <= List.length (filter p l).
Proof.
  intros A p f l. induction l as [|x l IH]; intros H; simpl; [lia|].
  assert (IH' : List.length (filter p (map f l)) <= List.length (filter p l)).
  { apply IH. intros d Hd. apply H. now right. }
  destruct (p (f x)) eqn:E.
  - rewrite (H x (or_introl eq_refl) E). simpl. lia.
  - destruct (p x); simpl; lia.
Qed.

Lemma filter_map_same : forall (A : Type) (p : A -> bool) (f : A -> A) l,
  (forall d, In d l -> p (f d) = p d) ->
  filter p (map f l) = map f (filter p l).
Proof.
  intros A p f l. induction l as [|x l IH]; intros H; simpl; [reflexivity|].
  rewrite (H x (or_introl eq_refl)), IH.
  - now destruct (p x).
  - intros d Hd. apply H. now right.
Qed.

Lemma of_card_same_card : forall c1 c2 d,
  of_card c1 d = true -> of_card c2 d = true ->
  forall x, of_card c2 x = of_card c1 x.
Proof.
  intros c1 c2 d H1 H2 x. unfold of_card in *.
  apply andb_true_iff in H1. destruct H1 as [Hc1 Hi1].
  apply andb_true_iff in H2. destruct H2 as [Hc2 Hi2].
  apply String.eqb_eq in Hc1, Hc2.
  destruct (Delivery.card_id d) as [k|]; [|discriminate].
  apply Z.eqb_eq in Hi1, Hi2.
  now rewrite <- Hc1, <- Hc2, <- Hi1, <- Hi2.
Qed.

Section DeliverCardSteps.

Variable strip : string -> string.
Variable strptime : string -> string -> option datetime.

(** Every answer of [deliver_card] either leaves the store alone or saves
    a delivery in one of two ways. *)
Lemma deliver_card_cases :
  forall st category_code card_id req now stamp st' out,
  deliver_card strip strptime st category_code card_id req now stamp
    (st', out) ->
  (st' = st /\ ~ saved out) \/
  (saved out /\
   exists card lo,
     find_card st card_id category_code = Some card /\
     get_last_open_delivery st card lo /\
     strip (form_get (form req) "nombre" "") <> "" /\
     st' =
       mk_store (passwords st) (cards st)
         match lo with
         | Some l =>
             update_delivery (deliveries st) (Delivery.id l)
               (posted strip strptime (form req) now)
         | None =>
             insert_delivery (deliveries st) stamp
               (appended strip strptime category_code card (form req) now)
         end).
Proof.
  intros st category_code card_id req now stamp st' out Hstep.
  inversion Hstep as [Hs Heq|Hs Hc Heq|Hs Hc Hf Heq
                      |card lo all_rows Hs Hc Hf Hlo Hall Hm Heq
                      |card lo all_rows Hs Hc Hf Hlo Hall Hm Heq]; subst;
    try (left; split; [reflexivity|discriminate]).
  unfold deliver_card_post in Heq.
  destruct (String.eqb (strip (form_get (form req) "rut" "")) "") eqn:Er;
    [inversion Heq; subst; left; split; [reflexivity|discriminate]|].
  destruct (String.eqb (strip (form_get (form req) "nombre" "")) "") eqn:En;
    [inversion Heq; subst; left; split; [reflexivity|discriminate]|].
  simpl in Heq. inversion Heq; subst. right. split; [reflexivity|].
  exists card, lo. split; [exact Hf|]. split; [exact Hlo|].
  split; [now apply String.eqb_neq|].
  destruct lo; reflexivity.
Qed.

Lemma posted_of_card : forall c f now d,
  of_card c (posted strip strptime f now d) = of_card c d.
Proof. reflexivity. Qed.

Lemma posted_is_open : forall f now d,
  is_open (posted strip strptime f now d) =
  match parse_dt_str strptime (strip (form_get f "devolucion_at" "")) with
  | Some _ => false
  | None => true
  end.
Proof. reflexivity. Qed.

Lemma posted_id : forall f now d,
  Delivery.id (posted strip strptime f now d) = Delivery.id d.
Proof. reflexivity. Qed.

Lemma posted_card_id : forall f now d,
  Delivery.card_id (posted strip strptime f now d) = Delivery.card_id d.
Proof. reflexivity. Qed.

(** X5. [deliver_card] keeps the tables consistent: from a store with
    distinct keys, distinct hashes, deliveries that name stored cards and
    at most one open delivery for each card, every answer of the handler
    leaves a store with the same properties. *)
Theorem deliver_card_keeps_consistent :
  forall st category_code card_id req now stamp st' out,
  consistent st ->
  deliver_card strip strptime st category_code card_id req now stamp
    (st', out) ->
  consistent st'.
Proof.
  intros st category_code card_id req now stamp st' out Hst Hstep.
  destruct (deliver_card_cases _ _ _ _ _ _ _ _ Hstep)
    as [[-> _]|[_ [card [lo [Hf [Hlo [_ ->]]]]]]]; [exact Hst|].
  destruct Hst as [Hpi [Hph [Hci [Hdi [Href Hopen]]]]].
  apply open_delivery_cases in Hlo.
  unfold consistent. simpl passwords. simpl cards. simpl deliveries.
  repeat split; try assumption.
  - (* keys of deliveries *)
    destruct lo as [l|].
    + unfold update_delivery. rewrite map_map.
      erewrite map_ext; [exact Hdi|].
      intros d. simpl. destruct (Delivery.id d =? Delivery.id l)%Z;
        reflexivity.
    + unfold insert_delivery. rewrite map_app. simpl.
      apply NoDup_app; [exact Hdi|repeat constructor; intros []|].
      intros k Hk [<-|[]]. exact (fresh_id_new _ Hk).
  - (* deliveries name stored cards *)
    intros d k Hd Hk. simpl in Hd. destruct lo as [l|].
    + unfold update_delivery in Hd. apply in_map_iff in Hd.
      destruct Hd as [d0 [<- Hd0]]. apply (Href d0 k Hd0).
      destruct (Delivery.id d0 =? Delivery.id l)%Z; exact Hk.
    + unfold insert_delivery in Hd. apply in_app_or in Hd.
      destruct Hd as [Hd|[<-|[]]]; [now apply (Href d k)|].
      simpl in Hk. inversion Hk; subst.
      exists card. split; [|reflexivity].
      unfold find_card in Hf. now apply find_some in Hf.
  - (* at most one open delivery for each card *)
    intros c2. unfold at_most_one_open. rewrite open_rows_filter.
    specialize (Hopen c2). unfold at_most_one_open in Hopen.
    rewrite open_rows_filter in Hopen. simpl deliveries.
    destruct lo as [l|].
    + destruct Hlo as [Hl _]. apply open_rows_In in Hl.
      destruct Hl as [Hin [_ Hlopen]].
      eapply Nat.le_trans; [|exact Hopen].
      apply filter_map_le. intros d Hd.
      destruct (Delivery.id d =? Delivery.id l)%Z eqn:E; [|trivial].
      apply Z.eqb_eq in E.
      assert (d = l) by now apply (key_unique _ Delivery.id (deliveries st)).
      subst d. rewrite posted_of_card. intros Hp.
      apply andb_true_iff in Hp. destruct Hp as [Hp _].
      now rewrite Hp, Hlopen.
    + unfold insert_delivery. rewrite filter_app, length_app.
      cbn [filter].
      match goal with
      | |- context [if ?b then _ else _] => destruct b eqn:E
      end; [|simpl; lia].
      apply andb_true_iff in E. destruct E as [E _].
      assert (Hc : of_card card
                     (Delivery.mk 0 category_code (Some (Card.id card))
                        None None None None None None None None) = true).
      { destruct (find_card_category _ _ _ _ Hf) as [_ Hcat].
        unfold of_card. simpl. rewrite Hcat.
        now rewrite String.eqb_refl, Z.eqb_refl. }
      assert (Hsame : forall x, of_card c2 x = of_card card x).
      { apply of_card_same_card
          with (d := Delivery.mk 0 category_code (Some (Card.id card))
                       None None None None None None None None);
          assumption. }
      rewrite (filter_ext _ (fun d => of_card card d && is_open d)),
        <- open_rows_filter, Hlo by (intros x; now rewrite Hsame).
      simpl. lia.
Qed.

End DeliverCardSteps.

Lemma sample_consistent : forall d,
  Delivery.card_id d = Some 7%Z ->
  consistent (Sample.store_of [d]).
Proof.
  intros d Hd. unfold consistent, Sample.store_of. simpl.
  repeat split; try (repeat constructor; simpl; tauto).
  - intros x k [<-|[]] Hk. exists Sample.card. split; [now left|].
    rewrite Hd in Hk. now inversion Hk.
  - intros c. unfold at_most_one_open, open_rows, card_rows. simpl.
    destruct (of_card c d); simpl; [|lia].
    destruct (is_open d); simpl; lia.
Qed.

Lemma deliver_card_keeps_consistent_witness :
  consistent (Sample.store_of [Sample.lopez_back]).
Proof.
  apply (deliver_card_keeps_consistent strip_ascii strptime_iso
           (Sample.store_of [Sample.lopez_out]) "MODULO" 7
           (Sample.post "A. Lopez" "2024-01-01 10:00:00"
              "2024-01-05 09:00:00")
           Sample.clock Sample.clock
           (Sample.store_of [Sample.lopez_back])
           (mk_outcome (Redirect "category_view" "MODULO" None)
              [("Registro de entrega / devolución guardado.", "success")])).
  - now apply sample_consistent.
  - apply (deliver_post strip_ascii strptime_iso
             (Sample.store_of [Sample.lopez_out]) "MODULO" 7
             (Sample.post "A. Lopez" "2024-01-01 10:00:00"
                "2024-01-05 09:00:00")
             Sample.clock Sample.clock
             Sample.card (Some Sample.lopez_out) [Sample.lopez_out]).
    + reflexivity.
    + discriminate.
    + reflexivity.
    + exists [Sample.lopez_out]. split; [|reflexivity]. ordered_answer.
    + ordered_answer.
    + reflexivity.
Defined.

Lemma length_le_1_In : forall (A : Type) (l : list A) a,
  List.length l <= 1 -> In a l -> l = [a].
Proof.
  intros A [|x [|y l]] a Hlen Ha; simpl in *; try lia; try contradiction.
  destruct Ha as [->|[]]. reflexivity.
Qed.

Section AfterSaving.

Variable strip : string -> string.
Variable strptime : string -> string -> option datetime.

(** X6. In a store with distinct delivery keys where the card has at most
    one open delivery, a saved request settles whether the card is out:
    with a return date read from the form the card is left without an
    open delivery, without one it is left with exactly one, held by the
    name given in the form. *)
Theorem saved_request_settles_open :
  forall st category_code card_id req now stamp st' out,
  NoDup (map Delivery.id (deliveries st)) ->
  (forall card, at_most_one_open st card) ->
  deliver_card strip strptime st category_code card_id req now stamp
    (st', out) ->
  saved out ->
  exists card,
    find_card st card_id category_code = Some card /\
    match
      parse_dt_str strptime (strip (form_get (form req) "devolucion_at" ""))
    with
    | Some _ => open_rows st' card = []
    | None =>
        exists d,
          open_rows st' card = [d] /\
          Delivery.nombre d = Some (strip (form_get (form req) "nombre" ""))
    end.
Proof.
  intros st category_code card_id req now stamp st' out Hdi Hone Hstep Hsaved.
  destruct (deliver_card_cases _ _ _ _ _ _ _ _ _ _ Hstep)
    as [[_ Hno]|[_ [card [lo [Hf [Hlo [_ ->]]]]]]];
    [exact (False_ind _ (Hno Hsaved))|].
  exists card. split; [exact Hf|].
  apply open_delivery_cases in Hlo.
  rewrite open_rows_filter. simpl deliveries.
  set (p := fun d => of_card card d && is_open d).
  destruct lo as [l|].
  - destruct Hlo as [Hl _].
    assert (Hrows : open_rows st card = [l])
      by (apply length_le_1_In; [apply Hone|exact Hl]).
    rewrite open_rows_filter in Hrows. fold p in Hrows.
    apply open_rows_In in Hl. destruct Hl as [Hin [Hlc Hlo]].
    assert (Honly : forall d, In d (deliveries st) -> p d = true -> d = l).
    { intros d Hd Hp.
      assert (Hd' : In d (filter p (deliveries st)))
        by (apply filter_In; now split).
      rewrite Hrows in Hd'. now destruct Hd' as [<-|[]]. }
    unfold update_delivery.
    pose proof (posted_is_open strip strptime (form req) now) as Hpo.
    destruct (parse_dt_str strptime
                (strip (form_get (form req) "devolucion_at" ""))) as [t|].
    + apply filter_none. intros x Hx. apply in_map_iff in Hx.
      destruct Hx as [d [<- Hd]].
      destruct (Delivery.id d =? Delivery.id l)%Z eqn:E.
      * unfold p. rewrite Hpo. apply andb_false_r.
      * destruct (p d) eqn:Hp; [|reflexivity].
        rewrite (Honly d Hd Hp), Z.eqb_refl in E. discriminate.
    + rewrite filter_map_same.
      * rewrite Hrows. simpl. rewrite Z.eqb_refl.
        eexists. split; reflexivity.
      * intros d Hd.
        destruct (Delivery.id d =? Delivery.id l)%Z eqn:E; [|reflexivity].
        apply Z.eqb_eq in E.
        assert (d = l)
          by now apply (key_unique _ Delivery.id (deliveries st)).
        subst d. unfold p.
        now rewrite posted_of_card, Hpo, Hlc, Hlo.
  - rewrite open_rows_filter in Hlo. fold p in Hlo.
    unfold insert_delivery. rewrite filter_app, Hlo. cbn [filter app].
    assert (Hc : forall pk cn r n c e t v cr,
               of_card card
                 (Delivery.mk pk category_code (Some (Card.id card))
                    cn r n c e t v cr) = true).
    { intros. destruct (find_card_category _ _ _ _ Hf) as [_ Hcat].
      unfold of_card. simpl. rewrite Hcat.
      now rewrite String.eqb_refl, Z.eqb_refl. }
    subst p. unfold appended, posted, with_form_values, is_open.
    cbn -[parse_dt_str form_get of_card fresh_id]. rewrite Hc.
    destruct (parse_dt_str strptime
                (strip (form_get (form req) "devolucion_at" ""))) as [t|].
    + reflexivity.
    + eexists. split; reflexivity.
Qed.

(** X7. For a card that has no delivery, or a single delivery that is
    open, a saved request decides the status: afterwards
    [compute_card_status] answers, and answers only, "Devueltas" with the
    return date of the form when the form gives one, and otherwise
    "Entregadas" with the holder name and the delivery date of the
    form. *)
Theorem saved_request_decides_status :
  forall st category_code card_id req now stamp st' out,
  (forall card,
     find_card st card_id category_code = Some card ->
     card_rows st card = [] \/
     exists lo, card_rows st card = [lo] /\ is_open lo = true) ->
  deliver_card strip strptime st category_code card_id req now stamp
    (st', out) ->
  saved out ->
  exists card,
    find_card st card_id category_code = Some card /\
    forall r,
      compute_card_status st' card r <->
      r =
        match
          parse_dt_str strptime
            (strip (form_get (form req) "devolucion_at" ""))
        with
        | Some t => ("Disponible (devuelto " ++ strftime t ++ ")", "Devueltas")
        | None =>
            ("Entregada a " ++ strip (form_get (form req) "nombre" "") ++
             " (" ++
             strftime
               match
                 parse_dt_str strptime
                   (strip (form_get (form req) "entrega_at" ""))
               with
               | Some t => t
               | None => now
               end ++ ")",
             "Entregadas")
        end.
Proof.
  intros st category_code card_id req now stamp st' out Hshape Hstep Hsaved.
  destruct (deliver_card_cases _ _ _ _ _ _ _ _ _ _ Hstep)
    as [[_ Hno]|[_ [card [lo [Hf [Hlo [Hname ->]]]]]]];
    [exact (False_ind _ (Hno Hsaved))|].
  exists card. split; [exact Hf|].
  apply open_delivery_cases in Hlo.
  assert (Hc : forall pk cn r n c e t v cr,
             of_card card
               (Delivery.mk pk category_code (Some (Card.id card))
                  cn r n c e t v cr) = true).
  { intros. destruct (find_card_category _ _ _ _ Hf) as [_ Hcat].
    unfold of_card. simpl. rewrite Hcat.
    now rewrite String.eqb_refl, Z.eqb_refl. }
  assert (Hrows : exists d,
    card_rows
      (mk_store (passwords st) (cards st)
         match lo with
         | Some l =>
             update_delivery (deliveries st) (Delivery.id l)
               (posted strip strptime (form req) now)
         | None =>
             insert_delivery (deliveries st) stamp
               (appended strip strptime category_code card (form req) now)
         end) card = [posted strip strptime (form req) now d]).
  { unfold card_rows. simpl deliveries.
    destruct (Hshape card Hf) as [Hnone|[l0 [Hl0 Hopen0]]].
    - destruct lo as [l|].
      + destruct Hlo as [Hl _]. apply open_rows_subset in Hl.
        destruct Hl as [Hl _]. rewrite Hnone in Hl. contradiction.
      + unfold insert_delivery. rewrite filter_app.
        fold (card_rows st card). rewrite Hnone.
        cbn [filter app]. unfold appended, posted, with_form_values.
        cbn -[parse_dt_str form_get of_card fresh_id]. rewrite Hc.
        exists (Delivery.mk (fresh_id (map Delivery.id (deliveries st)))
                  category_code (Some (Card.id card))
                  (Some (or_empty (Card.numero_tarjeta card)))
                  None None None None None None (Some stamp)).
        reflexivity.
    - destruct lo as [l|].
      + destruct Hlo as [Hl _]. apply open_rows_subset in Hl.
        destruct Hl as [Hl _]. rewrite Hl0 in Hl.
        destruct Hl as [<-|[]].
        unfold posted. rewrite update_delivery_card_rows.
        fold (card_rows st card). rewrite Hl0. simpl.
        rewrite Z.eqb_refl. now exists l0.
      + unfold open_rows in Hlo. rewrite Hl0 in Hlo. simpl in Hlo.
        rewrite Hopen0 in Hlo. discriminate. }
  destruct Hrows as [d Hrows].
  intros r. unfold compute_card_status. rewrite Hrows.
  assert (Hval :
    status_of_deliveries [posted strip strptime (form req) now d] =
    match
      parse_dt_str strptime (strip (form_get (form req) "devolucion_at" ""))
    with
    | Some t => ("Disponible (devuelto " ++ strftime t ++ ")", "Devueltas")
    | None =>
        ("Entregada a " ++ strip (form_get (form req) "nombre" "") ++
         " (" ++
         strftime
           match
             parse_dt_str strptime
               (strip (form_get (form req) "entrega_at" ""))
           with
           | Some t => t
           | None => now
           end ++ ")",
         "Entregadas")
    end).
  { unfold status_of_deliveries, posted, with_form_values. simpl.
    destruct (parse_dt_str strptime
                (strip (form_get (form req) "devolucion_at" "")));
      [reflexivity|].
    simpl. apply String.eqb_neq in Hname. rewrite Hname. reflexivity. }
  split.
  - intros [ds [[Hp _] ->]]. apply Permutation_length_1_inv in Hp.
    subst ds. exact Hval.
  - intros ->. exists [posted strip strptime (form req) now d].
    split; [|now rewrite Hval]. ordered_answer.
Qed.

End AfterSaving.

(** The return of the card held by A. Lopez, as one saved request. *)
Lemma sample_return_step :
  deliver_card strip_ascii strptime_iso
    (Sample.store_of [Sample.lopez_out]) "MODULO" 7
    (Sample.post "A. Lopez" "2024-01-01 10:00:00" "2024-01-05 09:00:00")
    Sample.clock Sample.clock
    (Sample.store_of [Sample.lopez_back],
     mk_outcome (Redirect "category_view" "MODULO" None)
       [("Registro de entrega / devolución guardado.", "success")]).
Proof.
  apply (deliver_post strip_ascii strptime_iso
           (Sample.store_of [Sample.lopez_out]) "MODULO" 7
           (Sample.post "A. Lopez" "2024-01-01 10:00:00"
              "2024-01-05 09:00:00")
           Sample.clock Sample.clock
           Sample.card (Some Sample.lopez_out) [Sample.lopez_out]).
  - reflexivity.
  - discriminate.
  - reflexivity.
  - exists [Sample.lopez_out]. split; [|reflexivity]. ordered_answer.
  - ordered_answer.
  - reflexivity.
Qed.

Lemma saved_request_settles_open_witness :
  exists card,
    find_card (Sample.store_of [Sample.lopez_out]) 7 "MODULO" = Some card /\
    open_rows (Sample.store_of [Sample.lopez_back]) card = [].
Proof.
  destruct (sample_consistent Sample.lopez_out eq_refl)
    as [_ [_ [_ [Hdi [_ Hone]]]]].
  destruct (saved_request_settles_open strip_ascii strptime_iso
              _ _ _ _ _ _ _ _ Hdi Hone sample_return_step eq_refl)
    as [card [Hf Hopen]].
  exists card. split; [exact Hf|exact Hopen].
Defined.

Lemma saved_request_decides_status_witness :
  exists card,
    find_card (Sample.store_of [Sample.lopez_out]) 7 "MODULO" = Some card /\
    compute_card_status (Sample.store_of [Sample.lopez_back]) card
      ("Disponible (devuelto 2024-01-05 09:00:00)", "Devueltas").
Proof.
  destruct (saved_request_decides_status strip_ascii strptime_iso
              (Sample.store_of [Sample.lopez_out]) "MODULO" 7
              (Sample.post "A. Lopez" "2024-01-01 10:00:00"
                 "2024-01-05 09:00:00")
              Sample.clock Sample.clock
              (Sample.store_of [Sample.lopez_back])
              (mk_outcome (Redirect "category_view" "MODULO" None)
                 [("Registro de entrega / devolución guardado.", "success")]))
    as [card [Hf Hst]].
  - intros card Hf. inversion Hf; subst. right.
    exists Sample.lopez_out. now split.
  - exact sample_return_step.
  - reflexivity.
  - exists card. split; [exact Hf|]. now apply Hst.
Defined.

(* ================================================================== *)
(** * Deleting a card *)
(* ================================================================== *)

Lemma filter_filter_same : forall (A : Type) (p q : A -> bool) l,
  (forall d, In d l -> p d = true -> q d = true) ->
  filter p (filter q l) = filter p l.
Proof.
  intros A p q l. induction l as [|x l IH]; intros H; simpl; [reflexivity|].
  assert (IH' : filter p (filter q l) = filter p l).
  { apply IH. intros d Hd. apply H. now right. }
  destruct (q x) eqn:Eq; simpl.
  - now rewrite IH'.
  - destruct (p x) eqn:Ep; [|exact IH'].
    rewrite (H x (or_introl eq_refl) Ep) in Eq. discriminate.
Qed.

Lemma filter_length_le : forall (A : Type) (p q : A -> bool) l,
  List.length (filter p (filter q l)) <= List.length (filter p l).
Proof.
  intros A p q l. induction l as [|x l IH]; simpl; [lia|].
  destruct (q x); simpl; destruct (p x); simpl; lia.
Qed.

Lemma NoDup_map_filter : forall (A B : Type) (f : A -> B) (p : A -> bool) l,
  NoDup (map f l) -> NoDup (map f (filter p l)).
Proof.
  intros A B f p l. induction l as [|x l IH]; intros H; simpl; [constructor|].
  simpl in H. inversion H as [|y ys Hx Hnd]; subst.
  destruct (p x); simpl; [|now apply IH].
  constructor; [|now apply IH].
  intros Hin. apply Hx. apply in_map_iff in Hin.
  destruct Hin as [z [Hz Hin]]. apply filter_In in Hin.
  rewrite <- Hz. apply in_map. now destruct Hin.
Qed.

Lemma of_card_card_id : forall c d,
  of_card c d = true -> Delivery.card_id d = Some (Card.id c).
Proof.
  intros c d H. unfold of_card in H. apply andb_true_iff in H.
  destruct H as [_ H]. destruct (Delivery.card_id d) as [k|]; [|discriminate].
  apply Z.eqb_eq in H. now subst.
Qed.

(** X8. [delete_card] on a card it finds removes the card and, by the
    cascade, every delivery that names its key: afterwards no category
    finds a card under that key and no delivery names it.  A card with
    another key is kept with its deliveries, so its status and its open
    delivery are answered as before. *)
Theorem delete_card_removes : forall st category_code card_id card,
  find_card st card_id category_code = Some card ->
  let st' := fst (delete_card st true category_code card_id) in
  (forall code, find_card st' card_id code = None) /\
  (forall d, In d (deliveries st') -> Delivery.card_id d <> Some card_id) /\
  passwords st' = passwords st /\
  forall c, Card.id c <> card_id ->
    (In c (cards st') <-> In c (cards st)) /\
    card_rows st' c = card_rows st c /\
    (forall r, compute_card_status st' c r <-> compute_card_status st c r) /\
    (forall r, get_last_open_delivery st' c r <->
               get_last_open_delivery st c r).
Proof.
  intros st category_code card_id card Hf st'.
  destruct (find_card_category _ _ _ _ Hf) as [Hid _].
  unfold st', delete_card. simpl negb. cbv iota. rewrite Hf. simpl fst.
  rewrite Hid.
  split; [|split; [|split; [reflexivity|]]].
  - intros code. unfold find_card. simpl cards.
    destruct (find _ (filter _ (cards st))) as [c|] eqn:E; [|reflexivity].
    apply find_some in E. destruct E as [Hin Hc].
    apply filter_In in Hin. destruct Hin as [_ Hne].
    apply andb_true_iff in Hc. destruct Hc as [Hc _].
    rewrite Hc in Hne. discriminate.
  - intros d Hd Hk. simpl in Hd. apply filter_In in Hd.
    destruct Hd as [_ Hd]. rewrite Hk, Z.eqb_refl in Hd. discriminate.
  - intros c Hne.
    assert (Hkeep : forall d, In d (deliveries st) -> of_card c d = true ->
              match Delivery.card_id d with
              | Some k => negb (k =? card_id)%Z
              | None => true
              end = true).
    { intros d _ Hd. rewrite (of_card_card_id c d Hd).
      apply negb_true_iff. now apply Z.eqb_neq. }
    split; [|split; [|split]].
    + simpl. rewrite filter_In. split; [tauto|].
      intros Hc. split; [exact Hc|].
      apply negb_true_iff. now apply Z.eqb_neq.
    + unfold card_rows. simpl deliveries.
      now apply filter_filter_same.
    + intros r. unfold compute_card_status, card_rows. simpl deliveries.
      rewrite filter_filter_same by exact Hkeep. reflexivity.
    + intros r. unfold get_last_open_delivery, open_rows, card_rows.
      simpl deliveries.
      rewrite (filter_filter_same _ (of_card c)) by exact Hkeep.
      reflexivity.
Qed.

Lemma delete_card_removes_witness :
  find_card
    (fst (delete_card (Sample.store_of [Sample.lopez_out]) true "MODULO" 7))
    7 "MODULO" = None /\
  deliveries
    (fst (delete_card (Sample.store_of [Sample.lopez_out]) true "MODULO" 7))
  = [].
Proof.
  destruct (delete_card_removes (Sample.store_of [Sample.lopez_out])
              "MODULO" 7 Sample.card eq_refl) as [Hnone _].
  split; [apply Hnone|reflexivity].
Defined.

(** Without a match [delete_card] answers 404 and deletes nothing; a card
    is matched by key and category together. *)
Lemma delete_card_unknown : forall st category_code card_id,
  find_card st card_id category_code = None ->
  delete_card st true category_code card_id = (st, mk_result Reply404 []).
Proof.
  intros st category_code card_id H. unfold delete_card. simpl.
  now rewrite H.
Qed.

(** X9. [delete_card] keeps the tables consistent.  The cascade is what
    keeps every remaining delivery naming a stored card. *)
Theorem delete_card_keeps_consistent :
  forall st session category_code card_id,
  consistent st ->
  consistent (fst (delete_card st session category_code card_id)).
Proof.
  intros st session category_code card_id Hst. unfold delete_card.
  destruct session; simpl negb; cbv iota; [|exact Hst].
  destruct (find_card st card_id category_code) as [card|]; [|exact Hst].
  destruct Hst as [Hpi [Hph [Hci [Hdi [Href Hopen]]]]].
  unfold consistent. simpl fst. simpl passwords. simpl cards.
  simpl deliveries.
  split; [exact Hpi|]. split; [exact Hph|].
  split; [now apply NoDup_map_filter|].
  split; [now apply NoDup_map_filter|]. split.
  - intros d k Hd Hk. simpl in Hd. apply filter_In in Hd.
    destruct Hd as [Hd Hkeep]. rewrite Hk in Hkeep.
    destruct (Href d k Hd Hk) as [c [Hc Hid]].
    exists c. split; [|exact Hid]. simpl. apply filter_In.
    split; [exact Hc|]. now rewrite Hid.
  - intros c. unfold at_most_one_open, open_rows, card_rows.
    simpl deliveries.
    specialize (Hopen c). unfold at_most_one_open in Hopen.
    rewrite open_rows_filter in Hopen.
    eapply Nat.le_trans; [|exact Hopen].
    set (q := fun d => match Delivery.card_id d with
                       | Some k => negb (k =? Card.id card)%Z
                       | None => true
                       end).
    assert (E : filter is_open (filter (of_card c) (filter q (deliveries st)))
                = filter (fun d => of_card c d && is_open d)
                    (filter q (deliveries st))).
    { induction (filter q (deliveries st)) as [|d rows IH]; [reflexivity|].
      simpl. destruct (of_card c d); simpl; [|exact IH].
      destruct (is_open d); now rewrite IH. }
    rewrite E. apply filter_length_le.
Qed.

Lemma delete_card_keeps_consistent_witness :
  consistent
    (fst (delete_card (Sample.store_of [Sample.lopez_out]) true "MODULO" 7)).
Proof.
  apply delete_card_keeps_consistent.
  now apply sample_consistent.
Defined.

(* ================================================================== *)
(** * Adding cards *)
(* ================================================================== *)

Lemma find_app_new : forall (A : Type) (p : A -> bool) l x,
  (forall y, In y l -> p y = false) -> p x = true ->
  find p (l ++ [x])%list = Some x.
Proof.
  intros A p l x Hl Hx. induction l as [|y l IH]; simpl.
  - now rewrite Hx.
  - rewrite (Hl y (or_introl eq_refl)). apply IH.
    intros z Hz. apply Hl. now right.
Qed.

(** A card inserted into a store whose deliveries name stored cards has a
    key no card had, is found under its key and category, and has no
    delivery. *)
Lemma insert_card_new : forall st stamp c,
  refers_to_cards st ->
  let pk := fresh_id (map Card.id (cards st)) in
  let st' :=
    mk_store (passwords st) (insert_card (cards st) stamp c)
      (deliveries st) in
  exists c',
    cards st' = (cards st ++ [c'])%list /\
    Card.id c' = pk /\ ~ In pk (map Card.id (cards st)) /\
    Card.category c' = Card.category c /\
    (forall name, getattr c' name = getattr c name) /\
    find_card st' pk (Card.category c) = Some c' /\
    card_rows st' c' = [].
Proof.
  intros st stamp c Href pk st'.
  eexists. split; [reflexivity|]. split; [reflexivity|].
  split; [apply fresh_id_new|]. split; [reflexivity|].
  split; [reflexivity|]. split.
  - unfold find_card, st', insert_card. simpl cards.
    apply find_app_new.
    + intros y Hy. apply andb_false_iff. left. apply Z.eqb_neq.
      intros E. apply (fresh_id_new (map Card.id (cards st))).
      fold pk. rewrite <- E. now apply in_map.
    + simpl. fold pk. now rewrite Z.eqb_refl, String.eqb_refl.
  - unfold card_rows. simpl deliveries. apply filter_none.
    intros d Hd. destruct (of_card _ d) eqn:E; [|reflexivity].
    apply of_card_card_id in E. simpl in E.
    destruct (Href d _ Hd E) as [c0 [Hc0 Hid]].
    exfalso. apply (fresh_id_new (map Card.id (cards st))).
    rewrite <- Hid. now apply in_map.
Qed.

Lemma known_category_fields : forall code fields,
  assoc code CATEGORY_DEFINITIONS = Some fields ->
  In (code, fields) CATEGORY_DEFINITIONS.
Proof.
  intros code fields. generalize CATEGORY_DEFINITIONS as defs.
  induction defs as [|[k v] defs IH]; simpl; [discriminate|].
  destruct (String.eqb_spec k code) as [->|_].
  - intros H. inversion H. now left.
  - intros H. right. now apply IH.
Qed.

Section AddCard.

Variable strip : string -> string.

(** The card built from the form holds, under each field of its
    category, the stripped value of the form. *)
Lemma card_of_form_fields : forall code fields f name label,
  assoc code CATEGORY_DEFINITIONS = Some fields ->
  In (name, label) fields ->
  getattr (card_of_form strip code fields f) name =
  Some (strip (form_get f name "")).
Proof.
  intros code fields f name label Hk Hin.
  apply known_category_fields in Hk. simpl in Hk.
  repeat destruct Hk as [Hk|Hk]; try contradiction;
    inversion Hk; subst; simpl in Hin;
    repeat destruct Hin as [Hin|Hin]; try contradiction;
    inversion Hin; subst; reflexivity.
Qed.

Lemma card_of_form_category : forall code fields f,
  Card.category (card_of_form strip code fields f) = code.
Proof.
  intros code fields f. unfold card_of_form. rewrite setattr_category.
  assert (G : forall c,
    Card.category
      (fold_left
         (fun card (field : string * string) =>
            setattr card (fst field) (strip (form_get f (fst field) "")))
         fields c) = Card.category c).
  { induction fields as [|fl fields IH]; intros c; simpl; [reflexivity|].
    rewrite IH. apply setattr_category. }
  rewrite G. reflexivity.
Qed.

(** X10. A request to [category_view] that adds a card appends one card
    with a key no card had.  The card holds, under every field of the
    category, the stripped value of the form, empty or not, and the status
    of the form as sent ("Activa" when absent).  It is found under its key
    and category, and, deliveries naming only stored cards, it has no
    delivery: its status is "Disponible" even when the key was held by a
    card deleted before. *)
Theorem category_view_adds :
  forall st category_code req args stamp st' res,
  refers_to_cards st ->
  category_view strip st category_code req args stamp (st', res) ->
  reply res = ReplyRedirect "category_view" (Some category_code) ->
  exists card fields,
    assoc category_code CATEGORY_DEFINITIONS = Some fields /\
    cards st' = (cards st ++ [card])%list /\
    passwords st' = passwords st /\ deliveries st' = deliveries st /\
    ~ In (Card.id card) (map Card.id (cards st)) /\
    Card.category card = category_code /\
    (forall name label, In (name, label) fields ->
       getattr card name = Some (strip (form_get (form req) name ""))) /\
    Card.status card =
      Some match assoc "status" (form req) with
           | Some v => v
           | None => "Activa"
           end /\
    find_card st' (Card.id card) category_code = Some card /\
    forall r, compute_card_status st' card r <->
              r = ("Disponible", "Disponible").
Proof.
  intros st category_code req args stamp st' res Href Hstep Hreply.
  inversion Hstep as [Hs Heq|Hs Hc Heq|fields Hs Hc Hm Ha Heq
                      |fields ordered listed Hs Hc Hm Ho Hl Heq]; subst;
    try discriminate Hreply.
  destruct (insert_card_new st stamp
              (card_of_form strip category_code fields (form req)) Href)
    as [c' [Hcards [Hid [Hnew [Hcat [Hget [Hfind Hrows]]]]]]].
  rewrite card_of_form_category in Hcat, Hfind.
  exists c', fields. split; [exact Hc|]. split; [exact Hcards|].
  split; [reflexivity|]. split; [reflexivity|].
  split; [now rewrite Hid|]. split; [exact Hcat|]. split.
  - intros name label Hin. rewrite Hget.
    now apply card_of_form_fields with label.
  - split.
    + change (Card.status c') with (getattr c' "status").
      rewrite Hget. unfold card_of_form.
      change (getattr (setattr ?c "status" ?v) "status")
        with (Card.status (setattr c "status" v)).
      now rewrite setattr_status.
    + split; [now rewrite Hid|].
      intros r. unfold compute_card_status. rewrite Hrows. split.
      * intros [ds [Hq ->]]. apply order_by_nil in Hq. now subst.
      * intros ->. exists []. split; [|reflexivity]. ordered_answer.
Qed.

End AddCard.

Lemma category_view_adds_witness :
  exists card,
    compute_card_status
      (mk_store []
         (insert_card [Sample.card] Sample.clock
            (card_of_form strip_ascii "MODULO"
               [ ("n", "N°");
                 ("modulo_sector", "Módulo / Sector");
                 ("nombre_tarjeta", "Nombre de la Tarjeta");
                 ("tipo_tarjeta", "Tipo de Tarjeta");
                 ("numero_tarjeta", "Numero de tarjeta") ]
               [("action", "add"); ("n", " 2 "); ("numero_tarjeta", "0043")]))
         [])
      card ("Disponible", "Disponible").
Proof.
  destruct (category_view_adds strip_ascii (Sample.store_of []) "MODULO"
              (mk_request true "POST"
                 [("action", "add"); ("n", " 2 "); ("numero_tarjeta", "0043")])
              [] Sample.clock _ _
              (fun d k (H : In d []) => False_ind _ H)
              (category_add strip_ascii (Sample.store_of []) "MODULO"
                 (mk_request true "POST"
                    [("action", "add"); ("n", " 2 ");
                     ("numero_tarjeta", "0043")])
                 [] Sample.clock _ eq_refl eq_refl eq_refl eq_refl)
              eq_refl)
    as [card [fields [_ [_ [_ [_ [_ [_ [_ [_ [_ Hst]]]]]]]]]]].
  exists card. now apply Hst.
Defined.

(** The inserts of a commit give the added cards keys that no stored card
    has and that differ from one another. *)
Lemma insert_cards_keys : forall stamp added tbl,
  NoDup (map Card.id tbl) ->
  exists new,
    fold_left (fun tbl c => insert_card tbl stamp c) added tbl =
      (tbl ++ new)%list /\
    NoDup (map Card.id (tbl ++ new)) /\
    List.length new = List.length added /\
    forall c, In c new -> ~ In (Card.id c) (map Card.id tbl).
Proof.
  intros stamp added. induction added as [|c added IH]; intros tbl Hnd.
  - exists []. rewrite app_nil_r.
    split; [reflexivity|]. split; [exact Hnd|]. split; [reflexivity|].
    intros c [].
  - simpl.
    assert (Hnd1 : NoDup (map Card.id (insert_card tbl stamp c))).
    { unfold insert_card. rewrite map_app. simpl.
      apply NoDup_app; [exact Hnd|repeat constructor; intros []|].
      intros k Hk [<-|[]]. exact (fresh_id_new _ Hk). }
    destruct (IH _ Hnd1) as [new [E [Hnd' [Hlen Hfresh]]]].
    unfold insert_card in E, Hnd', Hfresh.
    rewrite <- app_assoc in E, Hnd'. simpl in E, Hnd'.
    eexists. split; [exact E|]. split; [exact Hnd'|].
    split; [simpl; now rewrite Hlen|].
    intros x [<-|Hx].
    + apply fresh_id_new.
    + intros Hin. apply (Hfresh x Hx). rewrite map_app. apply in_or_app.
      now left.
Qed.

Lemma at_most_one_open_same_deliveries : forall st st' card,
  deliveries st' = deliveries st ->
  at_most_one_open st card -> at_most_one_open st' card.
Proof.
  intros st st' card E. unfold at_most_one_open, open_rows, card_rows.
  now rewrite E.
Qed.

(** Cards added to a consistent store leave it consistent, and none of
    them has a delivery. *)
Lemma insert_cards_consistent : forall st stamp added,
  consistent st ->
  let st' :=
    mk_store (passwords st)
      (fold_left (fun tbl c => insert_card tbl stamp c) added (cards st))
      (deliveries st) in
  consistent st' /\
  exists new,
    cards st' = (cards st ++ new)%list /\
    List.length new = List.length added /\
    forall c, In c new ->
      ~ In (Card.id c) (map Card.id (cards st)) /\ card_rows st' c = [].
Proof.
  intros st stamp added [Hpi [Hph [Hci [Hdi [Href Hopen]]]]] st'.
  destruct (insert_cards_keys stamp added (cards st) Hci)
    as [new [E [Hnd [Hlen Hfresh]]]].
  split.
  - unfold consistent, st'. simpl passwords. simpl cards. simpl deliveries.
    rewrite E.
    split; [exact Hpi|]. split; [exact Hph|]. split; [exact Hnd|].
    split; [exact Hdi|]. split.
    + intros d k Hd Hk. destruct (Href d k Hd Hk) as [c [Hc Hid]].
      exists c. split; [|exact Hid]. apply in_or_app. now left.
    + intros card. now apply (at_most_one_open_same_deliveries st).
  - exists new. split; [exact E|]. split; [exact Hlen|].
    intros c Hc. split; [now apply Hfresh|].
    unfold card_rows, st'. simpl deliveries. apply filter_none.
    intros d Hd. destruct (of_card c d) eqn:Eo; [|reflexivity].
    apply of_card_card_id in Eo.
    destruct (Href d _ Hd Eo) as [c0 [Hc0 Hid]].
    exfalso. apply (Hfresh c Hc). rewrite <- Hid. now apply in_map.
Qed.

(** X11. [import_cards] keeps the tables consistent; the cards it creates
    get keys that no stored card has, and none of them has a delivery. *)
Theorem import_cards_keeps_consistent :
  forall strip st session category_code upload stamp,
  consistent st ->
  let st' := fst (import_cards strip st session category_code upload stamp) in
  consistent st' /\
  exists new,
    cards st' = (cards st ++ new)%list /\
    forall c, In c new ->
      ~ In (Card.id c) (map Card.id (cards st)) /\ card_rows st' c = [].
Proof.
  intros strip st session category_code upload stamp Hst st'.
  assert (Hsame : consistent st /\
            exists new,
              cards st = (cards st ++ new)%list /\
              forall c, In c new ->
                ~ In (Card.id c) (map Card.id (cards st)) /\
                card_rows st c = []).
  { split; [exact Hst|]. exists []. rewrite app_nil_r.
    split; [reflexivity|]. intros c []. }
  unfold st', import_cards.
  destruct session; simpl negb; cbv iota; [|exact Hsame].
  destruct (assoc category_code CATEGORY_DEFINITIONS) as [fields|];
    [|exact Hsame].
  destruct upload as [|e|df]; try exact Hsame.
  destruct (import_rows strip category_code df fields) as [added imported].
  destruct (negb (Nat.eqb imported 0)); [|exact Hsame].
  simpl fst.
  destruct (insert_cards_consistent st stamp added Hst) as [Hc [new [E [_ H]]]].
  split; [exact Hc|]. now exists new.
Qed.

Lemma import_cards_keeps_consistent_witness :
  consistent
    (fst (import_cards strip_ascii (Sample.store_of [Sample.lopez_out]) true
            "MODULO" (Sheet Sample.sheet) Sample.clock)).
Proof.
  apply (import_cards_keeps_consistent strip_ascii
           (Sample.store_of [Sample.lopez_out]) true "MODULO"
           (Sheet Sample.sheet) Sample.clock).
  now apply sample_consistent.
Defined.

(* ================================================================== *)
(** * What an import stores *)
(* ================================================================== *)

Lemma getattr_setattr : forall c name v name',
  str_in name card_columns = true ->
  getattr (setattr c name v) name' =
  if String.eqb name name' then Some v else getattr c name'.
Proof.
  intros [pk cat f_n f_ms f_ca f_sc f_nt f_tt f_nu f_st cr] name v name' H.
  apply str_in_In in H. simpl in H.
  repeat destruct H as [H|H]; try contradiction; subst name;
    unfold getattr; simpl setattr;
    match goal with
    | |- context [String.eqb ?l name'] => rewrite (String.eqb_sym l name')
    end;
    repeat match goal with
           | |- context [String.eqb name' ?l] =>
               destruct (String.eqb_spec name' l) as [->|?]
           end;
    simpl; try reflexivity; congruence.
Qed.

Lemma getattr_new_card : forall code name,
  getattr (new_card code) name = None.
Proof.
  intros code name. unfold getattr, new_card. simpl.
  repeat match goal with
         | |- context [if ?b then _ else _] => destruct b
         end; reflexivity.
Qed.

Section ImportStores.

Variable strip : string -> string.

Lemma import_fields_getattr : forall cols row fields acc name,
  NoDup (map fst fields) ->
  (forall field, In field fields -> str_in (fst field) card_columns = true) ->
  getattr (fst (import_fields strip cols row fields acc)) name =
  match find (fun field => String.eqb (fst field) name) fields with
  | Some field =>
      if String.eqb (mapped_value strip cols row field) ""
      then getattr (fst acc) name
      else Some (mapped_value strip cols row field)
  | None => getattr (fst acc) name
  end.
Proof.
  intros cols row fields. unfold import_fields.
  induction fields as [|field fields IH]; intros acc name Hnd Hvalid.
  - reflexivity.
  - simpl in Hnd. inversion Hnd as [|k ks Hk Hnd']; subst.
    cbn [fold_left find]. rewrite IH; [|exact Hnd'|].
    2:{ intros fl Hfl. apply Hvalid. now right. }
    destruct (String.eqb_spec (fst field) name) as [E|E].
    + assert (Hnone : find (fun fl => String.eqb (fst fl) name) fields = None).
      { destruct (find _ fields) as [fl|] eqn:F; [|reflexivity].
        apply find_some in F. destruct F as [Hin Hfl].
        apply String.eqb_eq in Hfl. exfalso. apply Hk.
        rewrite E, <- Hfl. now apply in_map. }
      rewrite Hnone.
      destruct (String.eqb (mapped_value strip cols row field) "");
        simpl; [reflexivity|].
      rewrite getattr_setattr by (apply Hvalid; now left).
      apply String.eqb_eq in E. now rewrite E.
    + assert (Hacc :
        getattr
          (fst (if negb (String.eqb (mapped_value strip cols row field) "")
                then (setattr (fst acc) (fst field)
                        (mapped_value strip cols row field), false)
                else acc)) name = getattr (fst acc) name).
      { destruct (String.eqb (mapped_value strip cols row field) "");
          simpl; [reflexivity|].
        rewrite getattr_setattr by (apply Hvalid; now left).
        apply String.eqb_neq in E. now rewrite E. }
      destruct (find _ fields) as [fl|]; now rewrite Hacc.
Qed.

(** X12. For a known category, the card [import_cards] builds from a row
    holds, under each field of the category, the value read for that
    field (the column named by the field key if the sheet has one, else
    the column named by the label, stripped) when that value is not
    empty, and nothing otherwise: no value is stored under another
    field's column. *)
Theorem import_row_stores :
  forall category_code fields cols row name label,
  assoc category_code CATEGORY_DEFINITIONS = Some fields ->
  In (name, label) fields ->
  getattr (fst (import_row strip category_code cols fields row)) name =
  if String.eqb (mapped_value strip cols row (name, label)) "" then None
  else Some (mapped_value strip cols row (name, label)).
Proof.
  intros category_code fields cols row name label Hk Hin.
  assert (Hshape :
    NoDup (map fst fields) /\
    (forall field, In field fields ->
       str_in (fst field) card_columns = true /\
       String.eqb (fst field) "status" = false) /\
    find (fun field => String.eqb (fst field) name) fields =
      Some (name, label)).
  { apply known_category_fields in Hk. simpl in Hk.
    repeat destruct Hk as [Hk|Hk]; try contradiction;
      inversion Hk; subst; split;
      try (repeat constructor; simpl; intuition discriminate);
      (split;
       [ intros field Hf; simpl in Hf;
         repeat destruct Hf as [Hf|Hf]; try contradiction; subst field;
         split; reflexivity
       | simpl in Hin;
         repeat destruct Hin as [Hin|Hin]; try contradiction;
         inversion Hin; subst; reflexivity ]). }
  destruct Hshape as [Hnd [Hvalid Hfind]].
  unfold import_row.
  pose proof (import_fields_getattr cols row fields
                (new_card category_code, true) name Hnd
                (fun field Hf => proj1 (Hvalid field Hf))) as G.
  destruct (import_fields strip cols row fields
              (new_card category_code, true)) as [card empty].
  simpl fst in *. rewrite getattr_setattr by reflexivity.
  pose proof (proj2 (Hvalid (name, label) Hin)) as Hns. simpl in Hns.
  rewrite String.eqb_sym, Hns, G, Hfind, getattr_new_card. reflexivity.
Qed.

(** X13. A sheet whose header is the one of the downloaded template is
    read column by column: for every field of a known category the value
    read is the stripped cell under the field's label, and the status is
    read from the column "Activa / Inactiva". *)
Theorem template_header_is_read :
  forall category_code fields row name label,
  assoc category_code CATEGORY_DEFINITIONS = Some fields ->
  In (name, label) fields ->
  download_cards_template true category_code =
    FileTemplate ("plantilla_tarjetas_" ++ lower category_code ++ ".xlsx")
      (template_header fields) /\
  mapped_value strip (template_header fields) row (name, label) =
    strip (row_get row label "") /\
  status_cell strip (template_header fields) row =
    strip (row_get row "Activa / Inactiva" "").
Proof.
  intros category_code fields row name label Hk Hin.
  split.
  - unfold download_cards_template. simpl negb. cbv iota. now rewrite Hk.
  - apply known_category_fields in Hk. simpl in Hk.
    repeat destruct Hk as [Hk|Hk]; try contradiction;
      inversion Hk; subst; simpl in Hin;
      repeat destruct Hin as [Hin|Hin]; try contradiction;
      inversion Hin; subst; split; reflexivity.
Qed.

End ImportStores.

Lemma import_row_stores_witness :
  getattr
    (fst (import_row strip_ascii "MODULO" (columns Sample.sheet)
            [ ("n", "N°");
              ("modulo_sector", "Módulo / Sector");
              ("nombre_tarjeta", "Nombre de la Tarjeta");
              ("tipo_tarjeta", "Tipo de Tarjeta");
              ("numero_tarjeta", "Numero de tarjeta") ]
            [ ("N°", " 1 "); ("nombre_tarjeta", "Puerta norte") ]))
    "n" = Some "1".
Proof.
  exact (import_row_stores strip_ascii "MODULO" _ (columns Sample.sheet)
           [ ("N°", " 1 "); ("nombre_tarjeta", "Puerta norte") ]
           "n" "N°" eq_refl (or_introl eq_refl)).
Defined.

Lemma template_header_is_read_witness :
  mapped_value strip_ascii
    (template_header
       [ ("n", "N°");
         ("categoria", "Categoría");
         ("nombre_tarjeta", "Nombre de la Tarjeta");
         ("tipo_tarjeta", "Tipo de Tarjeta");
         ("numero_tarjeta", "Numero Tarjeta") ])
    [("Categoría", " Llaves ")] ("categoria", "Categoría") = "Llaves".
Proof.
  exact (proj1 (proj2
           (template_header_is_read strip_ascii "MAESTRA" _
              [("Categoría", " Llaves ")] "categoria" "Categoría"
              eq_refl (or_intror (or_introl eq_refl))))).
Defined.

(* ================================================================== *)
(** * Passwords and the session *)
(* ================================================================== *)

Lemma verify_password_In : forall st plain,
  verify_password st plain = true <->
  In (_sha256 plain) (map Password.hash (passwords st)).
Proof.
  intros st plain. unfold verify_password. rewrite existsb_exists, in_map_iff.
  split.
  - intros [p [Hp E]]. apply String.eqb_eq in E. now exists p.
  - intros [p [E Hp]]. exists p. split; [exact Hp|]. now apply String.eqb_eq.
Qed.

Lemma find_hash_none : forall tbl h,
  find (fun p => String.eqb (Password.hash p) h) tbl = None ->
  ~ In h (map Password.hash tbl).
Proof.
  intros tbl h Hnone Hin. apply in_map_iff in Hin.
  destruct Hin as [p [E Hp]].
  apply (find_none _ _ Hnone) in Hp. rewrite E, String.eqb_refl in Hp.
  discriminate.
Qed.

Section AddPassword.

Variable strip : string -> string.

(** What the branch "add" does, case by case. *)
Lemma add_password_spec : forall st f,
  exists st' msgs,
    add_password strip st f = Some (st', msgs) /\
    cards st' = cards st /\ deliveries st' = deliveries st /\
    (strip (form_get f "new_password" "") = "" -> st' = st) /\
    (strip (form_get f "new_password" "") <> "" ->
     verify_password st' (strip (form_get f "new_password" "")) = true) /\
    (verify_password st (strip (form_get f "new_password" "")) = true ->
     st' = st) /\
    (forall plain, verify_password st plain = true ->
                   verify_password st' plain = true) /\
    (NoDup (map Password.hash (passwords st)) ->
     NoDup (map Password.hash (passwords st'))) /\
    (NoDup (map Password.id (passwords st)) ->
     NoDup (map Password.id (passwords st'))).
Proof.
  intros st f. unfold add_password.
  set (pwd := strip (form_get f "new_password" "")).
  destruct (String.eqb_spec pwd "") as [E|E].
  - exists st. eexists. split; [reflexivity|].
    repeat (split; [tauto|]). tauto.
  - destruct (find _ (passwords st)) as [p|] eqn:F.
    + exists st. eexists. split; [reflexivity|].
      split; [reflexivity|]. split; [reflexivity|].
      split; [reflexivity|]. split.
      * intros _. apply verify_password_In. apply find_some in F.
        destruct F as [Hp Hh]. apply String.eqb_eq in Hh.
        rewrite <- Hh. now apply in_map.
      * repeat (split; [tauto|]). tauto.
    + pose proof (find_hash_none _ _ F) as Hnew.
      unfold insert_password.
      rewrite (proj2 (str_in_not_In _ _) Hnew).
      eexists. eexists. split; [reflexivity|].
      split; [reflexivity|]. split; [reflexivity|].
      split; [intros Hb; contradiction|]. split.
      * intros _. apply verify_password_In. simpl.
        rewrite map_app. apply in_or_app. right. now left.
      * split.
        -- intros Hv. apply verify_password_In in Hv. contradiction.
        -- split.
           ++ intros plain Hv. apply verify_password_In.
              apply verify_password_In in Hv. simpl.
              rewrite map_app. apply in_or_app. now left.
           ++ split; intros Hnd; simpl; rewrite map_app; simpl;
                (apply NoDup_app; [exact Hnd|repeat constructor; intros []|]).
              ** intros h Hh [<-|[]]. contradiction.
              ** intros k Hk [<-|[]]. exact (fresh_id_new _ Hk).
Qed.

(** X14. The branch "add" of [manage_passwords] never raises.  A blank
    password changes nothing.  Otherwise the stripped password verifies
    afterwards; a password that verified before still does; at most one
    row is appended, and none when the digest was stored already, so
    distinct hashes and distinct keys stay distinct. *)
Theorem add_password_then_verify : forall st f,
  exists st' msgs,
    add_password strip st f = Some (st', msgs) /\
    cards st' = cards st /\ deliveries st' = deliveries st /\
    (strip (form_get f "new_password" "") = "" -> st' = st) /\
    (strip (form_get f "new_password" "") <> "" ->
     verify_password st' (strip (form_get f "new_password" "")) = true) /\
    (verify_password st (strip (form_get f "new_password" "")) = true ->
     st' = st) /\
    (forall plain, verify_password st plain = true ->
                   verify_password st' plain = true) /\
    (NoDup (map Password.hash (passwords st)) ->
     NoDup (map Password.hash (passwords st'))) /\
    (NoDup (map Password.id (passwords st)) ->
     NoDup (map Password.id (passwords st'))).
Proof.
  exact add_password_spec.
Qed.

End AddPassword.

Lemma str_of_Z_inj : forall a b, str_of_Z a = str_of_Z b -> a = b.
Proof.
  intros a b H. unfold str_of_Z in H.
  assert (N : forall z, Z.to_int z <> Decimal.Pos Decimal.Nil /\
                        Z.to_int z <> Decimal.Neg Decimal.Nil).
  { intros [|p|p]; simpl; split; try discriminate;
      intros E; inversion E as [E'];
      now apply DecimalPos.Unsigned.to_uint_nonnil in E'. }
  apply (f_equal NilZero.int_of_string) in H.
  rewrite !NilZero.isi in H by apply N.
  inversion H as [H']. apply (f_equal Z.of_int) in H'.
  now rewrite !DecimalZ.of_to in H'.
Qed.

(** What deleting the key [pk] leaves in the table of passwords. *)
Lemma delete_password_rows : forall st pk,
  passwords (fst (delete_password st pk)) =
    filter (fun q => negb (Z.eqb (Password.id q) pk)) (passwords st) /\
  cards (fst (delete_password st pk)) = cards st /\
  deliveries (fst (delete_password st pk)) = deliveries st.
Proof.
  intros st pk. unfold delete_password.
  destruct (find _ (passwords st)) as [p|] eqn:F; simpl.
  - apply find_some in F. destruct F as [_ F]. apply Z.eqb_eq in F.
    now rewrite F.
  - split; [|split; reflexivity].
    induction (passwords st) as [|q tbl IH]; [reflexivity|].
    simpl in F. destruct (Password.id q =? pk)%Z eqn:E; [discriminate|].
    simpl. rewrite E. simpl. f_equal. now apply IH.
Qed.

Lemma NoDup_map_inj : forall (A B : Type) (f : A -> B) (l : list A) a b,
  NoDup (map f l) -> In a l -> In b l -> f a = f b -> a = b.
Proof.
  intros A B f l a b. induction l as [|x l IH]; intros Hnd Ha Hb Hk.
  - contradiction.
  - simpl in Hnd. inversion Hnd as [|k ks Hx Hnd']; subst.
    destruct Ha as [->|Ha], Hb as [->|Hb].
    + reflexivity.
    + exfalso. apply Hx. rewrite Hk. now apply in_map.
    + exfalso. apply Hx. rewrite <- Hk. now apply in_map.
    + now apply IH.
Qed.

(** Whatever key the engine finds, deleting its row keeps the tables
    consistent. *)
Lemma delete_password_consistent : forall st pk,
  consistent st -> consistent (fst (delete_password st pk)).
Proof.
  intros st pk [Hpi [Hph [Hci [Hdi [Href Hopen]]]]].
  destruct (delete_password_rows st pk) as [Hrows [Hc Hd]].
  unfold consistent. rewrite Hrows, Hc, Hd.
  split; [now apply NoDup_map_filter|].
  split; [now apply NoDup_map_filter|].
  split; [exact Hci|]. split; [exact Hdi|]. split.
  - intros d k Hdin Hk. rewrite Hd in Hdin.
    destruct (Href d k Hdin Hk) as [c [Hcin Hid]].
    exists c. rewrite Hc. now split.
  - intros card. now apply (at_most_one_open_same_deliveries st).
Qed.

(** A query ordered by key has an answer. *)
Lemma order_by_asc_exists : forall (A : Type) (key : A -> Z) rows,
  exists listed, order_by_asc key rows listed.
Proof.
  intros A key rows.
  exists (sort_by (fun a b => (key a <=? key b)%Z) rows). split.
  - apply sort_by_perm.
  - apply StronglySorted_weaken
      with (R := fun a b => (key a <=? key b)%Z = true).
    + intros a b H. now apply Z.leb_le.
    + apply sort_by_sorted.
      * intros a b. destruct (Z.leb_spec (key a) (key b)); [now left|].
        right. apply Z.leb_le. lia.
      * intros a b c. rewrite !Z.leb_le. lia.
Qed.

Lemma to_int_not_nil : forall z,
  Z.to_int z <> Decimal.Pos Decimal.Nil /\
  Z.to_int z <> Decimal.Neg Decimal.Nil.
Proof.
  intros [|q|q]; simpl; split; try discriminate;
    intros E; inversion E as [E'];
    now apply DecimalPos.Unsigned.to_uint_nonnil in E'.
Qed.

(** Whether a text is the plain decimal writing of an integer. *)
Lemma names_key_dec : forall text,
  (exists k, text = str_of_Z k) \/ (forall k, text <> str_of_Z k).
Proof.
  intros text.
  assert (R : forall k, NilZero.int_of_string (str_of_Z k) =
                        Some (Z.to_int k)).
  { intros k. unfold str_of_Z. apply NilZero.isi; apply to_int_not_nil. }
  destruct (NilZero.int_of_string text) as [i|] eqn:E.
  - destruct (String.eqb_spec text (str_of_Z (Z.of_int i))) as [H|H].
    + left. now exists (Z.of_int i).
    + right. intros k Hk. apply H. subst text.
      rewrite R in E. inversion E; subst i.
      now rewrite DecimalZ.of_to.
  - right. intros k Hk. subst text. rewrite R in E. discriminate.
Qed.

Section ManagePasswords.

Variable strip : string -> string.

(** X15. A logged-in request to [manage_passwords] that deletes the key
    [pk] leaves exactly the passwords with another key, and the page
    lists them.  With distinct hashes, the password of a deleted row no
    longer verifies; nothing keeps the last password from being
    deleted. *)
Theorem manage_passwords_deletes : forall st req pk st' res,
  manage_passwords strip st req (st', res) ->
  logged_in req = true ->
  method req = "POST" ->
  assoc "action" (form req) = Some "delete" ->
  assoc "password_id" (form req) = Some (str_of_Z pk) ->
  (forall p, In p (passwords st') <->
             In p (passwords st) /\ Password.id p <> pk) /\
  cards st' = cards st /\ deliveries st' = deliveries st /\
  (exists listed,
     reply res = PagePasswords listed /\
     Permutation (passwords st') listed) /\
  (NoDup (map Password.hash (passwords st)) ->
   forall p plain,
     In p (passwords st) -> Password.id p = pk ->
     _sha256 plain = Password.hash p ->
     verify_password st' plain = false) /\
  ((forall p, In p (passwords st) -> Password.id p = pk) ->
   forall plain, verify_password st' plain = false).
Proof.
  intros st req pk st' res Hstep Hs Hm Ha Hp.
  inversion Hstep as [Hs' Heq|listed Hs' Hm' Ho Heq
                      |st1 msgs listed Hs' Hm' Ha' Hadd Ho Heq
                      |pk' listed Hs' Hm' Ha' Hp' Ho Heq
                      |text pk' listed Hs' Hm' Ha' Hp' Hne Ho Heq
                      |listed Hs' Hm' Ha' Hp' Ho Heq
                      |listed Hs' Hm' Ha1 Ha2 Ho Heq]; subst;
    try congruence;
    try (exfalso; apply (Hne pk); congruence).
  rewrite Hp in Hp'. inversion Hp' as [E]. apply str_of_Z_inj in E.
  subst pk'.
  destruct (delete_password_rows st pk) as [Hrows [Hc Hd]].
  assert (Hin : forall p, In p (passwords (fst (delete_password st pk))) <->
                          In p (passwords st) /\ Password.id p <> pk).
  { intros p. rewrite Hrows, filter_In, negb_true_iff, Z.eqb_neq.
    reflexivity. }
  split; [exact Hin|]. split; [exact Hc|]. split; [exact Hd|]. split.
  - exists listed. split; [reflexivity|]. now destruct Ho.
  - split.
    + intros Hnd p plain Hpin Hid Hh.
      destruct (verify_password (fst (delete_password st pk)) plain) eqn:V;
        [|reflexivity].
      apply verify_password_In in V. apply in_map_iff in V.
      destruct V as [q [Hq Hqin]]. apply Hin in Hqin.
      destruct Hqin as [Hqin Hne]. exfalso. apply Hne.
      rewrite <- Hid. f_equal.
      apply (NoDup_map_inj _ _ Password.hash (passwords st)); try assumption.
      congruence.
    + intros Hall plain.
      destruct (verify_password (fst (delete_password st pk)) plain) eqn:V;
        [|reflexivity].
      apply verify_password_In in V. apply in_map_iff in V.
      destruct V as [q [_ Hqin]]. apply Hin in Hqin.
      destruct Hqin as [Hqin Hne]. exfalso. now apply Hne, Hall.
Qed.

(** Every request has an answer: the relation leaves no form out. *)
Lemma manage_passwords_answers : forall st req,
  exists st' res, manage_passwords strip st req (st', res).
Proof.
  intros st req.
  destruct (logged_in req) eqn:Hs.
  2: { exists st, (mk_result ReplyLogin []). now apply passwords_login. }
  destruct (String.eqb_spec (method req) "POST") as [Hm|Hm].
  2: { destruct (order_by_asc_exists _ Password.id (passwords st))
         as [listed Ho].
       exists st, (mk_result (PagePasswords listed) []).
       now apply passwords_get. }
  destruct (assoc "action" (form req)) as [action|] eqn:Ha.
  2: { destruct (order_by_asc_exists _ Password.id (passwords st))
         as [listed Ho].
       exists st, (mk_result (PagePasswords listed) []).
       apply passwords_other; try assumption; rewrite Ha; discriminate. }
  destruct (String.eqb_spec action "add") as [->|Hadd].
  { destruct (add_password_spec strip st (form req))
      as [st1 [msgs [E _]]].
    destruct (order_by_asc_exists _ Password.id (passwords st1))
      as [listed Ho].
    exists st1, (mk_result (PagePasswords listed) msgs).
    now apply passwords_add. }
  destruct (String.eqb_spec action "delete") as [->|Hdel].
  2: { destruct (order_by_asc_exists _ Password.id (passwords st))
         as [listed Ho].
       exists st, (mk_result (PagePasswords listed) []).
       apply passwords_other; try assumption; rewrite Ha; congruence. }
  destruct (assoc "password_id" (form req)) as [text|] eqn:Hp.
  2: { destruct (order_by_asc_exists _ Password.id (passwords st))
         as [listed Ho].
       exists st, (mk_result (PagePasswords listed) []).
       now apply passwords_delete_unnamed. }
  destruct (names_key_dec text) as [[pk ->]|Hno].
  - destruct (order_by_asc_exists _ Password.id
                (passwords (fst (delete_password st pk))))
      as [listed Ho].
    eexists. eexists. now apply (passwords_delete strip st req pk listed).
  - destruct (order_by_asc_exists _ Password.id
                (passwords (fst (delete_password st 0))))
      as [listed Ho].
    eexists. eexists.
    now apply (passwords_delete_text strip st req text 0%Z listed).
Qed.

(** X16. [manage_passwords] keeps the tables consistent: every request,
    whatever its form, has an answer, and every answer, also the deletion
    under a key the engine reads from a text that is not the plain writing
    of an integer, leaves the tables consistent. *)
Theorem manage_passwords_keeps_consistent : forall st req,
  consistent st ->
  (exists st' res, manage_passwords strip st req (st', res)) /\
  forall st' res, manage_passwords strip st req (st', res) -> consistent st'.
Proof.
  intros st req Hst. split; [apply manage_passwords_answers|].
  intros st' res Hstep.
  inversion Hstep as [Hs' Heq|listed Hs' Hm' Ho Heq
                      |st1 msgs listed Hs' Hm' Ha' Hadd Ho Heq
                      |pk' listed Hs' Hm' Ha' Hp' Ho Heq
                      |text pk' listed Hs' Hm' Ha' Hp' Hne Ho Heq
                      |listed Hs' Hm' Ha' Hp' Ho Heq
                      |listed Hs' Hm' Ha1 Ha2 Ho Heq]; subst;
    try exact Hst.
  - destruct Hst as [Hpi [Hph [Hci [Hdi [Href Hopen]]]]].
    destruct (add_password_spec strip st (form req))
      as [st2 [msgs2 [E [Hc [Hd [_ [_ [_ [_ [Hh Hi]]]]]]]]]].
    rewrite Hadd in E. inversion E; subst st2 msgs2.
    unfold consistent. rewrite Hc, Hd.
    split; [now apply Hi|]. split; [now apply Hh|].
    split; [exact Hci|]. split; [exact Hdi|]. split.
    + intros d k Hdin Hk. unfold refers_to_cards in Href.
      rewrite Hd in Hdin. destruct (Href d k Hdin Hk) as [c [Hcin Hid]].
      exists c. rewrite Hc. now split.
    + intros card. now apply (at_most_one_open_same_deliveries st).
  - now apply delete_password_consistent.
  - now apply delete_password_consistent.
Qed.

End ManagePasswords.

Lemma insert_passwords_none : forall added,
  fold_left
    (fun tbl h =>
       match tbl with
       | Some t => insert_password t h
       | None => None
       end)
    added None = None.
Proof.
  induction added as [|h added IH]; [reflexivity|exact IH].
Qed.

Lemma insert_passwords_ids : forall added tbl tbl',
  fold_left
    (fun tbl h =>
       match tbl with
       | Some t => insert_password t h
       | None => None
       end)
    added (Some tbl) = Some tbl' ->
  NoDup (map Password.id tbl) -> NoDup (map Password.id tbl').
Proof.
  induction added as [|h added IH]; intros tbl tbl' E Hnd; simpl in E.
  - inversion E; subst. exact Hnd.
  - unfold insert_password in E at 2.
    destruct (str_in h (map Password.hash tbl)).
    + now rewrite insert_passwords_none in E.
    + apply (IH _ _ E). rewrite map_app. simpl.
      apply NoDup_app; [exact Hnd|repeat constructor; intros []|].
      intros k Hk [<-|[]]. exact (fresh_id_new _ Hk).
Qed.

(** X17. [ensure_default_passwords] keeps the tables consistent: the rows
    it appends get keys and hashes that no stored password has. *)
Theorem ensure_default_passwords_keeps_consistent : forall st st',
  consistent st ->
  ensure_default_passwords st = Some st' ->
  consistent st'.
Proof.
  intros st st' [Hpi [Hph [Hci [Hdi [Href Hopen]]]]] E.
  assert (Hids : NoDup (map Password.id (passwords st'))).
  { pose proof E as E0. unfold ensure_default_passwords in E0.
    destruct (missing_defaults (map Password.hash (passwords st)))
      as [added created].
    destruct (negb (Nat.eqb created 0)).
    - destruct (fold_left _ added (Some (passwords st))) as [tbl|] eqn:F;
        [|discriminate].
      inversion E0 as [E1]. simpl.
      now apply (insert_passwords_ids added (passwords st)).
    - inversion E0 as [E1]. rewrite <- E1. exact Hpi. }
  destruct (ensure_default_passwords_spec st) as [new [E' M]].
  rewrite E in E'. inversion E' as [Hst']. clear E'.
  rewrite Hst' in Hids.
  unfold consistent. split; [exact Hids|].
  simpl passwords. simpl cards. simpl deliveries.
  split.
  - rewrite map_app, M. apply NoDup_app.
    + exact Hph.
    + apply NoDup_filter, default_digests_NoDup.
    + intros h Hh Hf. apply filter_In in Hf. destruct Hf as [_ Hf].
      apply str_in_In in Hh. now rewrite Hh in Hf.
  - split; [exact Hci|]. split; [exact Hdi|]. split; [exact Href|].
    exact Hopen.
Qed.

Lemma ensure_default_passwords_keeps_consistent_witness :
  exists st',
    ensure_default_passwords (Sample.store_of [Sample.lopez_out]) = Some st' /\
    consistent st'.
Proof.
  destruct (ensure_default_passwords (Sample.store_of [Sample.lopez_out]))
    as [st'|] eqn:E; [|vm_compute in E; discriminate].
  exists st'. split; [reflexivity|].
  apply (ensure_default_passwords_keeps_consistent
           (Sample.store_of [Sample.lopez_out]) st');
    [now apply sample_consistent|exact E].
Defined.

Lemma login_accepts : forall st session f args,
  In (_sha256 (form_get f "password" "")) (map Password.hash (passwords st)) ->
  login st session "POST" f args =
    (true,
     mk_result
       match assoc "next" args with
       | Some next_url =>
           if String.eqb next_url "" then ReplyRedirect "panel" None
           else ReplyRedirectUrl next_url
       | None => ReplyRedirect "panel" None
       end
       [("Acceso correcto.", "success")]).
Proof.
  intros st session f args H. unfold login. simpl String.eqb. cbv iota.
  now rewrite (proj2 (verify_password_In st _) H).
Qed.

(** X18. After [ensure_default_passwords], a POST to [login] with any of
    the default passwords opens the session, whatever the store held
    before.  A POST with a password whose digest is not stored is refused
    and leaves the session as it was. *)
Theorem login_after_seeding : forall st st' session f args,
  ensure_default_passwords st = Some st' ->
  (In (form_get f "password" "") DEFAULT_PASSWORDS ->
   fst (login st' session "POST" f args) = true /\
   flashed (snd (login st' session "POST" f args)) =
     [("Acceso correcto.", "success")]) /\
  (~ In (_sha256 (form_get f "password" ""))
        (map Password.hash (passwords st')) ->
   login st' session "POST" f args =
     (session, mk_result PageLogin [("Clave incorrecta.", "danger")])).
Proof.
  intros st st' session f args E. split.
  - intros Hd.
    destruct (ensure_default_passwords_spec st) as [new [E' M]].
    rewrite E in E'. inversion E' as [Hst']. clear E'.
    rewrite login_accepts; [now split|].
    simpl passwords. rewrite map_app, in_app_iff, M.
    destruct (str_in (_sha256 (form_get f "password" ""))
                (map Password.hash (passwords st))) eqn:Hs.
    + left. now apply str_in_In.
    + right. apply filter_In. split; [now apply in_map|now rewrite Hs].
  - intros Hno. unfold login. simpl String.eqb. cbv iota.
    destruct (verify_password st' (form_get f "password" "")) eqn:V;
      [|reflexivity].
    apply verify_password_In in V. contradiction.
Qed.

Lemma login_after_seeding_witness :
  exists st',
    ensure_default_passwords Sample.own_password = Some st' /\
    fst (login st' false "POST" [("password", "Lorena_Aramark_2025")] [])
    = true.
Proof.
  destruct (ensure_default_passwords Sample.own_password) as [st'|] eqn:E;
    [|vm_compute in E; discriminate].
  exists st'. split; [reflexivity|].
  apply (login_after_seeding Sample.own_password st' false
           [("password", "Lorena_Aramark_2025")] [] E).
  simpl. right. now left.
Defined.

(** X19. A password added through [manage_passwords] opens the session at
    [login] when it is typed as it was stored, that is stripped: [login]
    itself strips nothing. *)
Theorem login_after_add : forall strip st f st' msgs session args,
  add_password strip st f = Some (st', msgs) ->
  strip (form_get f "new_password" "") <> "" ->
  login st' session "POST"
    [("password", strip (form_get f "new_password" ""))] args =
    (true,
     mk_result
       match assoc "next" args with
       | Some next_url =>
           if String.eqb next_url "" then ReplyRedirect "panel" None
           else ReplyRedirectUrl next_url
       | None => ReplyRedirect "panel" None
       end
       [("Acceso correcto.", "success")]).
Proof.
  intros strip st f st' msgs session args E Hne.
  destruct (add_password_spec strip st f)
    as [st2 [msgs2 [E2 [_ [_ [_ [Hv _]]]]]]].
  rewrite E in E2. inversion E2; subst st2 msgs2.
  apply login_accepts. apply verify_password_In. now apply Hv.
Qed.

Lemma login_after_add_witness :
  fst (login
         (mk_store [Password.mk 1 (_sha256 "llave nueva")] [] [])
         false "POST" [("password", "llave nueva")] []) = true.
Proof.
  refine (f_equal fst
            (login_after_add strip_ascii (mk_store [] [] [])
               [("action", "add"); ("new_password", "  llave nueva ")]
               (mk_store [Password.mk 1 (_sha256 "llave nueva")] [] [])
               [("Clave agregada.", "success")] false [] _ _)).
  - vm_compute. reflexivity.
  - vm_compute. discriminate.
Defined.

Lemma manage_passwords_deletes_witness :
  verify_password (fst (delete_password Sample.own_password 1)) "otra"
  = false.
Proof.
  assert (Hstep :
    manage_passwords strip_ascii Sample.own_password
      (mk_request true "POST" [("action", "delete"); ("password_id", "1")])
      (fst (delete_password Sample.own_password 1),
       mk_result (PagePasswords [])
         (snd (delete_password Sample.own_password 1)))).
  { apply (passwords_delete strip_ascii Sample.own_password
             (mk_request true "POST"
                [("action", "delete"); ("password_id", "1")]) 1 []);
      try reflexivity.
    split; [apply perm_nil|constructor]. }
  destruct (manage_passwords_deletes strip_ascii _ _ 1 _ _ Hstep
              eq_refl eq_refl eq_refl eq_refl) as [_ [_ [_ [_ [_ Hall]]]]].
  apply Hall. intros p [<-|[]]. reflexivity.
Defined.

(** The decimal writing of an integer never starts with a blank. *)
Lemma str_of_Z_no_blank : forall k rest, str_of_Z k <> String " " rest.
Proof.
  intros k rest. unfold str_of_Z.
  destruct (Z.to_int k) as [u|u]; simpl; [|discriminate].
  destruct u; simpl; discriminate.
Qed.

(** The only stored password is deleted by a form that writes its key
    with a leading blank, as SQLite reads it. *)
Lemma sample_password_consistent : consistent Sample.own_password.
Proof.
  unfold consistent, Sample.own_password. cbn [passwords cards deliveries].
  split; [constructor; [intros []|constructor]|].
  split; [constructor; [intros []|constructor]|].
  split; [constructor|]. split; [constructor|].
  split; [intros d k []|].
  intros c. unfold at_most_one_open. simpl. lia.
Qed.

Lemma manage_passwords_keeps_consistent_witness :
  consistent (fst (delete_password Sample.own_password 1)) /\
  passwords (fst (delete_password Sample.own_password 1)) = [].
Proof.
  split; [|reflexivity].
  apply (proj2
           (manage_passwords_keeps_consistent strip_ascii
              Sample.own_password
              (mk_request true "POST"
                 [("action", "delete"); ("password_id", " 1")])
              sample_password_consistent)
           _
           (mk_result (PagePasswords [])
              (snd (delete_password Sample.own_password 1)))).
  apply (passwords_delete_text strip_ascii Sample.own_password
           (mk_request true "POST"
              [("action", "delete"); ("password_id", " 1")]) " 1" 1 []);
    try reflexivity.
  - intros k E. now apply (str_of_Z_no_blank k "1").
  - split; [apply perm_nil|constructor].
Defined.

(* ================================================================== *)
(** * The session gate *)
(* ================================================================== *)

Section Gate.

Variable strip : string -> string.
Variable strptime : string -> string -> option datetime.

(** X20. Without a logged-in session every handler behind
    [login_required] has one answer, the redirect to the login page: the
    store is not changed and nothing of it is shown. *)
Theorem login_required_gate :
  forall st category_code card_id req args upload now stamp,
  logged_in req = false ->
  (forall r,
     deliver_card strip strptime st category_code card_id req now stamp r ->
     r = (st, mk_outcome RedirectLogin [])) /\
  import_cards strip st false category_code upload stamp =
    (st, mk_outcome RedirectLogin []) /\
  delete_card st false category_code card_id =
    (st, mk_result ReplyLogin []) /\
  (forall r,
     category_view strip st category_code req args stamp r ->
     r = (st, mk_result ReplyLogin [])) /\
  (forall r, manage_passwords strip st req r ->
             r = (st, mk_result ReplyLogin [])) /\
  (forall r, panel st false r -> r = mk_result ReplyLogin []) /\
  (forall r, export_summary_excel st false r ->
             r = mk_result ReplyLogin []) /\
  (forall r, card_history st false category_code card_id r ->
             r = mk_result ReplyLogin []) /\
  (forall r, category_full_history st false category_code args r ->
             r = mk_result ReplyLogin []) /\
  download_cards_template false category_code = ReplyLogin /\
  summary false = ReplyLogin /\
  dashboard false = ReplyLogin.
Proof.
  intros st category_code card_id req args upload now stamp Hs.
  repeat match goal with
         | |- _ /\ _ => split
         end; try reflexivity;
    intros r Hr; inversion Hr; subst; congruence.
Qed.

End Gate.

Lemma login_required_gate_witness :
  delete_card (Sample.store_of [Sample.lopez_out]) false "MODULO" 7 =
  (Sample.store_of [Sample.lopez_out], mk_result ReplyLogin []).
Proof.
  exact (proj1 (proj2 (proj2
           (login_required_gate strip_ascii strptime_iso
              (Sample.store_of [Sample.lopez_out]) "MODULO" 7
              (mk_request false "POST" []) [] NoFile
              Sample.clock Sample.clock eq_refl)))).
Defined.

(* ================================================================== *)
(** * The summary *)
(* ================================================================== *)

Lemma filter_split_length : forall (A : Type) (p : A -> bool) l,
  List.length l =
  List.length (filter p l) + List.length (filter (fun x => negb (p x)) l).
Proof.
  intros A p l. induction l as [|x l IH]; [reflexivity|].
  simpl. destruct (p x); simpl; lia.
Qed.

(** A card shown as "Entregadas" has an open delivery. *)
Lemma entregadas_has_open : forall st card r,
  compute_card_status st card r ->
  String.eqb (snd r) "Entregadas" = true ->
  has_open_delivery st card = true.
Proof.
  intros st card r [ds [Hq ->]] Ht.
  pose proof (status_type_of_last ds) as Hlast.
  destruct (last_opt ds) as [e|] eqn:He;
    [|rewrite Hlast in Ht; discriminate].
  destruct (order_by_last_greatest _ ds e Hq He) as [Hin _].
  destruct (is_open e) eqn:Ho; [|rewrite Hlast in Ht; discriminate].
  unfold has_open_delivery.
  assert (Hopen : In e (open_rows st card))
    by (unfold open_rows; apply filter_In; now split).
  destruct (open_rows st card); [contradiction|reflexivity].
Qed.

Lemma count_entregadas_le : forall st cards results,
  Forall2 (compute_card_status st) cards results ->
  count_entregadas results <=
  List.length (filter (has_open_delivery st) cards).
Proof.
  intros st cards results H. unfold count_entregadas.
  induction H as [|c r cards results Hr H IH]; simpl; [lia|].
  destruct (String.eqb (snd r) "Entregadas") eqn:E.
  - rewrite (entregadas_has_open st c r Hr E). simpl. lia.
  - destruct (has_open_delivery st c); simpl; lia.
Qed.

(** X21. The summary of [panel] has one line for each category of
    [CATEGORY_ORDER], in that order.  On each line the total is the number
    of cards of the category and splits into active and inactive ones, a
    card without status counting as active; the pending ones are at most
    the cards of the category that have an open delivery.
    [export_summary_excel] writes lines with the same properties. *)
Theorem summary_lines : forall st res,
  panel st true res \/ export_summary_excel st true res ->
  exists lines,
    (reply res = PageSummary lines CATEGORY_ORDER \/
     reply res = FileSummary "resumen_tarjetas.xlsx" lines) /\
    map sum_category lines = CATEGORY_ORDER /\
    Forall
      (fun line =>
         sum_total line =
           List.length (cards_of_category st (sum_category line)) /\
         sum_total line = sum_activas line + sum_inactivas line /\
         sum_inactivas line =
           List.length
             (filter (fun c => negb (counts_as_activa c))
                (cards_of_category st (sum_category line))) /\
         sum_pendientes line <=
           List.length
             (filter (has_open_delivery st)
                (cards_of_category st (sum_category line))) /\
         sum_pendientes line <= sum_total line)
      lines.
Proof.
  intros st res H.
  assert (G : forall codes lines,
    Forall2 (summary_row st) codes lines ->
    map sum_category lines = codes /\
    Forall
      (fun line =>
         sum_total line =
           List.length (cards_of_category st (sum_category line)) /\
         sum_total line = sum_activas line + sum_inactivas line /\
         sum_inactivas line =
           List.length
             (filter (fun c => negb (counts_as_activa c))
                (cards_of_category st (sum_category line))) /\
         sum_pendientes line <=
           List.length
             (filter (has_open_delivery st)
                (cards_of_category st (sum_category line))) /\
         sum_pendientes line <= sum_total line)
      lines).
  { intros codes lines F.
    induction F as [|code line codes lines Hline F [IH1 IH2]].
    - split; constructor.
    - destruct Hline as [results [Hres ->]]. simpl. split; [now rewrite IH1|].
      constructor; [|exact IH2]. simpl.
      pose proof (filter_split_length _ counts_as_activa
                    (cards_of_category st code)) as Hsplit.
      pose proof (count_entregadas_le st _ _ Hres) as Hle.
      pose proof (filter_length (has_open_delivery st)
                    (cards_of_category st code)) as Hfl.
      repeat split; lia. }
  destruct H as [H|H]; inversion H as [Hs|lines Hs F]; subst;
    try discriminate; exists lines;
    (split; [auto|]); now apply G.
Qed.

Lemma summary_lines_witness :
  exists lines, map sum_category lines = CATEGORY_ORDER.
Proof.
  assert (H : panel (Sample.store_of [Sample.lopez_out]) true
                (mk_result
                   (PageSummary
                      [ mk_summary "MODULO" 1 1 0 1;
                        mk_summary "MAESTRA" 0 0 0 0;
                        mk_summary "MANTENCION" 0 0 0 0;
                        mk_summary "PROVISORIA" 0 0 0 0 ]
                      CATEGORY_ORDER) [])).
  { apply panel_page; [reflexivity|].
    constructor.
    - exists [("Entregada a A. Lopez (2024-01-01 10:00:00)", "Entregadas")].
      split; [|reflexivity].
      constructor; [|constructor].
      exists [Sample.lopez_out]. split; [|reflexivity]. ordered_answer.
    - repeat constructor; exists []; split; (reflexivity || constructor). }
  destruct (summary_lines _ _ (or_introl H)) as [lines [_ [Hcat _]]].
  now exists lines.
Defined.

(* ================================================================== *)
(** * Histories and listings *)
(* ================================================================== *)

Lemma history_step : forall status_filter d (acc : list Delivery.t),
  (if String.eqb status_filter "Entregadas" && negb (is_open d) then acc
   else if String.eqb status_filter "Devueltas" && is_open d then acc
   else (acc ++ [d])%list) =
  if shown_in_history status_filter d then (acc ++ [d])%list else acc.
Proof.
  intros status_filter d acc. unfold shown_in_history.
  destruct (String.eqb_spec status_filter "Entregadas") as [->|_].
  - destruct (is_open d); reflexivity.
  - destruct (String.eqb status_filter "Devueltas"), (is_open d);
      reflexivity.
Qed.

Lemma history_filter_is_filter : forall status_filter ds,
  history_filter status_filter ds =
  filter (shown_in_history status_filter) ds.
Proof.
  intros status_filter ds. unfold history_filter.
  assert (G : forall acc,
    fold_left
      (fun filtered d =>
         if String.eqb status_filter "Entregadas" && negb (is_open d)
         then filtered
         else if String.eqb status_filter "Devueltas" && is_open d
         then filtered
         else (filtered ++ [d])%list)
      ds acc =
    (acc ++ filter (shown_in_history status_filter) ds)%list).
  { induction ds as [|d ds IH]; intros acc; simpl.
    - now rewrite app_nil_r.
    - rewrite history_step, IH.
      destruct (shown_in_history status_filter d); [|reflexivity].
      now rewrite <- app_assoc. }
  apply (G []).
Qed.

Lemma StronglySorted_filter : forall (A : Type) (R : A -> A -> Prop)
    (p : A -> bool) l,
  StronglySorted R l -> StronglySorted R (filter p l).
Proof.
  intros A R p l H. induction H as [|x l H IH Hx]; simpl; [constructor|].
  destruct (p x); [|exact IH].
  constructor; [exact IH|].
  rewrite Forall_forall in *. intros y Hy. apply Hx.
  apply filter_In in Hy. now destruct Hy.
Qed.

(** X22. For a known category [category_full_history] lists, in ascending
    order of [entrega_at], the deliveries of the category that the filter
    keeps and no other: the open ones under "Entregadas", the returned
    ones under "Devueltas", all of them under any other value. *)
Theorem full_history_lists : forall st category_code args res,
  assoc category_code CATEGORY_DEFINITIONS <> None ->
  category_full_history st true category_code args res ->
  exists listed,
    res = mk_result (PageHistory None listed category_code) [] /\
    (forall d,
       In d listed <->
       In d (deliveries st) /\ Delivery.category d = category_code /\
       shown_in_history
         match assoc "status" args with Some v => v | None => "Todas" end
         d = true) /\
    StronglySorted entrega_le listed.
Proof.
  intros st category_code args res Hk H.
  inversion H as [Hs|Hs Hc|ordered Hs Hc [Hp Hsorted]]; subst;
    try discriminate; try contradiction.
  eexists. split; [reflexivity|].
  rewrite history_filter_is_filter. split.
  - intros d. rewrite filter_In. split.
    + intros [Hd Hshown].
      apply (Permutation_in _ (Permutation_sym Hp)) in Hd.
      apply filter_In in Hd. destruct Hd as [Hd Hcat].
      apply String.eqb_eq in Hcat. now repeat split.
    + intros [Hd [Hcat Hshown]]. split; [|exact Hshown].
      apply (Permutation_in _ Hp). apply filter_In.
      split; [exact Hd|]. now apply String.eqb_eq.
  - now apply StronglySorted_filter.
Qed.

Lemma full_history_lists_witness :
  exists listed,
    mk_result (PageHistory None [Sample.early_out] "MODULO") [] =
    mk_result (PageHistory None listed "MODULO") [].
Proof.
  destruct (full_history_lists
              (Sample.store_of [Sample.late_back; Sample.early_out])
              "MODULO" [("status", "Entregadas")]
              (mk_result (PageHistory None [Sample.early_out] "MODULO") []))
    as [listed [E _]].
  - discriminate.
  - apply (full_history_page
             (Sample.store_of [Sample.late_back; Sample.early_out]) true
             "MODULO" [("status", "Entregadas")]
             [Sample.early_out; Sample.late_back]).
    + reflexivity.
    + discriminate.
    + ordered_answer.
  - now exists listed.
Defined.

Lemma listing_rows : forall st fields status_filter cards listed,
  listing st fields status_filter cards listed ->
  (forall row, In row listed ->
     In (row_card row) cards /\
     row_values row =
       map (fun field => or_empty (getattr (row_card row) (fst field)))
         fields /\
     exists r,
       compute_card_status st (row_card row) r /\
       row_estado_texto row = fst r /\
       listed_under status_filter (snd r) = true) /\
  (status_filter <> "Entregadas" -> status_filter <> "Devueltas" ->
   map row_card listed = cards).
Proof.
  intros st fields status_filter cards listed H.
  induction H as [|card cards r listed Hr Hu H [IH1 IH2]
                  |card cards r listed Hr Hu H [IH1 IH2]].
  - split; [intros row []|reflexivity].
  - split.
    + intros row [<-|Hrow].
      * simpl. split; [now left|]. split; [reflexivity|]. now exists r.
      * destruct (IH1 row Hrow) as [Hin Hrest]. split; [now right|exact Hrest].
    + intros H1 H2. simpl. now rewrite IH2.
  - split.
    + intros row Hrow. destruct (IH1 row Hrow) as [Hin Hrest].
      split; [now right|exact Hrest].
    + intros H1 H2. exfalso. unfold listed_under in Hu.
      apply String.eqb_neq in H1, H2. rewrite H1, H2 in Hu. discriminate.
Qed.

Section Listing.

Variable strip : string -> string.

(** X23. When [category_view] shows the page of a category the store is
    left as it was.  Every line shown is a card of the category with its
    field values, unset ones as empty text, and with a status text that
    [compute_card_status] answers for it, of a type the filter keeps;
    under a filter other than "Entregadas" and "Devueltas" every card of
    the category is on the page once, in ascending order of key. *)
Theorem category_view_lists :
  forall st category_code req args stamp st' fields listed status_filter
         categories,
  category_view strip st category_code req args stamp
    (st',
     mk_result
       (PageCategory category_code fields listed status_filter categories)
       []) ->
  st' = st /\
  assoc category_code CATEGORY_DEFINITIONS = Some fields /\
  status_filter =
    match assoc "status" args with Some v => v | None => "Todas" end /\
  (forall row, In row listed ->
     In (row_card row) (cards st) /\
     Card.category (row_card row) = category_code /\
     row_values row =
       map (fun field => or_empty (getattr (row_card row) (fst field)))
         fields /\
     exists r,
       compute_card_status st (row_card row) r /\
       row_estado_texto row = fst r /\
       listed_under status_filter (snd r) = true) /\
  (status_filter <> "Entregadas" -> status_filter <> "Devueltas" ->
   Permutation (cards_of_category st category_code) (map row_card listed) /\
   StronglySorted (fun a b => (Card.id a <= Card.id b)%Z)
     (map row_card listed)).
Proof.
  intros st category_code req args stamp st' fields listed status_filter
    categories H.
  inversion H as [Hs Heq|Hs Hc Heq|fields' Hs Hc Hm Ha Heq
                  |fields' ordered listed' Hs Hc Hm [Hp Hsorted] Hl Heq];
    subst.
  destruct (listing_rows _ _ _ _ _ Hl) as [Hrows Hall].
  split; [reflexivity|]. split; [exact Hc|]. split; [reflexivity|]. split.
  - intros row Hrow. destruct (Hrows row Hrow) as [Hin Hrest].
    apply (Permutation_in _ (Permutation_sym Hp)) in Hin.
    unfold cards_of_category in Hin. apply filter_In in Hin.
    destruct Hin as [Hin Hcat]. apply String.eqb_eq in Hcat.
    split; [exact Hin|]. split; [exact Hcat|exact Hrest].
  - intros H1 H2. rewrite (Hall H1 H2). now split.
Qed.

(** X24. [category_view] keeps the tables consistent. *)
Theorem category_view_keeps_consistent :
  forall st category_code req args stamp st' res,
  consistent st ->
  category_view strip st category_code req args stamp (st', res) ->
  consistent st'.
Proof.
  intros st category_code req args stamp st' res Hst H.
  inversion H as [Hs Heq|Hs Hc Heq|fields' Hs Hc Hm Ha Heq
                  |fields' ordered listed' Hs Hc Hm Ho Hl Heq];
    subst; try exact Hst.
  exact (proj1 (insert_cards_consistent st stamp
                  [card_of_form strip category_code fields' (form req)] Hst)).
Qed.

End Listing.

Lemma category_view_lists_witness :
  exists fields, assoc "MODULO" CATEGORY_DEFINITIONS = Some fields.
Proof.
  assert (Hfields : exists fields,
            assoc "MODULO" CATEGORY_DEFINITIONS = Some fields)
    by (eexists; reflexivity).
  destruct Hfields as [fields Hfields].
  assert (Hstep :
    category_view strip_ascii (Sample.store_of [Sample.lopez_out]) "MODULO"
      (mk_request true "GET" []) [("status", "Entregadas")] Sample.clock
      (Sample.store_of [Sample.lopez_out],
       mk_result
         (PageCategory "MODULO" fields
            [mk_row Sample.card
               (map (fun field => or_empty (getattr Sample.card (fst field)))
                  fields)
               "Entregada a A. Lopez (2024-01-01 10:00:00)"]
            "Entregadas" CATEGORY_ORDER)
         [])).
  { apply (category_list strip_ascii (Sample.store_of [Sample.lopez_out])
             "MODULO" (mk_request true "GET" []) [("status", "Entregadas")]
             Sample.clock fields [Sample.card]).
    - reflexivity.
    - exact Hfields.
    - left. discriminate.
    - split; [apply Permutation_refl|repeat constructor].
    - apply (listing_shown _ _ _ Sample.card []
               ("Entregada a A. Lopez (2024-01-01 10:00:00)", "Entregadas")).
      + exists [Sample.lopez_out]. split; [|reflexivity]. ordered_answer.
      + reflexivity.
      + constructor. }
  destruct (category_view_lists strip_ascii _ _ _ _ _ _ _ _ _ _ Hstep)
    as [_ [Hk _]].
  now exists fields.
Defined.

Lemma category_view_keeps_consistent_witness :
  consistent
    (mk_store []
       (insert_card [Sample.card] Sample.clock
          (card_of_form strip_ascii "MODULO"
             [ ("n", "N°");
               ("modulo_sector", "Módulo / Sector");
               ("nombre_tarjeta", "Nombre de la Tarjeta");
               ("tipo_tarjeta", "Tipo de Tarjeta");
               ("numero_tarjeta", "Numero de tarjeta") ]
             [("action", "add"); ("n", "2")]))
       [Sample.lopez_out]).
Proof.
  apply (category_view_keeps_consistent strip_ascii
           (Sample.store_of [Sample.lopez_out]) "MODULO"
           (mk_request true "POST" [("action", "add"); ("n", "2")])
           [] Sample.clock _
           (mk_result (ReplyRedirect "category_view" (Some "MODULO"))
              [("Tarjeta agregada.", "success")])).
  - now apply sample_consistent.
  - exact (category_add strip_ascii (Sample.store_of [Sample.lopez_out])
             "MODULO"
             (mk_request true "POST" [("action", "add"); ("n", "2")])
             [] Sample.clock _ eq_refl eq_refl eq_refl eq_refl).
Defined.

(* ================================================================== *)
(** * The history of one card *)
(* ================================================================== *)

(** The query of [card_history], by the category of the address and the
    key of the card found, selects the rows [compute_card_status] reads. *)
Lemma card_history_rows : forall st card_id category_code card,
  find_card st card_id category_code = Some card ->
  filter (fun d => String.eqb (Delivery.category d) category_code &&
                   match Delivery.card_id d with
                   | Some k => Z.eqb k (Card.id card)
                   | None => false
                   end) (deliveries st) =
  card_rows st card.
Proof.
  intros st card_id category_code card H.
  apply find_card_category in H. destruct H as [_ Hcat].
  unfold card_rows. apply filter_ext. intros d. unfold of_card.
  now rewrite Hcat.
Qed.

(** X25. [card_history] answers 404 exactly when no card has the key under
    the category of the address.  Otherwise its page lists the deliveries
    that [compute_card_status] reads for the card, in ascending order of
    [entrega_at]: the status worked out from the lines of the page is a
    status of the card, and the delivery [get_last_open_delivery] finds is
    one of the lines. *)
Theorem card_history_lists : forall st category_code card_id res,
  card_history st true category_code card_id res ->
  match find_card st card_id category_code with
  | None => res = mk_result Reply404 []
  | Some card =>
      exists listed,
        res = mk_result (PageHistory (Some card) listed category_code) [] /\
        Permutation (card_rows st card) listed /\
        StronglySorted entrega_le listed /\
        compute_card_status st card (status_of_deliveries listed) /\
        forall d, get_last_open_delivery st card (Some d) -> In d listed
  end.
Proof.
  intros st category_code card_id res H.
  inversion H as [Hs|Hs Hnone|card listed Hs Hfound Hq]; subst.
  - discriminate.
  - now rewrite Hnone.
  - rewrite Hfound. rewrite (card_history_rows _ _ _ _ Hfound) in Hq.
    exists listed. split; [reflexivity|].
    destruct Hq as [Hp Hsorted].
    split; [exact Hp|]. split; [exact Hsorted|]. split.
    + exists listed. split; [now split|reflexivity].
    + intros d [ds [[Hpo _] Hlast]].
      symmetry in Hlast. apply last_opt_In in Hlast.
      apply (Permutation_in _ (Permutation_sym Hpo)) in Hlast.
      apply filter_In in Hlast. destruct Hlast as [Hd _].
      now apply (Permutation_in _ Hp).
Qed.

Lemma card_history_lists_witness :
  exists listed,
    mk_result
      (PageHistory (Some Sample.card) [Sample.early_out; Sample.late_back]
         "MODULO") [] =
    mk_result (PageHistory (Some Sample.card) listed "MODULO") [].
Proof.
  assert (H : card_history
                (Sample.store_of [Sample.late_back; Sample.early_out]) true
                "MODULO" 7
                (mk_result
                   (PageHistory (Some Sample.card)
                      [Sample.early_out; Sample.late_back] "MODULO") [])).
  { apply history_page; [reflexivity|reflexivity|]. ordered_answer. }
  apply card_history_lists in H.
  destruct H as [listed [E _]]. now exists listed.
Defined.

(** X26. The history of a category holds the history of each of its
    cards: a line of a card's page that the status filter keeps is a line
    of every page [category_full_history] shows for that category. *)
Theorem full_history_holds_card_history :
  forall st category_code card_id args card listed every,
  card_history st true category_code card_id
    (mk_result (PageHistory (Some card) listed category_code) []) ->
  category_full_history st true category_code args
    (mk_result (PageHistory None every category_code) []) ->
  forall d,
    In d listed ->
    shown_in_history
      match assoc "status" args with Some v => v | None => "Todas" end
      d = true ->
    In d every.
Proof.
  intros st category_code card_id args card listed every Hc Hf d Hd Hshown.
  inversion Hc as [| |card' listed' Hs Hfound [Hp _] [Ecard Elisted]];
    subst card' listed'.
  inversion Hf as [| |ordered Hs' Hk [Hp' _] Eevery].
  rewrite history_filter_is_filter. apply filter_In. split; [|exact Hshown].
  apply (Permutation_in _ Hp'). apply filter_In.
  apply (Permutation_in _ (Permutation_sym Hp)) in Hd.
  apply filter_In in Hd. destruct Hd as [Hin Hb].
  apply andb_true_iff in Hb. destruct Hb as [Hcat _].
  now split.
Qed.

Lemma full_history_holds_card_history_witness :
  In Sample.early_out [Sample.early_out].
Proof.
  apply (full_history_holds_card_history
           (Sample.store_of [Sample.late_back; Sample.early_out])
           "MODULO" 7 [("status", "Entregadas")] Sample.card
           [Sample.early_out; Sample.late_back] [Sample.early_out]).
  - apply history_page; [reflexivity|reflexivity|]. ordered_answer.
  - apply (full_history_page
             (Sample.store_of [Sample.late_back; Sample.early_out]) true
             "MODULO" [("status", "Entregadas")]
             [Sample.early_out; Sample.late_back]).
    + reflexivity.
    + discriminate.
    + ordered_answer.
  - now left.
  - reflexivity.
Defined.

(* ================================================================== *)
(** * The order of the engine *)
(* ================================================================== *)

Section StableSort.

Context {A : Type}.
Variable leb : A -> A -> bool.
Variable before : A -> A -> Prop.
Hypothesis leb_total : forall a b, leb a b = true \/ leb b a = true.
Hypothesis leb_trans : forall a b c,
  leb a b = true -> leb b c = true -> leb a c = true.



End StableSort.















